(** * BAG layout core: via-array optimizer and resistor sizer

    A shallow embedding of the search routines of [bag/layout/core.py]
    ([TechInfo.get_best_via_array], [TechInfo._via_better],
    [TechInfo.get_via_info] and [TechInfo.design_resistor]) together with
    the properties stated about them.

    Python integers are [Z]; Python floats are the kernel's binary64
    floats ([PrimFloat.float]); exceptions are carried by [result]. *)

From Stdlib Require Import ZArith List Lia Bool String Floats Sorted.
Import ListNotations.

Set Warnings "-inexact-float".
Open Scope Z_scope.

(* ------------------------------------------------------------------ *)
(** * Exceptions *)

Inductive exn : Type :=
| ValueError
| ZeroDivisionError
| OverflowError
| TypeError.

Inductive result (A : Type) : Type :=
| Ok (a : A)
| Raise (e : exn).

Arguments Ok {A} a.
Arguments Raise {A} e.

Definition bind {A B : Type} (m : result A) (k : A -> result B) : result B :=
  match m with
  | Ok a => k a
  | Raise e => Raise e
  end.

Notation "x <- m ;; k" := (bind m (fun x => k))
  (at level 61, m at next level, right associativity).
Notation "' p <- m ;; k" := (bind m (fun p => k))
  (at level 61, p pattern, m at next level, right associativity).

(* ------------------------------------------------------------------ *)
(** * Python numbers *)

Module Py.

(** [a // b] on integers. *)
Definition floordiv (a b : Z) : result Z :=
  if b =? 0 then Raise ZeroDivisionError else Ok (a / b).

(** [float(n)]: the nearest double, ties to even; an integer that rounds
    past the largest double raises [OverflowError]. *)
Definition float_of_int (n : Z) : result float :=
  let f := SF2Prim (binary_normalize prec emax n 0 false) in
  if PrimFloat.is_infinity f then Raise OverflowError else Ok f.

(** [x / y] on floats. *)
Definition truediv (x y : float) : result float :=
  if PrimFloat.is_zero y then Raise ZeroDivisionError else Ok (x / y)%float.

(** [n / y], [x / n], [n * y] with an integer operand: the integer is
    converted first. *)
Definition int_div_float (n : Z) (y : float) : result float :=
  x <- float_of_int n ;; truediv x y.

Definition float_div_int (x : float) (n : Z) : result float :=
  y <- float_of_int n ;; truediv x y.

Definition float_mul_int (x : float) (n : Z) : result float :=
  y <- float_of_int n ;; Ok (x * y)%float.

Definition int_mul_float (n : Z) (y : float) : result float :=
  x <- float_of_int n ;; Ok (x * y)%float.

Definition exact_int (n : Z) : spec_float :=
  match n with
  | Z0 => S754_zero false
  | Zpos p => S754_finite false p 0
  | Zneg p => S754_finite true p 0
  end.

(** [a / b] on two integers: the correctly rounded quotient. *)
Definition int_truediv (a b : Z) : result float :=
  if b =? 0 then Raise ZeroDivisionError
  else
    let q := SF2Prim (SFdiv prec emax (exact_int a) (exact_int b)) in
    if PrimFloat.is_infinity q then Raise OverflowError else Ok q.

(** The value of a finite double as a fraction [n / d] with [d] a power
    of two. *)
Definition fraction (s : bool) (m : positive) (e : Z) : Z * Z :=
  let n := if s then Zneg m else Zpos m in
  if 0 <=? e then (n * 2 ^ e, 1) else (n, 2 ^ (- e)).

Definition finite_to_int (f : Z -> Z -> Z) (x : float) : result Z :=
  match Prim2SF x with
  | S754_zero _ => Ok 0
  | S754_infinity _ => Raise OverflowError
  | S754_nan => Raise ValueError
  | S754_finite s m e => let '(n, d) := fraction s m e in Ok (f n d)
  end.

Definition half_even (n d : Z) : Z :=
  let q := n / d in
  let r := n mod d in
  if 2 * r <? d then q
  else if d <? 2 * r then q + 1
  else if Z.even q then q else q + 1.

(** [round(x)] with one argument: an integer, ties to even. *)
Definition round (x : float) : result Z := finite_to_int half_even x.

(** [math.ceil(x)]. *)
Definition ceil (x : float) : result Z :=
  finite_to_int (fun n d => - ((- n) / d)) x.

(** [range(lo, hi)]. *)
Definition range (lo hi : Z) : list Z :=
  map (fun i => lo + Z.of_nat i) (seq 0 (Z.to_nat (hi - lo))).

(** [t[i]] on a pair. *)
Definition item (t : Z * Z) (i : Z) : Z :=
  if i =? 0 then fst t else snd t.

End Py.

(* ------------------------------------------------------------------ *)
(** * The technology interface *)

(** The tuple returned by [get_via_drc_info]. *)
Record via_drc_info : Type := {
  drc_sp : Z * Z;
  drc_sp2_list : option (list (Z * Z));
  drc_sp3_list : option (list (Z * Z));
  drc_dim : Z * Z;
  drc_enc : list (Z * Z);
  drc_arr_enc : option (list (Z * Z));
  drc_arr_test : option (Z -> Z -> bool)
}.

(** The methods of [TechInfo] that the search routines call on [self].
    [get_via_drc_info] raises [ValueError] when it has no rule. *)
Record TechInfo : Type := {
  resolution : float;
  layout_unit : float;
  get_via_types : string -> string -> list (string * Z);
  get_via_drc_info : string -> string -> string -> Z -> bool -> result via_drc_info;
  get_layer_id : string -> Z;
  get_layer_type : string -> string;
  get_via_name : Z -> string;
  get_via_em_specs :
    string -> string -> string -> string -> float * float -> float * float ->
    bool -> float * float * float;
  get_res_rsquare : string -> float;
  get_res_width_bounds : string -> float * float;
  get_res_length_bounds : string -> float * float;
  get_res_min_nsquare : string -> float;
  get_res_em_specs : string -> float -> float -> float * float * float
}.

(** [TechInfo.get_via_types] as the base class defines it. *)
Definition base_via_types (bmtype tmtype : string) : list (string * Z) :=
  [("square"%string, 1); ("vrect"%string, 2); ("hrect"%string, 2)].

(* ------------------------------------------------------------------ *)
(** * [get_best_via_array] *)

(** Tuple order on [(num, nx, ny)]. *)
Definition triple_ltb (a b : Z * Z * Z) : bool :=
  let '(n1, x1, y1) := a in
  let '(n2, x2, y2) := b in
  (n1 <? n2) || ((n1 =? n2) && ((x1 <? x2) || ((x1 =? x2) && (y1 <? y2)))).

Fixpoint insert_desc (t : Z * Z * Z) (l : list (Z * Z * Z)) : list (Z * Z * Z) :=
  match l with
  | [] => [t]
  | h :: tl => if triple_ltb t h then h :: insert_desc t tl else t :: l
  end.

(** [sorted(l, reverse=True)] on tuples. *)
Definition sorted_reverse (l : list (Z * Z * Z)) : list (Z * Z * Z) :=
  fold_right insert_desc [] l.

(** [[(a * b, a, b) for a in range(1, nx_max + 1) for b in range(1, ny_max + 1)]],
    sorted in decreasing order. *)
Definition nxy_list (nx_max ny_max : Z) : list (Z * Z * Z) :=
  sorted_reverse
    (flat_map (fun a => map (fun b => (a * b, a, b)) (Py.range 1 (ny_max + 1)))
              (Py.range 1 (nx_max + 1))).

(** [sp2_list] and [sp3_list] once their [None] defaults are filled in. *)
Definition default_sp2 (sp : Z * Z) (sp2_list : option (list (Z * Z))) : list (Z * Z) :=
  match sp2_list with
  | None => [sp]
  | Some l => l
  end.

Definition default_sp3 (sp : Z * Z) (sp2_list sp3_list : option (list (Z * Z)))
  : list (Z * Z) :=
  match sp3_list with
  | None => default_sp2 sp sp2_list
  | Some l => l
  end.

Definition sp_min_step (acc high : Z * Z) : Z * Z :=
  (Z.min (fst acc) (fst high), Z.min (snd acc) (snd high)).

(** [(spx_min, spy_min)] after the loop over [(sp2_list, sp3_list)]. *)
Definition sp_min (sp : Z * Z) (sp2_list sp3_list : list (Z * Z)) : Z * Z :=
  fold_left sp_min_step sp3_list (fold_left sp_min_step sp2_list sp).

(** The spacing list [sp_combo] tried for [(nx, ny)]. *)
Definition sp_combo (sp : Z * Z) (sp2_list sp3_list : list (Z * Z)) (nx ny : Z)
  : list (Z * Z) :=
  if (nx =? 2) && (ny =? 2) then sp2_list
  else if (1 <? nx) && (1 <? ny) then sp3_list
  else [sp].

(** The test [enc[enc_idx] * 2 + enc_dim <= dim_lim and
    (extend or cur_ext_dim <= max_ext_dim)]. *)
Definition enc_passes (extend : bool) (enc_idx enc_dim ext_dim dim_lim max_ext_dim : Z)
    (enc : Z * Z) : bool :=
  let cur_ext_dim := ext_dim + 2 * Py.item enc (1 - enc_idx) in
  (Py.item enc enc_idx * 2 + enc_dim <=? dim_lim)
  && (extend || (cur_ext_dim <=? max_ext_dim)).

(** One pass of the loop over [tot_enc_list]. *)
Definition enc_step (extend : bool) (enc_idx enc_dim ext_dim dim_lim max_ext_dim : Z)
    (min_ext_dim : option Z) (enc : Z * Z) : option Z :=
  let cur_ext_dim := ext_dim + 2 * Py.item enc (1 - enc_idx) in
  if enc_passes extend enc_idx enc_dim ext_dim dim_lim max_ext_dim enc
  then
    match min_ext_dim with
    | None => Some cur_ext_dim
    | Some m => if cur_ext_dim <? m then Some cur_ext_dim else min_ext_dim
    end
  else min_ext_dim.

(** [tot_enc_list], with [arr_enc] appended when [arr_test(ny, nx)]
    holds. Appending [None] to a list raises [TypeError]. *)
Definition total_enc_list (nx ny : Z) (tot_enc_list : list (Z * Z))
    (arr_enc : option (list (Z * Z))) (arr_test : option (Z -> Z -> bool))
  : result (list (Z * Z)) :=
  match arr_test with
  | Some test =>
      if test ny nx then
        match arr_enc with
        | Some extra => Ok (tot_enc_list ++ extra)
        | None => Raise TypeError
        end
      else Ok tot_enc_list
  | None => Ok tot_enc_list
  end.

(** [(enc_idx, enc_dim, ext_dim, dim_lim, max_ext_dim)] for a layer of
    direction [mdir]. *)
Definition layer_axes (mdir : string) (w h w_arr h_arr : Z) : Z * Z * Z * Z * Z :=
  if String.eqb mdir "y" then (0, w_arr, h_arr, w, h)
  else (1, h_arr, w_arr, h, w).

(** The body of the loop over the two metal layers: [None] when every
    enclosure rule fails, otherwise the recorded [mdim_list[idx]]. *)
Definition check_layer (w h : Z) (extend : bool) (nx ny w_arr h_arr : Z)
    (mdir : string) (tot_enc_list : list (Z * Z))
    (arr_enc : option (list (Z * Z))) (arr_test : option (Z -> Z -> bool))
  : result (option (Z * Z)) :=
  tot_enc_list <- total_enc_list nx ny tot_enc_list arr_enc arr_test ;;
  let '(enc_idx, enc_dim, ext_dim, dim_lim, max_ext_dim) :=
    layer_axes mdir w h w_arr h_arr in
  match fold_left (enc_step extend enc_idx enc_dim ext_dim dim_lim max_ext_dim)
                  tot_enc_list None with
  | None => Ok None
  | Some min_ext_dim =>
      let min_ext_dim := Z.max min_ext_dim max_ext_dim in
      Ok (Some (if enc_idx =? 0 then (dim_lim, min_ext_dim)
                else (min_ext_dim, dim_lim)))
  end.

(** What the search keeps for a via type: [opt_nxy], [opt_mdim_list],
    [opt_adim], [opt_sp]. *)
Record via_opt : Type := {
  opt_nxy : Z * Z;
  opt_mdim_list : list (Z * Z);
  opt_adim : Z * Z;
  opt_sp : Z * Z
}.

(** The body of the loop over [sp_combo]. *)
Definition try_spacing (w h : Z) (extend : bool) (bot_dir top_dir : string)
    (dim : Z * Z) (encb : list (Z * Z)) (arr_encb : option (list (Z * Z)))
    (arr_testb : option (Z -> Z -> bool))
    (enct : list (Z * Z)) (arr_enct : option (list (Z * Z)))
    (arr_testt : option (Z -> Z -> bool))
    (nx ny : Z) (sp : Z * Z) : result (option via_opt) :=
  let '(spx, spy) := sp in
  let w_arr := nx * (spx + fst dim) - spx in
  let h_arr := ny * (spy + snd dim) - spy in
  mb <- check_layer w h extend nx ny w_arr h_arr bot_dir encb arr_encb arr_testb ;;
  match mb with
  | None => Ok None
  | Some mdim_bot =>
      mt <- check_layer w h extend nx ny w_arr h_arr top_dir enct arr_enct arr_testt ;;
      match mt with
      | None => Ok None
      | Some mdim_top =>
          Ok (Some {| opt_nxy := (nx, ny);
                      opt_mdim_list := [mdim_bot; mdim_top];
                      opt_adim := (w_arr, h_arr);
                      opt_sp := (spx, spy) |})
      end
  end.

(** A [for] loop left by [break] at the first success. *)
Fixpoint first_success {A B : Type} (f : A -> result (option B)) (l : list A)
  : result (option B) :=
  match l with
  | [] => Ok None
  | a :: tl =>
      r <- f a ;;
      match r with
      | Some b => Ok (Some b)
      | None => first_success f tl
      end
  end.

(** Everything after the [try] block for one via type, up to [opt_nxy]. *)
Definition find_opt (w h : Z) (extend : bool) (bot_dir top_dir : string)
    (bot_drc_info top_drc_info : via_drc_info) : result (option via_opt) :=
  let sp := drc_sp bot_drc_info in
  let dim := drc_dim bot_drc_info in
  let sp2_list := default_sp2 sp (drc_sp2_list bot_drc_info) in
  let sp3_list := default_sp3 sp (drc_sp2_list bot_drc_info) (drc_sp3_list bot_drc_info) in
  let '(spx_min, spy_min) := sp_min sp sp2_list sp3_list in
  nx_max <- Py.floordiv (w + spx_min) (fst dim + spx_min) ;;
  ny_max <- Py.floordiv (h + spy_min) (snd dim + spy_min) ;;
  first_success
    (fun '(num, nx, ny) =>
       first_success
         (try_spacing w h extend bot_dir top_dir dim
            (drc_enc bot_drc_info) (drc_arr_enc bot_drc_info) (drc_arr_test bot_drc_info)
            (drc_enc top_drc_info) (drc_arr_enc top_drc_info) (drc_arr_test top_drc_info)
            nx ny)
         (sp_combo sp sp2_list sp3_list nx ny))
    (nxy_list nx_max ny_max).

(** [int(round(mdim[0] / res)) * int(round(mdim[1] / res))]. *)
Definition layer_area (res : float) (mdim : Z * Z) : result Z :=
  q0 <- Py.int_div_float (fst mdim) res ;;
  a <- Py.round q0 ;;
  q1 <- Py.int_div_float (snd mdim) res ;;
  b <- Py.round q1 ;;
  Ok (a * b).

Fixpoint via_better_loop (res : float) (l : list ((Z * Z) * (Z * Z))) (better : bool)
  : result bool :=
  match l with
  | [] => Ok better
  | (mdim1, mdim2) :: tl =>
      area1 <- layer_area res mdim1 ;;
      area2 <- layer_area res mdim2 ;;
      if area1 <? area2 then via_better_loop res tl true
      else if area2 <? area1 then Ok false
      else via_better_loop res tl better
  end.

(** [TechInfo._via_better]. *)
Definition _via_better (res : float) (mdim_list1 mdim_list2 : list (Z * Z)) : result bool :=
  via_better_loop res (combine mdim_list1 mdim_list2) false.

(** The [best_*] variables, set together; absent while [best_num] is [None]. *)
Record via_best : Type := {
  best_num : Z;
  best_nxy : Z * Z;
  best_mdim_list : list (Z * Z);
  best_type : string;
  best_vdim : Z * Z;
  best_sp : Z * Z;
  best_adim : Z * Z
}.

Definition make_best (weight : Z) (vtype : string) (dim : Z * Z) (o : via_opt) : via_best :=
  {| best_num := weight * fst (opt_nxy o) * snd (opt_nxy o);
     best_nxy := opt_nxy o;
     best_mdim_list := opt_mdim_list o;
     best_type := vtype;
     best_vdim := dim;
     best_sp := opt_sp o;
     best_adim := opt_adim o |}.

(** The update at the end of the loop over via types. *)
Definition update_best (res : float) (weight : Z) (vtype : string) (dim : Z * Z)
    (o : via_opt) (best : option via_best) : result (option via_best) :=
  let opt_num := weight * fst (opt_nxy o) * snd (opt_nxy o) in
  let new := Some (make_best weight vtype dim o) in
  match best with
  | None => Ok new
  | Some b =>
      if best_num b <? opt_num then Ok new
      else if opt_num =? best_num b then
        better <- _via_better res (opt_mdim_list o) (best_mdim_list b) ;;
        Ok (if better then new else best)
      else Ok best
  end.

(** The DRC lookups under [try ... except ValueError: continue]. *)
Definition lookup_drc (tech : TechInfo) (vname vtype bmtype tmtype : string) (bb tb : Z)
  : result (option (via_drc_info * via_drc_info)) :=
  match get_via_drc_info tech vname vtype bmtype bb true with
  | Raise ValueError => Ok None
  | Raise e => Raise e
  | Ok bot_drc_info =>
      match get_via_drc_info tech vname vtype tmtype tb false with
      | Raise ValueError => Ok None
      | Raise e => Raise e
      | Ok top_drc_info => Ok (Some (bot_drc_info, top_drc_info))
      end
  end.

(** One pass of the loop over [via_type_list]. *)
Definition via_type_step (tech : TechInfo) (vname bmtype tmtype bot_dir top_dir : string)
    (w h : Z) (extend : bool) (bb tb : Z)
    (best : option via_best) (cand : string * Z) : result (option via_best) :=
  let '(vtype, weight) := cand in
  drc <- lookup_drc tech vname vtype bmtype tmtype bb tb ;;
  match drc with
  | None => Ok best
  | Some (bot_drc_info, top_drc_info) =>
      opt <- find_opt w h extend bot_dir top_dir bot_drc_info top_drc_info ;;
      match opt with
      | None => Ok best
      | Some o =>
          update_best (resolution tech) weight vtype (drc_dim bot_drc_info) o best
      end
  end.

Fixpoint for_each {S A : Type} (body : S -> A -> result S) (l : list A) (s : S)
  : result S :=
  match l with
  | [] => Ok s
  | a :: tl => s' <- body s a ;; for_each body tl s'
  end.

(** [get_best_via_array] up to the final [return], keeping [best_num]. *)
Definition via_search (tech : TechInfo) (vname bmtype tmtype bot_dir top_dir : string)
    (w h : Z) (extend : bool) : result (option via_best) :=
  let '(bb, be) := if String.eqb bot_dir "x" then (h, w) else (w, h) in
  let '(tb, te) := if String.eqb top_dir "x" then (h, w) else (w, h) in
  for_each (via_type_step tech vname bmtype tmtype bot_dir top_dir w h extend bb tb)
           (get_via_types tech bmtype tmtype) None.

(** The tuple [get_best_via_array] returns. *)
Record via_array : Type := {
  arr_nxy : Z * Z;
  arr_mdim_list : list (Z * Z);
  arr_vtype : string;
  arr_vdim : Z * Z;
  arr_via_space : Z * Z;
  arr_via_arr_dim : Z * Z
}.

Definition via_array_of (b : via_best) : via_array :=
  {| arr_nxy := best_nxy b;
     arr_mdim_list := best_mdim_list b;
     arr_vtype := best_type b;
     arr_vdim := best_vdim b;
     arr_via_space := best_sp b;
     arr_via_arr_dim := best_adim b |}.

Definition get_best_via_array (tech : TechInfo)
    (vname bmtype tmtype bot_dir top_dir : string) (w h : Z) (extend : bool)
  : result (option via_array) :=
  best <- via_search tech vname bmtype tmtype bot_dir top_dir w h extend ;;
  Ok (option_map via_array_of best).

(* ------------------------------------------------------------------ *)
(** * [get_via_info] *)

(** The attributes of the [bbox] argument that [get_via_info] reads. The
    class itself lives in [bag.layout.util]. *)
Record BBoxView : Type := {
  bbox_w : Z;
  bbox_h : Z;
  xc_unit : Z;
  yc_unit : Z
}.

(** [BBox(left, bottom, right, top, res, unit_mode=True)]. *)
Record BBox : Type := {
  left_unit : Z;
  bottom_unit : Z;
  right_unit : Z;
  top_unit : Z
}.

(** The [params] dictionary. *)
Record via_params : Type := {
  p_id : string;
  p_loc : Z * Z;
  p_orient : string;
  p_num_rows : Z;
  p_num_cols : Z;
  p_sp_rows : Z;
  p_sp_cols : Z;
  p_enc1 : list Z;
  p_enc2 : list Z;
  p_cut_width : Z;
  p_cut_height : Z
}.

(** The dictionary [get_via_info] returns. *)
Record via_info : Type := {
  resistance : float;
  idc : float;
  iac_rms : float;
  iac_peak : float;
  params : via_params;
  top_box : BBox;
  bot_box : BBox
}.

(** [TechInfo.get_via_id]: ['%s_%s' % (top_layer, bot_layer)]. *)
Definition get_via_id (bot_layer top_layer : string) : string :=
  (top_layer ++ "_" ++ bot_layer)%string.

(** [mdim_list[i]]; the list always has two entries here. *)
Definition mdim_at (mdim_list : list (Z * Z)) (i : nat) : Z * Z :=
  nth i mdim_list (0, 0).

(** [TechInfo.get_via_info]. Layer names are plain strings here: the
    purpose of a [(layer, purpose)] pair is dropped by the caller and
    [bag.io.fix_string] leaves a string as it is. *)
Definition get_via_info (tech : TechInfo) (bbox : BBoxView)
    (bot_layer top_layer bot_dir : string) (bot_len top_len : float)
    (extend : bool) (top_dir : option string) : result (option via_info) :=
  let bot_id := get_layer_id tech bot_layer in
  let bmtype := get_layer_type tech bot_layer in
  let tmtype := get_layer_type tech top_layer in
  let vname := get_via_name tech bot_id in
  let top_dir :=
    match top_dir with
    | Some d => if String.eqb d "" then (if String.eqb bot_dir "y" then "x" else "y")%string
                else d
    | None => (if String.eqb bot_dir "y" then "x" else "y")%string
    end in
  via_result <- get_best_via_array tech vname bmtype tmtype bot_dir top_dir
                  (bbox_w bbox) (bbox_h bbox) extend ;;
  match via_result with
  | None => Ok None
  | Some r =>
      let '(nx, ny) := arr_nxy r in
      let mdim_list := arr_mdim_list r in
      let vtype := arr_vtype r in
      let vdim := arr_vdim r in
      let '(spx, spy) := arr_via_space r in
      let '(warr_norm, harr_norm) := arr_via_arr_dim r in
      let res := resolution tech in
      let xc_norm := xc_unit bbox in
      let yc_norm := yc_unit bbox in
      let wbot_norm := fst (mdim_at mdim_list 0) in
      let hbot_norm := snd (mdim_at mdim_list 0) in
      let wtop_norm := fst (mdim_at mdim_list 1) in
      let htop_norm := snd (mdim_at mdim_list 1) in
      let enc1_x := (wbot_norm - warr_norm) / 2 in
      let enc1_y := (hbot_norm - harr_norm) / 2 in
      let enc2_x := (wtop_norm - warr_norm) / 2 in
      let enc2_y := (htop_norm - harr_norm) / 2 in
      '(bw, tw) <-
        (if String.eqb bot_dir "x"
         then b <- Py.int_mul_float hbot_norm res ;;
              t <- Py.int_mul_float wtop_norm res ;; Ok (b, t)
         else b <- Py.int_mul_float wbot_norm res ;;
              t <- Py.int_mul_float htop_norm res ;; Ok (b, t)) ;;
      let bot_xl_norm := xc_norm - wbot_norm / 2 in
      let bot_yb_norm := yc_norm - hbot_norm / 2 in
      let top_xl_norm := xc_norm - wtop_norm / 2 in
      let top_yb_norm := yc_norm - htop_norm / 2 in
      let bot_box := {| left_unit := bot_xl_norm; bottom_unit := bot_yb_norm;
                        right_unit := bot_xl_norm + wbot_norm;
                        top_unit := bot_yb_norm + hbot_norm |} in
      let top_box := {| left_unit := top_xl_norm; bottom_unit := top_yb_norm;
                        right_unit := top_xl_norm + wtop_norm;
                        top_unit := top_yb_norm + htop_norm |} in
      let '(idc, irms, ipeak) :=
        get_via_em_specs tech vname bot_layer top_layer vtype
          (bw, bot_len) (tw, top_len) ((1 <? nx) || (1 <? ny)) in
      let params :=
        {| p_id := get_via_id bot_layer top_layer;
           p_loc := (xc_norm, yc_norm);
           p_orient := "R0";
           p_num_rows := ny;
           p_num_cols := nx;
           p_sp_rows := spy;
           p_sp_cols := spx;
           p_enc1 := [enc1_x; enc1_x; enc1_y; enc1_y];
           p_enc2 := [enc2_x; enc2_x; enc2_y; enc2_y];
           p_cut_width := fst vdim;
           p_cut_height := snd vdim |} in
      let ntot := nx * ny in
      idc_tot <- Py.float_mul_int idc ntot ;;
      irms_tot <- Py.float_mul_int irms ntot ;;
      ipeak_tot <- Py.float_mul_int ipeak ntot ;;
      Ok (Some {| resistance := 0.0;
                  idc := idc_tot;
                  iac_rms := irms_tot;
                  iac_peak := ipeak_tot;
                  params := params;
                  top_box := top_box;
                  bot_box := bot_box |})
  end.

(* ------------------------------------------------------------------ *)
(** * [BinaryIterator] *)

Module BinaryIterator.

(** Modelled from the spec: the class [BinaryIterator] of [bag.util.search],
    which [design_resistor] imports and whose source is not part of this
    file. It is the "Monotonic Binary Search helper": a binary search over
    the integers [low + n * step], bounded above by an exclusive [high] or
    unbounded when [high] is [None], that retains the last saved
    solution. The unbounded search doubles its probe until [down] first
    sets an upper bound. *)
Record t (A : Type) : Type := {
  offset : Z;
  step : Z;
  low : Z;
  high : option Z;
  current : Z;
  save_marker : option Z;
  save_info_ : option A
}.

Arguments offset {A} _.
Arguments step {A} _.
Arguments low {A} _.
Arguments high {A} _.
Arguments current {A} _.
Arguments save_marker {A} _.
Arguments save_info_ {A} _.

Section Methods.
Context {A : Type}.

(** Modelled from the spec: [BinaryIterator(low, high, step)]. *)
Definition init (low0 : Z) (high0 : option Z) (step0 : Z) : t A :=
  match high0 with
  | Some hi =>
      let nmax := (hi - low0) / step0 in
      let nmax := if low0 + step0 * nmax <? hi then nmax + 1 else nmax in
      {| offset := low0; step := step0; low := 0; high := Some nmax;
         current := (0 + nmax) / 2; save_marker := None; save_info_ := None |}
  | None =>
      {| offset := low0; step := step0; low := 0; high := None;
         current := 0; save_marker := None; save_info_ := None |}
  end.

(** Modelled from the spec: [has_next], true while the search interval is
    not empty. *)
Definition has_next (it : t A) : bool :=
  match high it with
  | None => true
  | Some hi => low it <? hi
  end.

(** Modelled from the spec: [get_next], the value to look at. *)
Definition get_next (it : t A) : Z :=
  current it * step it + offset it.

(** Modelled from the spec: [up], the answer lies above the current value. *)
Definition up (it : t A) : t A :=
  let low' := current it + 1 in
  let current' :=
    match high it with
    | Some hi => (low' + hi) / 2
    | None => if 0 <? current it then current it * 2 else 1
    end in
  {| offset := offset it; step := step it; low := low'; high := high it;
     current := current'; save_marker := save_marker it;
     save_info_ := save_info_ it |}.

(** Modelled from the spec: [down], the answer lies at or below the current
    value. *)
Definition down (it : t A) : t A :=
  let high' := current it in
  {| offset := offset it; step := step it; low := low it; high := Some high';
     current := (low it + high') / 2; save_marker := save_marker it;
     save_info_ := save_info_ it |}.

(** Modelled from the spec: [save_info], retain the current value and the
    data that goes with it. *)
Definition save_info (info : A) (it : t A) : t A :=
  {| offset := offset it; step := step it; low := low it; high := high it;
     current := current it; save_marker := Some (get_next it);
     save_info_ := Some info |}.

(** Modelled from the spec: [get_last_save_info]. *)
Definition get_last_save_info (it : t A) : option A := save_info_ it.

End Methods.
End BinaryIterator.

(* ------------------------------------------------------------------ *)
(** * [design_resistor] *)

(** A computation that loops: [None] when the fuel given to the loop ran
    out before the loop ended, otherwise what the Python code returns or
    raises. *)
Definition run (A : Type) : Type := option (result A).

Definition run_bind {A B : Type} (m : run A) (k : A -> run B) : run B :=
  match m with
  | None => None
  | Some (Raise e) => Some (Raise e)
  | Some (Ok a) => k a
  end.

(** [while cond(s): s = body(s)]. *)
Fixpoint while_loop {S : Type} (cond : S -> bool) (body : S -> run S)
    (fuel : nat) (s : S) : run S :=
  match fuel with
  | O => if cond s then None else Some (Ok s)
  | Datatypes.S fuel' =>
      if cond s then run_bind (body s) (while_loop cond body fuel')
      else Some (Ok s)
  end.

(** [0.0 < limit < spec_par]. *)
Definition em_exceeded (limit spec_par : float) : bool :=
  ((0 <? limit) && (limit <? spec_par))%float.

(** The test guarding [npar_iter.up()] and [w_iter.up()]. *)
Definition em_violated (specs : float * float * float)
    (idc_par iac_rms_par iac_peak_par : float) : bool :=
  let '(res_idc, res_irms, res_ipeak) := specs in
  em_exceeded res_idc idc_par
  || em_exceeded res_irms iac_rms_par
  || em_exceeded res_ipeak iac_peak_par.

Section Sizer.

Variable tech : TechInfo.
Variable res_type : string.

(** The body of [while w_iter.has_next()]. *)
Definition w_step (res_targ_par rsq : float) (lmin_unit : Z) (min_nsq : float)
    (idc_par iac_rms_par iac_peak_par : float)
    (w_iter : BinaryIterator.t (Z * Z)) : result (BinaryIterator.t (Z * Z)) :=
  let wcur_unit := BinaryIterator.get_next w_iter in
  q <- Py.truediv res_targ_par rsq ;;
  x <- Py.float_mul_int q wcur_unit ;;
  lcur_unit <- Py.ceil x ;;
  y <- Py.float_mul_int min_nsq wcur_unit ;;
  lfloor <- Py.ceil y ;;
  if lcur_unit <? Z.max lmin_unit lfloor then Ok (BinaryIterator.down w_iter)
  else
    wf <- Py.int_mul_float wcur_unit (resolution tech) ;;
    lf <- Py.int_mul_float lcur_unit (resolution tech) ;;
    if em_violated (get_res_em_specs tech res_type wf lf)
         idc_par iac_rms_par iac_peak_par
    then Ok (BinaryIterator.up w_iter)
    else Ok (BinaryIterator.down
               (BinaryIterator.save_info (wcur_unit, lcur_unit) w_iter)).

(** The width interval still to search; each pass shrinks it. *)
Definition w_fuel (w_iter : BinaryIterator.t (Z * Z)) : nat :=
  match BinaryIterator.high w_iter with
  | Some hi => Z.to_nat (hi - BinaryIterator.low w_iter)
  | None => O
  end.

(** The inner loop and [w_iter.get_last_save_info()]. *)
Definition w_search (res_targ_par rsq : float) (wmin_unit wmax_unit lmin_unit : Z)
    (min_nsq : float) (idc_par iac_rms_par iac_peak_par : float)
  : run (option (Z * Z)) :=
  let w_iter := BinaryIterator.init wmin_unit (Some (wmax_unit + 1)) 2 in
  run_bind
    (while_loop BinaryIterator.has_next
       (fun it => Some (w_step res_targ_par rsq lmin_unit min_nsq
                          idc_par iac_rms_par iac_peak_par it))
       (w_fuel w_iter) w_iter)
    (fun w_iter => Some (Ok (BinaryIterator.get_last_save_info w_iter))).

(** The four per-count targets computed at the top of the outer loop. *)
Definition par_targets (res_targ idc iac_rms iac_peak : float) (npar : Z)
  : result (float * float * float * float) :=
  res_targ_par <- Py.float_mul_int res_targ npar ;;
  idc_par <- Py.float_div_int idc npar ;;
  iac_rms_par <- Py.float_div_int iac_rms npar ;;
  iac_peak_par <- Py.float_div_int iac_peak npar ;;
  Ok (res_targ_par, idc_par, iac_rms_par, iac_peak_par).

(** The body of [while npar_iter.has_next()]. *)
Definition npar_step (res_targ idc iac_rms iac_peak rsq wmax : float)
    (wmin_unit wmax_unit lmin_unit : Z) (min_nsq : float)
    (npar_iter : BinaryIterator.t (Z * Z * Z)) : run (BinaryIterator.t (Z * Z * Z)) :=
  let npar := BinaryIterator.get_next npar_iter in
  run_bind (Some (par_targets res_targ idc iac_rms iac_peak npar))
    (fun '(res_targ_par, idc_par, iac_rms_par, iac_peak_par) =>
       if em_violated (get_res_em_specs tech res_type wmax (-1)%float)
            idc_par iac_rms_par iac_peak_par
       then Some (Ok (BinaryIterator.up npar_iter))
       else
         run_bind
           (w_search res_targ_par rsq wmin_unit wmax_unit lmin_unit min_nsq
              idc_par iac_rms_par iac_peak_par)
           (fun w_info =>
              match w_info with
              | None => Some (Ok (BinaryIterator.up npar_iter))
              | Some (w, l) =>
                  Some (Ok (BinaryIterator.down
                              (BinaryIterator.save_info (npar, w, l) npar_iter)))
              end)).

(** Step 3 and the [return]: the series correction. *)
Definition fix_length (lmax_unit : Z) (info : option (Z * Z * Z))
  : result (Z * Z * float * float) :=
  match info with
  | None => Raise TypeError
  | Some (num_par, wopt_unit, lopt_unit) =>
      wopt <- Py.int_mul_float wopt_unit (resolution tech) ;;
      '(num_ser, lopt) <-
        (if lmax_unit <? lopt_unit then
           q <- Py.floordiv (- lopt_unit) lmax_unit ;;
           let num_ser := - q in
           a <- Py.int_truediv lopt_unit num_ser ;;
           b <- Py.truediv a (resolution tech) ;;
           r <- Py.round b ;;
           lopt <- Py.int_mul_float r (resolution tech) ;;
           Ok (num_ser, lopt)
         else
           lopt <- Py.int_mul_float lopt_unit (resolution tech) ;;
           Ok (1, lopt)) ;;
      Ok (num_par, num_ser,
          (wopt * layout_unit tech)%float, (lopt * layout_unit tech)%float)
  end.

(** [int(round(x / resolution))]. *)
Definition to_unit (x : float) : result Z :=
  q <- Py.truediv x (resolution tech) ;; Py.round q.

(** The four bounds in resolution units, the width bounds made even. *)
Definition unit_bounds : result (Z * Z * Z * Z) :=
  let '(wmin, wmax) := get_res_width_bounds tech res_type in
  let '(lmin, lmax) := get_res_length_bounds tech res_type in
  wmin_unit <- to_unit wmin ;;
  wmax_unit <- to_unit wmax ;;
  lmin_unit <- to_unit lmin ;;
  lmax_unit <- to_unit lmax ;;
  Ok (-2 * ((- wmin_unit) / 2), 2 * (wmax_unit / 2), lmin_unit, lmax_unit).

(** The outer loop, from the creation of [npar_iter] to
    [npar_iter.get_last_save_info()]. *)
Definition npar_search (fuel : nat) (res_targ idc iac_rms iac_peak : float)
    (num_even : bool) (wmin_unit wmax_unit lmin_unit : Z)
  : run (option (Z * Z * Z)) :=
  let rsq := get_res_rsquare tech res_type in
  let wmax := snd (get_res_width_bounds tech res_type) in
  let min_nsq := get_res_min_nsquare tech res_type in
  let npar_iter :=
    if num_even then BinaryIterator.init 2 None 2
    else BinaryIterator.init 1 None 1 in
  run_bind
    (while_loop BinaryIterator.has_next
       (npar_step res_targ idc iac_rms iac_peak rsq wmax
          wmin_unit wmax_unit lmin_unit min_nsq)
       fuel npar_iter)
    (fun npar_iter => Some (Ok (BinaryIterator.get_last_save_info npar_iter))).

(** [TechInfo.design_resistor]; [fuel] bounds the passes of the outer
    loop. *)
Definition design_resistor (fuel : nat) (res_targ idc iac_rms iac_peak : float)
    (num_even : bool) : run (Z * Z * float * float) :=
  run_bind (Some unit_bounds)
    (fun '(wmin_unit, wmax_unit, lmin_unit, lmax_unit) =>
       run_bind
         (npar_search fuel res_targ idc iac_rms iac_peak num_even
            wmin_unit wmax_unit lmin_unit)
         (fun info => Some (fix_length lmax_unit info))).

End Sizer.

(* ------------------------------------------------------------------ *)
(** * Vocabulary of the statements *)

(** The count of a triple, its first component. *)
Definition num_of (t : Z * Z * Z) : Z := fst (fst t).

(** Later entries never have a larger count. *)
Definition count_desc : list (Z * Z * Z) -> Prop :=
  StronglySorted (fun a b => num_of b <= num_of a).

(** The width of the metal a layer with direction [dir] has inside a
    [w] x [h] box: [bb] and [tb] in [get_best_via_array]. *)
Definition metal_width (dir : string) (w h : Z) : Z :=
  if String.eqb dir "x" then h else w.

(** Via type [vtype] has rules for both layers and the search over its
    arrays accepts configuration [o], for a via of size [dim]. *)
Definition accepted (tech : TechInfo) (vname bmtype tmtype bot_dir top_dir : string)
    (w h : Z) (extend : bool) (vtype : string) (dim : Z * Z) (o : via_opt) : Prop :=
  exists bot_drc_info top_drc_info,
    lookup_drc tech vname vtype bmtype tmtype
      (metal_width bot_dir w h) (metal_width top_dir w h)
    = Ok (Some (bot_drc_info, top_drc_info)) /\
    drc_dim bot_drc_info = dim /\
    find_opt w h extend bot_dir top_dir bot_drc_info top_drc_info = Ok (Some o).

(** [weight * opt_nxy[0] * opt_nxy[1]]. *)
Definition weighted_count (weight : Z) (o : via_opt) : Z :=
  weight * fst (opt_nxy o) * snd (opt_nxy o).

(** The areas [_via_better] compares, layer by layer. *)
Fixpoint layer_areas (res : float) (mdim_list : list (Z * Z)) : result (list Z) :=
  match mdim_list with
  | [] => Ok []
  | mdim :: tl =>
      a <- layer_area res mdim ;;
      r <- layer_areas res tl ;;
      Ok (a :: r)
  end.

(** Every area of the first list is at most the matching area of the
    second. *)
Definition no_larger (areas1 areas2 : list Z) : Prop :=
  Forall (fun p => fst p <= snd p) (combine areas1 areas2).

(** Some area of the first list is strictly below the matching area of
    the second. *)
Definition some_smaller (areas1 areas2 : list Z) : Prop :=
  Exists (fun p => fst p < snd p) (combine areas1 areas2).

(** Some enclosure pair of [tot_enc_list] passes the test of the layer
    with direction [mdir]. *)
Definition layer_fits (w h : Z) (extend : bool) (w_arr h_arr : Z) (mdir : string)
    (tot_enc_list : list (Z * Z)) : Prop :=
  let '(enc_idx, enc_dim, ext_dim, dim_lim, max_ext_dim) :=
    layer_axes mdir w h w_arr h_arr in
  Exists (fun enc =>
            enc_passes extend enc_idx enc_dim ext_dim dim_lim max_ext_dim enc = true)
         tot_enc_list.

(** The rules of a layer offer an enclosure of at most [e] on every side,
    and an array test comes with its enclosure list. *)
Definition generous (e : Z) (info : via_drc_info) : Prop :=
  Exists (fun enc => fst enc <= e /\ snd enc <= e) (drc_enc info) /\
  (drc_arr_test info = None \/ exists extra, drc_arr_enc info = Some extra).

(** A spacing regime that is absent or offers [sp] alone. *)
Definition regime_is (sp : Z * Z) (regime : option (list (Z * Z))) : Prop :=
  regime = None \/ regime = Some [sp].

(** The per-device length the series correction is described to return:
    [round(lopt_unit / num_ser)] resolution units, in meters. *)
Definition series_unit_length (tech : TechInfo) (lopt_unit num_ser : Z) : result float :=
  a <- Py.int_truediv lopt_unit num_ser ;;
  r <- Py.round a ;;
  lopt <- Py.int_mul_float r (resolution tech) ;;
  Ok (lopt * layout_unit tech)%float.

(** The length before the series correction, in meters. *)
Definition total_length (tech : TechInfo) (lopt_unit : Z) : result float :=
  lopt <- Py.int_mul_float lopt_unit (resolution tech) ;;
  Ok (lopt * layout_unit tech)%float.

(** What the body of the outer loop decides for parallel count [npar]:
    [None] when the count is rejected (the iterator goes [up]), the saved
    width and length otherwise (the iterator goes [down]). *)
Definition npar_try (tech : TechInfo) (res_type : string)
    (res_targ idc iac_rms iac_peak rsq wmax : float)
    (wmin_unit wmax_unit lmin_unit : Z) (min_nsq : float) (npar : Z)
  : run (option (Z * Z)) :=
  run_bind (Some (par_targets res_targ idc iac_rms iac_peak npar))
    (fun '(res_targ_par, idc_par, iac_rms_par, iac_peak_par) =>
       if em_violated (get_res_em_specs tech res_type wmax (-1)%float)
            idc_par iac_rms_par iac_peak_par
       then Some (Ok None)
       else w_search tech res_type res_targ_par rsq wmin_unit wmax_unit lmin_unit
              min_nsq idc_par iac_rms_par iac_peak_par).

(** The same decision inside a call of [design_resistor]. *)
Definition count_verdict (tech : TechInfo) (res_type : string)
    (res_targ idc iac_rms iac_peak : float) (npar : Z) : run (option (Z * Z)) :=
  run_bind (Some (unit_bounds tech res_type))
    (fun '(wmin_unit, wmax_unit, lmin_unit, lmax_unit) =>
       npar_try tech res_type res_targ idc iac_rms iac_peak
         (get_res_rsquare tech res_type) (snd (get_res_width_bounds tech res_type))
         wmin_unit wmax_unit lmin_unit (get_res_min_nsquare tech res_type) npar).

(** Via type [vtype] yields no configuration: it has no rule, or its
    search over arrays finds none. *)
Definition via_type_fails (tech : TechInfo) (vname bmtype tmtype bot_dir top_dir : string)
    (w h : Z) (extend : bool) (vtype : string) : Prop :=
  lookup_drc tech vname vtype bmtype tmtype
    (metal_width bot_dir w h) (metal_width top_dir w h) = Ok None \/
  exists bot_drc_info top_drc_info,
    lookup_drc tech vname vtype bmtype tmtype
      (metal_width bot_dir w h) (metal_width top_dir w h)
    = Ok (Some (bot_drc_info, top_drc_info)) /\
    find_opt w h extend bot_dir top_dir bot_drc_info top_drc_info = Ok None.

(** The search interval of a bounded iterator is consistent: the probe is
    its midpoint. *)
Definition bounded {A : Type} (it : BinaryIterator.t A) : Prop :=
  exists hi, BinaryIterator.high it = Some hi /\
             BinaryIterator.current it = (BinaryIterator.low it + hi) / 2.

(** Either no upper bound was set yet or a solution was saved. *)
Definition saved_or_unbounded {A : Type} (it : BinaryIterator.t A) : Prop :=
  BinaryIterator.high it = None \/ BinaryIterator.save_info_ it <> None.

(** The [top_dir] that [get_via_info] passes on: the given one, or the
    direction across [bot_dir] when none is given. *)
Definition resolved_top_dir (bot_dir : string) (top_dir : option string) : string :=
  match top_dir with
  | Some d => if String.eqb d "" then (if String.eqb bot_dir "y" then "x" else "y")%string
              else d
  | None => (if String.eqb bot_dir "y" then "x" else "y")%string
  end.

(** Both components of every pair are non-negative. *)
Definition nonneg_pairs (l : list (Z * Z)) : Prop :=
  Forall (fun enc => 0 <= fst enc /\ 0 <= snd enc) l.

(** Every enclosure pair the provider supplies for via [vname] is
    non-negative. *)
Definition nonneg_enclosures (tech : TechInfo) (vname : string) : Prop :=
  forall vtype mtype mw_unit is_bot info,
    get_via_drc_info tech vname vtype mtype mw_unit is_bot = Ok info ->
    nonneg_pairs (drc_enc info) /\
    (forall extra, drc_arr_enc info = Some extra -> nonneg_pairs extra).

(** The total enclosure lists of both layers for an [nx] by [ny] array. *)
Definition enc_lists (nx ny : Z) (bot_drc_info top_drc_info : via_drc_info)
    (totb tott : list (Z * Z)) : Prop :=
  total_enc_list nx ny (drc_enc bot_drc_info) (drc_arr_enc bot_drc_info)
    (drc_arr_test bot_drc_info) = Ok totb /\
  total_enc_list nx ny (drc_enc top_drc_info) (drc_arr_enc top_drc_info)
    (drc_arr_test top_drc_info) = Ok tott.

(** The extent of [n] cuts of size [d] at spacing [s]. *)
Definition extent (n d s : Z) : Z := n * (s + d) - s.

(** [nx * ny] of a configuration. *)
Definition count_of (o : via_opt) : Z := fst (opt_nxy o) * snd (opt_nxy o).

(** The via size plus the smallest spacing is positive in both axes. *)
Definition pitch_positive (info : via_drc_info) : Prop :=
  let sp := drc_sp info in
  let floor := sp_min sp (default_sp2 sp (drc_sp2_list info))
                 (default_sp3 sp (drc_sp2_list info) (drc_sp3_list info)) in
  0 < fst (drc_dim info) + fst floor /\ 0 < snd (drc_dim info) + snd floor.

(** A kept record, if any, is matched by one of at least its count. *)
Definition best_le (best1 best2 : option via_best) : Prop :=
  forall b1, best1 = Some b1 ->
    exists b2, best2 = Some b2 /\ best_num b1 <= best_num b2.

(** [(nx_max, ny_max)]: the largest counts that fit the box at the
    smallest spacing of any regime. *)
Definition max_counts (w h : Z) (info : via_drc_info) : result (Z * Z) :=
  let sp := drc_sp info in
  let floor := sp_min sp (default_sp2 sp (drc_sp2_list info))
                 (default_sp3 sp (drc_sp2_list info) (drc_sp3_list info)) in
  nx_max <- Py.floordiv (w + fst floor) (fst (drc_dim info) + fst floor) ;;
  ny_max <- Py.floordiv (h + snd floor) (snd (drc_dim info) + snd floor) ;;
  Ok (nx_max, ny_max).

(** The spacing list tried for an [nx] by [ny] array of a via type. *)
Definition regime (info : via_drc_info) (nx ny : Z) : list (Z * Z) :=
  let sp := drc_sp info in
  sp_combo sp (default_sp2 sp (drc_sp2_list info))
    (default_sp3 sp (drc_sp2_list info) (drc_sp3_list info)) nx ny.

(** [try_spacing] on the rules of a via type. *)
Definition attempt (w h : Z) (extend : bool) (bot_dir top_dir : string)
    (bot_drc_info top_drc_info : via_drc_info) (nx ny : Z) (sp : Z * Z)
  : result (option via_opt) :=
  try_spacing w h extend bot_dir top_dir (drc_dim bot_drc_info)
    (drc_enc bot_drc_info) (drc_arr_enc bot_drc_info) (drc_arr_test bot_drc_info)
    (drc_enc top_drc_info) (drc_arr_enc top_drc_info) (drc_arr_test top_drc_info)
    nx ny sp.

(** The array [(nx, ny)] is one the search enumerates for the via type. *)
Definition enumerated (w h : Z) (info : via_drc_info) (nx ny : Z) : Prop :=
  exists nx_max ny_max,
    max_counts w h info = Ok (nx_max, ny_max) /\
    1 <= nx <= nx_max /\ 1 <= ny <= ny_max.

(** The metal extent along the wire that enclosure [enc] asks for. *)
Definition cur_ext (enc_idx ext_dim : Z) (enc : Z * Z) : Z :=
  ext_dim + 2 * Py.item enc (1 - enc_idx).

(** [DummyTechInfo]: resolution 0.001, layout unit 1e-6 and the methods
    as the class overrides them; [get_via_types] is inherited. *)
Definition DummyTechInfo : TechInfo :=
  {| resolution := 0.001;
     layout_unit := 1e-6;
     get_via_types := base_via_types;
     get_via_drc_info := fun _ _ _ _ _ =>
       Ok {| drc_sp := (0, 0); drc_sp2_list := Some [(0, 0)];
             drc_sp3_list := Some [(0, 0)]; drc_dim := (0, 0);
             drc_enc := [(0, 0)]; drc_arr_enc := None; drc_arr_test := None |};
     get_layer_id := fun _ => -1;
     get_layer_type := fun _ => ""%string;
     get_via_name := fun _ => ""%string;
     get_via_em_specs := fun _ _ _ _ _ _ _ => (infinity, infinity, infinity);
     get_res_rsquare := fun _ => 0%float;
     get_res_width_bounds := fun _ => (0, 0)%float;
     get_res_length_bounds := fun _ => (0, 0)%float;
     get_res_min_nsquare := fun _ => 1%float;
     get_res_em_specs := fun _ _ _ => (infinity, infinity, infinity) |}.

(** Width [w] with length [l] passes every test of the inner loop of
    [design_resistor]: [l] is the computed length, it reaches the length
    floor, and no EM limit is exceeded. *)
Definition width_ok (tech : TechInfo) (res_type : string)
    (res_targ_par rsq : float) (lmin_unit : Z) (min_nsq : float)
    (idc_par iac_rms_par iac_peak_par : float) (w l : Z) : Prop :=
  exists q x y lfloor wf lf,
    Py.truediv res_targ_par rsq = Ok q /\
    Py.float_mul_int q w = Ok x /\ Py.ceil x = Ok l /\
    Py.float_mul_int min_nsq w = Ok y /\ Py.ceil y = Ok lfloor /\
    Z.max lmin_unit lfloor <= l /\
    Py.int_mul_float w (resolution tech) = Ok wf /\
    Py.int_mul_float l (resolution tech) = Ok lf /\
    em_violated (get_res_em_specs tech res_type wf lf)
      idc_par iac_rms_par iac_peak_par = false.

(** Parallel count [npar] with width [w] and length [l] passes the
    pre-check at the maximum width and every test of the inner loop. *)
Definition count_ok (tech : TechInfo) (res_type : string)
    (res_targ idc iac_rms iac_peak rsq wmax : float)
    (lmin_unit : Z) (min_nsq : float) (npar w l : Z) : Prop :=
  exists res_targ_par idc_par iac_rms_par iac_peak_par,
    par_targets res_targ idc iac_rms iac_peak npar
    = Ok (res_targ_par, idc_par, iac_rms_par, iac_peak_par) /\
    em_violated (get_res_em_specs tech res_type wmax (-1)%float)
      idc_par iac_rms_par iac_peak_par = false /\
    width_ok tech res_type res_targ_par rsq lmin_unit min_nsq
      idc_par iac_rms_par iac_peak_par w l.

(** The widths the inner search can probe: [wmin_unit + 2 * k], not
    above [wmax_unit]. *)
Definition probed_width (wmin_unit wmax_unit w : Z) : Prop :=
  (exists k, 0 <= k /\ w = wmin_unit + 2 * k) /\ w <= wmax_unit.

(** The counts the outer search can probe. *)
Definition probed_count (num_even : bool) (npar : Z) : Prop :=
  if num_even then Z.even npar = true /\ 2 <= npar else 1 <= npar.

(** The state of the inner iterator as the width loop keeps it: the
    probe is the midpoint of the interval, and a saved width is one the
    loop accepted. *)
Definition w_inv (ok : Z -> Z -> Prop) (wmin_unit nmax : Z)
    (it : BinaryIterator.t (Z * Z)) : Prop :=
  BinaryIterator.offset it = wmin_unit /\ BinaryIterator.step it = 2 /\
  0 <= BinaryIterator.low it /\
  (exists hi, BinaryIterator.high it = Some hi /\ hi <= nmax /\
              BinaryIterator.current it = (BinaryIterator.low it + hi) / 2) /\
  (forall w l, BinaryIterator.save_info_ it = Some (w, l) ->
     ok w l /\ exists k, 0 <= k < nmax /\ w = wmin_unit + 2 * k).

(** The state of the outer iterator as the count loop keeps it. *)
Definition n_inv (ok : Z -> Z -> Z -> Prop) (off st : Z)
    (it : BinaryIterator.t (Z * Z * Z)) : Prop :=
  BinaryIterator.offset it = off /\ BinaryIterator.step it = st /\
  0 <= BinaryIterator.current it /\ 0 <= BinaryIterator.low it /\
  (forall hi, BinaryIterator.high it = Some hi -> 0 <= hi) /\
  (forall n w l, BinaryIterator.save_info_ it = Some (n, w, l) ->
     ok n w l /\ exists k, 0 <= k /\ n = k * st + off).

(** The box has no room for one cut of the via type: along one axis
    the pitch at the smallest spacing is positive and the box is shorter
    than the cut, and the pitch of the other axis is not zero. *)
Definition no_room (w h : Z) (info : via_drc_info) : Prop :=
  let sp := drc_sp info in
  let floor := sp_min sp (default_sp2 sp (drc_sp2_list info))
                 (default_sp3 sp (drc_sp2_list info) (drc_sp3_list info)) in
  let dx := fst (drc_dim info) in
  let dy := snd (drc_dim info) in
  (0 < dx + fst floor /\ w < dx /\ dy + snd floor <> 0) \/
  (0 < dy + snd floor /\ h < dy /\ dx + fst floor <> 0).






(* ------------------------------------------------------------------ *)
(** * Concrete technologies used in the examples *)

Module Examples.

Open Scope string_scope.

(** A technology whose only free parts are the via rules and the
    resistor bounds; every EM limit is unbounded. *)
Definition make_tech (res : float) (types : list (string * Z))
    (drc : string -> result via_drc_info)
    (width_bounds length_bounds : float * float) : TechInfo :=
  {| resolution := res;
     layout_unit := 1e-6;
     get_via_types := fun _ _ => types;
     get_via_drc_info := fun _ vtype _ _ _ => drc vtype;
     get_layer_id := fun _ => 1;
     get_layer_type := fun _ => "metal";
     get_via_name := fun _ => "via1";
     get_via_em_specs := fun _ _ _ _ _ _ _ => (infinity, infinity, infinity);
     get_res_rsquare := fun _ => 100%float;
     get_res_width_bounds := fun _ => width_bounds;
     get_res_length_bounds := fun _ => length_bounds;
     get_res_min_nsquare := fun _ => 1%float;
     get_res_em_specs := fun _ _ _ => (infinity, infinity, infinity) |}.

(** A 2 x 2 cut with spacing 1 in every regime and no enclosure needed. *)
Definition square_rule : via_drc_info :=
  {| drc_sp := (1, 1); drc_sp2_list := Some [(1, 1)]; drc_sp3_list := Some [(1, 1)];
     drc_dim := (2, 2); drc_enc := [(0, 0)];
     drc_arr_enc := None; drc_arr_test := None |}.

(** A 4 x 2 cut. *)
Definition hrect_rule : via_drc_info :=
  {| drc_sp := (1, 1); drc_sp2_list := None; drc_sp3_list := None;
     drc_dim := (4, 2); drc_enc := [(0, 0)];
     drc_arr_enc := None; drc_arr_test := None |}.


Definition only_square (rule : via_drc_info) (vtype : string) : result via_drc_info :=
  if String.eqb vtype "square" then Ok rule else Raise ValueError.

Definition square_and_hrect (vtype : string) : result via_drc_info :=
  if String.eqb vtype "square" then Ok square_rule
  else if String.eqb vtype "hrect" then Ok hrect_rule
  else Raise ValueError.

(** One square via type. *)
Definition tech_square : TechInfo :=
  make_tech 0.001 [("square", 1)] (only_square square_rule) (1, 10)%float (1, 5)%float.

(** The base class's three via types, with rules for two of them. *)
Definition tech_two_types : TechInfo :=
  make_tech 0.001 (base_via_types "" "") square_and_hrect (1, 10)%float (1, 5)%float.


(** Resistor widths 1 to 10, lengths 1 to 5 layout units; 100 Ohm per
    square. *)
Definition tech_short : TechInfo :=
  make_tech 0.001 [("square", 1)] (only_square square_rule) (1, 10)%float (1, 5)%float.

(** Resistor width fixed at 1.001 layout units: an odd number of
    resolution units. *)
Definition tech_odd_width : TechInfo :=
  make_tech 0.001 [("square", 1)] (only_square square_rule)
    (1.001, 1.001)%float (1, 5)%float.





(** [tech_short] with EM limits: a DC limit of 0.001 per layout unit of
    width, an RMS limit of zero and no peak limit. *)
Definition tech_em : TechInfo :=
  {| resolution := resolution tech_short;
     layout_unit := layout_unit tech_short;
     get_via_types := get_via_types tech_short;
     get_via_drc_info := get_via_drc_info tech_short;
     get_layer_id := get_layer_id tech_short;
     get_layer_type := get_layer_type tech_short;
     get_via_name := get_via_name tech_short;
     get_via_em_specs := get_via_em_specs tech_short;
     get_res_rsquare := get_res_rsquare tech_short;
     get_res_width_bounds := get_res_width_bounds tech_short;
     get_res_length_bounds := get_res_length_bounds tech_short;
     get_res_min_nsquare := get_res_min_nsquare tech_short;
     get_res_em_specs := fun _ w _ => ((w * 0.001)%float, 0%float, infinity) |}.

End Examples.

(* ------------------------------------------------------------------ *)
(** * Lists, ranges and the sorted enumeration *)

Lemma range_In (lo hi x : Z) : In x (Py.range lo hi) <-> lo <= x < hi.
Proof.
  unfold Py.range. rewrite in_map_iff. split.
  - intros [i [<- Hi]]. apply in_seq in Hi. lia.
  - intros H. exists (Z.to_nat (x - lo)). split; [lia|].
    apply in_seq. lia.
Qed.

Lemma insert_desc_In (t x : Z * Z * Z) (l : list (Z * Z * Z)) :
  In x (insert_desc t l) <-> x = t \/ In x l.
Proof.
  induction l as [|h tl IH]; simpl.
  - intuition congruence.
  - destruct (triple_ltb t h); simpl; rewrite ?IH; intuition congruence.
Qed.

Lemma sorted_reverse_In (x : Z * Z * Z) (l : list (Z * Z * Z)) :
  In x (sorted_reverse l) <-> In x l.
Proof.
  induction l as [|h tl IH]; simpl; [tauto|].
  rewrite insert_desc_In, IH. intuition congruence.
Qed.

Lemma nxy_list_In (nx_max ny_max num nx ny : Z) :
  In (num, nx, ny) (nxy_list nx_max ny_max) <->
  1 <= nx <= nx_max /\ 1 <= ny <= ny_max /\ num = nx * ny.
Proof.
  unfold nxy_list. rewrite sorted_reverse_In, in_flat_map. split.
  - intros [a [Ha Hb]]. apply in_map_iff in Hb. destruct Hb as [b [Heq Hb]].
    apply range_In in Ha. apply range_In in Hb. inversion Heq; subst. lia.
  - intros (Hx & Hy & ->). exists nx. split; [apply range_In; lia|].
    apply in_map_iff. exists ny. split; [reflexivity|apply range_In; lia].
Qed.

Lemma triple_ltb_num (a b : Z * Z * Z) :
  (triple_ltb a b = true -> num_of a <= num_of b) /\
  (triple_ltb a b = false -> num_of b <= num_of a).
Proof.
  destruct a as [[n1 x1] y1], b as [[n2 x2] y2]. unfold triple_ltb, num_of. simpl.
  split; intros H.
  - apply orb_true_iff in H. destruct H as [H|H]; [lia|].
    apply andb_true_iff in H. lia.
  - apply orb_false_iff in H. lia.
Qed.

Lemma insert_desc_sorted (t : Z * Z * Z) (l : list (Z * Z * Z)) :
  count_desc l -> count_desc (insert_desc t l).
Proof.
  unfold count_desc. induction 1 as [|h tl Hs IH Hall]; simpl.
  - constructor; constructor.
  - destruct (triple_ltb t h) eqn:E.
    + constructor; [exact IH|].
      apply Forall_forall. intros z Hz. apply insert_desc_In in Hz.
      destruct Hz as [->|Hz].
      * apply (triple_ltb_num t h); exact E.
      * rewrite Forall_forall in Hall. auto.
    + constructor; [constructor; assumption|].
      pose proof (proj2 (triple_ltb_num t h) E) as Hth.
      constructor; [exact Hth|].
      rewrite Forall_forall in Hall |- *. intros z Hz.
      specialize (Hall z Hz). lia.
Qed.

Lemma nxy_list_sorted (nx_max ny_max : Z) : count_desc (nxy_list nx_max ny_max).
Proof.
  unfold nxy_list, sorted_reverse.
  induction (flat_map _ _) as [|h tl IH]; simpl.
  - constructor.
  - apply insert_desc_sorted, IH.
Qed.

(* ------------------------------------------------------------------ *)
(** * Spacing regimes (C9, C3) *)

(** C9: for every [(num, nx, ny)] enumerated by [get_best_via_array], the
    spacing list tried is the 2-neighbour list when the array is exactly
    2 x 2, the 3-neighbour list when one count exceeds 2 and the other
    exceeds 1, and the base spacing alone in every other case, which is
    then a single row or a single column. *)
Theorem C9_spacing_regime_selection
    (sp : Z * Z) (sp2 sp3 : option (list (Z * Z))) (nx_max ny_max num nx ny : Z)
    (Hin : In (num, nx, ny) (nxy_list nx_max ny_max)) :
  let sp2_list := default_sp2 sp sp2 in
  let sp3_list := default_sp3 sp sp2 sp3 in
  (nx = 2 /\ ny = 2 -> sp_combo sp sp2_list sp3_list nx ny = sp2_list) /\
  ((2 < nx /\ 1 < ny) \/ (2 < ny /\ 1 < nx) ->
   sp_combo sp sp2_list sp3_list nx ny = sp3_list) /\
  (~ (nx = 2 /\ ny = 2) -> ~ ((2 < nx /\ 1 < ny) \/ (2 < ny /\ 1 < nx)) ->
   (nx = 1 \/ ny = 1) /\ sp_combo sp sp2_list sp3_list nx ny = [sp]).
Proof.
  intros sp2_list sp3_list.
  apply nxy_list_In in Hin. destruct Hin as (Hx & Hy & _).
  unfold sp_combo. repeat split.
  - intros [-> ->]. reflexivity.
  - intros H.
    destruct ((nx =? 2) && (ny =? 2)) eqn:E22.
    + apply andb_true_iff in E22. lia.
    + replace ((1 <? nx) && (1 <? ny)) with true; [reflexivity|].
      symmetry. apply andb_true_iff. lia.
  - destruct (Z.eq_dec nx 1); [now left|].
    destruct (Z.eq_dec ny 1); [now right|].
    exfalso. destruct (Z.eq_dec nx 2), (Z.eq_dec ny 2); try tauto;
      apply H0; lia.
  - destruct ((nx =? 2) && (ny =? 2)) eqn:E22.
    + apply andb_true_iff in E22. exfalso. apply H. lia.
    + destruct ((1 <? nx) && (1 <? ny)) eqn:E11; [|reflexivity].
      apply andb_true_iff in E11. apply andb_false_iff in E22.
      exfalso. apply H0. lia.
Qed.

Lemma C9_spacing_regime_selection_witness :
  In (9, 3, 3) (nxy_list 3 3) /\
  sp_combo (1, 1) [(2, 2)] [(3, 3)] 3 3 = [(3, 3)].
Proof.
  assert (Hin : In (9, 3, 3) (nxy_list 3 3)) by (vm_compute; auto).
  split; [exact Hin|].
  apply (C9_spacing_regime_selection (1, 1) (Some [(2, 2)]) (Some [(3, 3)])
           3 3 9 3 3 Hin).
  left. lia.
Defined.




(* ------------------------------------------------------------------ *)
(** * The loop over via types (C5) *)

Lemma via_search_unfold (tech : TechInfo) (vname bmtype tmtype bot_dir top_dir : string)
    (w h : Z) (extend : bool) :
  via_search tech vname bmtype tmtype bot_dir top_dir w h extend =
  for_each (via_type_step tech vname bmtype tmtype bot_dir top_dir w h extend
              (metal_width bot_dir w h) (metal_width top_dir w h))
           (get_via_types tech bmtype tmtype) None.
Proof.
  unfold via_search, metal_width.
  destruct (String.eqb bot_dir "x"), (String.eqb top_dir "x"); reflexivity.
Qed.

Lemma via_better_loop_spec (res : float) (m1 : list (Z * Z)) :
  forall (m2 : list (Z * Z)) (a1 a2 : list Z) (better : bool),
    layer_areas res m1 = Ok a1 ->
    layer_areas res m2 = Ok a2 ->
    exists b,
      via_better_loop res (combine m1 m2) better = Ok b /\
      (b = true <-> no_larger a1 a2 /\ (better = true \/ some_smaller a1 a2)).
Proof.
  unfold no_larger, some_smaller.
  induction m1 as [|x m1 IH]; intros m2 a1 a2 better H1 H2.
  - simpl in *. inversion H1; subst. exists better. split; [reflexivity|].
    simpl. split.
    + intros ->. split; [constructor|now left].
    + intros [_ [H|H]]; [exact H|inversion H].
  - destruct m2 as [|y m2].
    + simpl in *. inversion H2; subst. exists better. split; [reflexivity|].
      rewrite combine_nil. split.
      * intros ->. split; [constructor|now left].
      * intros [_ [H|H]]; [exact H|inversion H].
    + simpl in H1, H2. simpl.
      destruct (layer_area res x) as [ax|] eqn:Ex; simpl in H1; [|discriminate].
      destruct (layer_areas res m1) as [r1|] eqn:E1; simpl in H1; [|discriminate].
      destruct (layer_area res y) as [ay|] eqn:Ey; simpl in H2; [|discriminate].
      destruct (layer_areas res m2) as [r2|] eqn:E2; simpl in H2; [|discriminate].
      inversion H1; inversion H2; subst. simpl.
      destruct (ax <? ay) eqn:Elt.
      * destruct (IH m2 r1 r2 true eq_refl E2) as [b [Hb Hiff]].
        exists b. split; [exact Hb|]. rewrite Hiff. split.
        -- intros [Hall _]. split.
           ++ constructor; [simpl; lia|exact Hall].
           ++ right. apply Exists_cons_hd. simpl. lia.
        -- intros [Hall _]. inversion Hall; subst. split; [assumption|now left].
      * destruct (ay <? ax) eqn:Egt.
        -- exists false. split; [reflexivity|]. split; [discriminate|].
           intros [Hall _]. inversion Hall; subst. simpl in *. lia.
        -- destruct (IH m2 r1 r2 better eq_refl E2) as [b [Hb Hiff]].
           exists b. split; [exact Hb|]. rewrite Hiff. split.
           ++ intros [Hall Hor]. split.
              ** constructor; [simpl; lia|exact Hall].
              ** destruct Hor as [Hor|Hor]; [now left|].
                 right. apply Exists_cons_tl. exact Hor.
           ++ intros [Hall Hor]. inversion Hall; subst. split; [assumption|].
              destruct Hor as [Hor|Hor]; [now left|].
              inversion Hor; subst; [simpl in *; lia|now right].
Qed.


(** The update never lowers [best_num], reaches at least the new count,
    and keeps either the old record or the new one. *)
Lemma update_best_spec (res : float) (weight : Z) (vtype : string) (dim : Z * Z)
    (o : via_opt) (best best' : option via_best) :
  update_best res weight vtype dim o best = Ok best' ->
  (exists b', best' = Some b' /\ weighted_count weight o <= best_num b' /\
              (forall b, best = Some b -> best_num b <= best_num b')) /\
  (best' = best \/ best' = Some (make_best weight vtype dim o)).
Proof.
  unfold update_best, weighted_count. intros H.
  destruct best as [b|].
  - destruct (best_num b <? _) eqn:E1.
    + inversion H; subst. split; [|now right].
      eexists. split; [reflexivity|]. simpl. split; [lia|].
      intros b0 Hb0. inversion Hb0; subst. lia.
    + destruct (_ =? best_num b) eqn:E2.
      * destruct (_via_better _ _ _) as [better|]; simpl in H; [|discriminate].
        inversion H; subst. destruct better.
        -- split; [|now right]. eexists. split; [reflexivity|]. simpl.
           split; [lia|]. intros b0 Hb0. inversion Hb0; subst. lia.
        -- split; [|now left]. exists b. split; [reflexivity|].
           split; [lia|]. intros b0 Hb0. inversion Hb0; subst. lia.
      * inversion H; subst. split; [|now left]. exists b.
        split; [reflexivity|]. split; [lia|].
        intros b0 Hb0. inversion Hb0; subst. lia.
  - inversion H; subst. split; [|now right].
    eexists. split; [reflexivity|]. simpl. split; [lia|]. discriminate.
Qed.

Section TypeLoop.

Variable tech : TechInfo.
Variables vname bmtype tmtype bot_dir top_dir : string.
Variables w h : Z.
Variable extend : bool.

Let step :=
  via_type_step tech vname bmtype tmtype bot_dir top_dir w h extend
    (metal_width bot_dir w h) (metal_width top_dir w h).
Let acc := accepted tech vname bmtype tmtype bot_dir top_dir w h extend.

Lemma via_type_step_spec (best best' : option via_best) (vtype : string) (weight : Z) :
  step best (vtype, weight) = Ok best' ->
  (forall b, best = Some b -> exists b', best' = Some b' /\ best_num b <= best_num b') /\
  (forall dim o, acc vtype dim o ->
     exists b', best' = Some b' /\ weighted_count weight o <= best_num b') /\
  (best' = best \/
   exists dim o, acc vtype dim o /\ best' = Some (make_best weight vtype dim o)).
Proof.
  unfold step, acc, via_type_step, accepted. intros H.
  destruct (lookup_drc _ _ _ _ _ _ _) as [[[bi ti]|]|] eqn:El; simpl in H;
    try discriminate.
  - destruct (find_opt _ _ _ _ _ _ _) as [[o|]|] eqn:Ef; simpl in H;
      try discriminate.
    + apply update_best_spec in H.
      destruct H as [[b' (-> & Hge & Hold)] Hor]. repeat split.
      * intros b Hb. exists b'. split; [reflexivity|auto].
      * intros dim o' (bi' & ti' & Hl & Hd & Hf).
        inversion Hl; subst. rewrite Ef in Hf. inversion Hf; subst.
        exists b'. split; [reflexivity|exact Hge].
      * destruct Hor as [Hor|Hor]; [now left|]. right.
        exists (drc_dim bi), o. split; [|exact Hor].
        exists bi, ti. auto.
    + inversion H; subst. repeat split.
      * intros b ->. exists b. split; [reflexivity|lia].
      * intros dim o' (bi' & ti' & Hl & Hd & Hf).
        inversion Hl; subst. rewrite Ef in Hf. discriminate.
      * now left.
  - inversion H; subst. repeat split.
    + intros b ->. exists b. split; [reflexivity|lia].
    + intros dim o' (bi' & ti' & Hl & Hd & Hf). discriminate.
    + now left.
Qed.

Lemma for_each_step_spec (types : list (string * Z)) :
  forall best r,
    for_each step types best = Ok r ->
    (forall b, best = Some b -> exists b', r = Some b' /\ best_num b <= best_num b') /\
    (forall vtype weight dim o, In (vtype, weight) types -> acc vtype dim o ->
       exists b', r = Some b' /\ weighted_count weight o <= best_num b') /\
    (r = best \/
     exists vtype weight dim o, In (vtype, weight) types /\ acc vtype dim o /\
       r = Some (make_best weight vtype dim o)).
Proof.
  induction types as [|[vtype weight] tl IH]; intros best r H.
  - inversion H; subst. repeat split.
    + intros b ->. exists b. split; [reflexivity|lia].
    + intros ? ? ? ? [].
    + now left.
  - change (bind (step best (vtype, weight)) (for_each step tl) = Ok r) in H.
    destruct (step best (vtype, weight)) as [best1|] eqn:Es; simpl in H;
      [|discriminate].
    apply via_type_step_spec in Es. destruct Es as (Hkeep & Hacc & Hor).
    apply IH in H. destruct H as (Hkeep' & Hacc' & Hor'). repeat split.
    + intros b Hb. destruct (Hkeep b Hb) as [b1 [-> Hle1]].
      destruct (Hkeep' b1 eq_refl) as [b2 [-> Hle2]].
      exists b2. split; [reflexivity|lia].
    + intros vt wt dim o [Heq|Hin] Ha.
      * inversion Heq; subst. destruct (Hacc dim o Ha) as [b1 [-> Hle1]].
        destruct (Hkeep' b1 eq_refl) as [b2 [-> Hle2]].
        exists b2. split; [reflexivity|lia].
      * eauto.
    + destruct Hor' as [->|(vt & wt & dim & o & Hin & Ha & ->)].
      * destruct Hor as [->|(dim & o & Ha & ->)]; [now left|].
        right. exists vtype, weight, dim, o. simpl. auto.
      * right. exists vt, wt, dim, o. simpl. auto.
Qed.

End TypeLoop.








(* ------------------------------------------------------------------ *)
(** * The EM test of [design_resistor] (C6) *)

Lemma ltb_infinity_l (x : float) : (infinity <? x)%float = false.
Proof.
  rewrite ltb_spec.
  change (Prim2SF infinity) with (S754_infinity false).
  unfold SFltb, SFcompare.
  destruct (Prim2SF x) as [s|s| |s m e]; try reflexivity.
  destruct s; reflexivity.
Qed.

Lemma em_exceeded_iff (limit spec_par : float) :
  em_exceeded limit spec_par = true <->
  (0 <? limit)%float = true /\ (limit <? spec_par)%float = true.
Proof. unfold em_exceeded. apply andb_true_iff. Qed.

(** C6: in both EM checks of [design_resistor] (the pre-check at the
    maximum width and the check of each width and length of the inner
    search) the candidate is rejected, by [up], exactly when some
    provider limit is strictly above zero and strictly below the matching
    current spec divided by the parallel count. A limit of zero or of
    infinity never rejects. The pre-check is decided by the test alone
    once the per-count specs are computed; the inner check by the test
    alone in every pass that reaches it. *)
Theorem C6_em_infeasibility
    (tech : TechInfo) (res_type : string)
    (res_targ idc iac_rms iac_peak rsq wmax : float)
    (wmin_unit wmax_unit lmin_unit : Z) (min_nsq : float)
    (npar_iter : BinaryIterator.t (Z * Z * Z))
    (res_targ_par idc_par iac_rms_par iac_peak_par : float)
    (Hrt : Py.float_mul_int res_targ (BinaryIterator.get_next npar_iter)
           = Ok res_targ_par)
    (Hidc : Py.float_div_int idc (BinaryIterator.get_next npar_iter) = Ok idc_par)
    (Hrms : Py.float_div_int iac_rms (BinaryIterator.get_next npar_iter)
            = Ok iac_rms_par)
    (Hpeak : Py.float_div_int iac_peak (BinaryIterator.get_next npar_iter)
             = Ok iac_peak_par) :
  (forall a b c,
     em_violated (a, b, c) idc_par iac_rms_par iac_peak_par = true <->
     ((0 <? a)%float = true /\ (a <? idc_par)%float = true) \/
     ((0 <? b)%float = true /\ (b <? iac_rms_par)%float = true) \/
     ((0 <? c)%float = true /\ (c <? iac_peak_par)%float = true)) /\
  (forall spec_par,
     em_exceeded 0 spec_par = false /\ em_exceeded (-0) spec_par = false /\
     em_exceeded infinity spec_par = false) /\
  npar_step tech res_type res_targ idc iac_rms iac_peak rsq wmax
    wmin_unit wmax_unit lmin_unit min_nsq npar_iter
  = (if em_violated (get_res_em_specs tech res_type wmax (-1)%float)
          idc_par iac_rms_par iac_peak_par
     then Some (Ok (BinaryIterator.up npar_iter))
     else
       run_bind
         (w_search tech res_type res_targ_par rsq wmin_unit wmax_unit lmin_unit
            min_nsq idc_par iac_rms_par iac_peak_par)
         (fun w_info =>
            match w_info with
            | None => Some (Ok (BinaryIterator.up npar_iter))
            | Some (w, l) =>
                Some (Ok (BinaryIterator.down
                            (BinaryIterator.save_info
                               (BinaryIterator.get_next npar_iter, w, l) npar_iter)))
            end)) /\
  (forall (w_iter : BinaryIterator.t (Z * Z)) (q x y wf lf : float)
          (lcur_unit lfloor : Z),
     Py.truediv res_targ_par rsq = Ok q ->
     Py.float_mul_int q (BinaryIterator.get_next w_iter) = Ok x ->
     Py.ceil x = Ok lcur_unit ->
     Py.float_mul_int min_nsq (BinaryIterator.get_next w_iter) = Ok y ->
     Py.ceil y = Ok lfloor ->
     Z.max lmin_unit lfloor <= lcur_unit ->
     Py.int_mul_float (BinaryIterator.get_next w_iter) (resolution tech) = Ok wf ->
     Py.int_mul_float lcur_unit (resolution tech) = Ok lf ->
     w_step tech res_type res_targ_par rsq lmin_unit min_nsq
       idc_par iac_rms_par iac_peak_par w_iter
     = Ok (if em_violated (get_res_em_specs tech res_type wf lf)
                idc_par iac_rms_par iac_peak_par
           then BinaryIterator.up w_iter
           else BinaryIterator.down
                  (BinaryIterator.save_info
                     (BinaryIterator.get_next w_iter, lcur_unit) w_iter))).
Proof.
  split; [|split; [|split]].
  - intros a b c. unfold em_violated.
    rewrite !orb_true_iff, !em_exceeded_iff. tauto.
  - intros spec_par. split; [reflexivity|]. split; [reflexivity|].
    unfold em_exceeded. rewrite ltb_infinity_l. apply andb_false_r.
  - unfold npar_step, par_targets.
    rewrite Hrt, Hidc, Hrms, Hpeak. cbn [bind run_bind].
    destruct (em_violated _ _ _ _); reflexivity.
  - intros w_iter q x y wf lf lcur_unit lfloor Hq Hx Hl Hy Hfloor Hlen Hwf Hlf.
    unfold w_step. rewrite Hq. cbn [bind]. rewrite Hx. cbn [bind].
    rewrite Hl. cbn [bind]. rewrite Hy. cbn [bind]. rewrite Hfloor. cbn [bind].
    replace (lcur_unit <? Z.max lmin_unit lfloor) with false
      by (symmetry; apply Z.ltb_ge; exact Hlen).
    rewrite Hwf. cbn [bind]. rewrite Hlf. cbn [bind].
    destruct (em_violated _ _ _ _); reflexivity.
Qed.

Lemma C6_em_infeasibility_witness :
  get_res_em_specs Examples.tech_em "res" 10%float (-1)%float
  = (0.01%float, 0%float, infinity) /\
  npar_step Examples.tech_em "res" 1000 0.03 1 1 100 10 1000 10000 1000 1
    (BinaryIterator.init 2 None 2)
  = Some (Ok (BinaryIterator.up (BinaryIterator.init 2 None 2))) /\
  em_violated (get_res_em_specs Examples.tech_em "res" 10%float (-1)%float)
    (0.012 / 2)%float 0.5 0.5 = false /\
  w_step Examples.tech_em "res" 2000 100 1000 1 (0.012 / 2)%float 0.5 0.5
    (BinaryIterator.init 1000 (Some 10001) 2)
  = Ok (BinaryIterator.up (BinaryIterator.init 1000 (Some 10001) 2)).
Proof.
  split; [vm_compute; reflexivity|]. split; [|split; [vm_compute; reflexivity|]].
  - refine (eq_trans (proj1 (proj2 (proj2
      (C6_em_infeasibility Examples.tech_em "res" 1000 0.03 1 1 100 10
         1000 10000 1000 1 (BinaryIterator.init 2 None 2)
         2000 (0.03 / 2)%float 0.5 0.5 _ _ _ _)))) _); vm_compute; reflexivity.
  - refine (eq_trans (proj2 (proj2 (proj2
      (C6_em_infeasibility Examples.tech_em "res" 1000 0.012 1 1 100 10
         1000 10000 1000 1 (BinaryIterator.init 2 None 2)
         2000 (0.012 / 2)%float 0.5 0.5 _ _ _ _)))
      (BinaryIterator.init 1000 (Some 10001) 2)
      20%float 110000%float 5500%float 5.5%float 110%float 110000 5500
      _ _ _ _ _ _ _ _) _);
      vm_compute; try reflexivity.
    discriminate.
Defined.

(* ------------------------------------------------------------------ *)
(** * [get_via_info] (C10) *)

(** C10: whenever [get_via_info] returns a dictionary, its [resistance]
    entry is the constant [0.0], whatever the via type, the array size and
    the EM limits are. *)
Theorem C10_resistance_is_zero
    (tech : TechInfo) (bbox : BBoxView) (bot_layer top_layer bot_dir : string)
    (bot_len top_len : float) (extend : bool) (top_dir : option string)
    (info : via_info)
    (Hret : get_via_info tech bbox bot_layer top_layer bot_dir bot_len top_len
              extend top_dir = Ok (Some info)) :
  resistance info = 0%float.
Proof.
  unfold get_via_info in Hret.
  destruct (get_best_via_array _ _ _ _ _ _ _ _ _) as [[r|]|]; simpl in Hret;
    try discriminate.
  destruct (arr_nxy r) as [nx ny], (arr_via_space r) as [spx spy],
    (arr_via_arr_dim r) as [warr harr].
  match type of Hret with
  | bind ?m _ = _ => destruct m as [[bw tw]|]; simpl in Hret; [|discriminate]
  end.
  destruct (get_via_em_specs _ _ _ _ _ _ _ _) as [[i1 i2] i3].
  repeat match type of Hret with
  | bind ?m _ = _ => destruct m; simpl in Hret; [|discriminate]
  end.
  inversion Hret; subst. reflexivity.
Qed.

Lemma C10_resistance_is_zero_witness :
  exists info,
    get_via_info Examples.tech_square
      {| bbox_w := 10; bbox_h := 10; xc_unit := 5; yc_unit := 5 |}
      "M1" "M2" "x" (-1)%float (-1)%float true None = Ok (Some info) /\
    params info
    = {| p_id := "M2_M1"; p_loc := (5, 5); p_orient := "R0";
         p_num_rows := 3; p_num_cols := 3; p_sp_rows := 1; p_sp_cols := 1;
         p_enc1 := [1; 1; 1; 1]; p_enc2 := [1; 1; 1; 1];
         p_cut_width := 2; p_cut_height := 2 |} /\
    resistance info = 0%float.
Proof.
  eexists. split; [vm_compute; reflexivity|]. split; [reflexivity|].
  eapply (C10_resistance_is_zero Examples.tech_square
            {| bbox_w := 10; bbox_h := 10; xc_unit := 5; yc_unit := 5 |}
            "M1" "M2" "x" (-1)%float (-1)%float true None).
  vm_compute. reflexivity.
Defined.

(* ------------------------------------------------------------------ *)
(** * The enclosure test of one layer *)

Section EnclosureLoop.

Variable extend : bool.
Variables enc_idx enc_dim ext_dim dim_lim max_ext_dim : Z.

Let passes := enc_passes extend enc_idx enc_dim ext_dim dim_lim max_ext_dim.
Let step := enc_step extend enc_idx enc_dim ext_dim dim_lim max_ext_dim.

Lemma enc_fold_keeps_some (l : list (Z * Z)) :
  forall m, exists m', fold_left step l (Some m) = Some m'.
Proof.
  induction l as [|enc l IH]; intros m; simpl.
  - eauto.
  - unfold step at 2, enc_step. destruct (enc_passes _ _ _ _ _ _ enc); [|apply IH].
    destruct (_ <? m); apply IH.
Qed.

Lemma enc_fold_some_iff (l : list (Z * Z)) :
  (exists m, fold_left step l None = Some m) <->
  Exists (fun enc => passes enc = true) l.
Proof.
  induction l as [|enc l IH]; simpl.
  - split; [intros [m H]; discriminate|intros H; inversion H].
  - unfold step at 2, enc_step. fold passes. destruct (passes enc) eqn:E.
    + split; [intros _; now apply Exists_cons_hd|intros _; apply enc_fold_keeps_some].
    + rewrite IH. split; [apply Exists_cons_tl|].
      intros H. inversion H; subst; [congruence|assumption].
Qed.

End EnclosureLoop.

Lemma check_layer_spec (w h : Z) (extend : bool) (nx ny w_arr h_arr : Z)
    (mdir : string) (encs : list (Z * Z)) (arr_enc : option (list (Z * Z)))
    (arr_test : option (Z -> Z -> bool)) (tot : list (Z * Z)) :
  total_enc_list nx ny encs arr_enc arr_test = Ok tot ->
  exists r,
    check_layer w h extend nx ny w_arr h_arr mdir encs arr_enc arr_test = Ok r /\
    ((exists mdim, r = Some mdim) <-> layer_fits w h extend w_arr h_arr mdir tot).
Proof.
  intros Htot. unfold check_layer, layer_fits. rewrite Htot. cbn [bind].
  destruct (layer_axes mdir w h w_arr h_arr)
    as [[[[enc_idx enc_dim] ext_dim] dim_lim] max_ext].
  pose proof (enc_fold_some_iff extend enc_idx enc_dim ext_dim dim_lim max_ext tot)
    as Hiff.
  destruct (fold_left _ tot None) as [m|].
  - eexists. split; [reflexivity|]. split.
    + intros _. apply Hiff. eauto.
    + eauto.
  - exists None. split; [reflexivity|]. split.
    + intros [m H]; discriminate.
    + intros H. apply Hiff in H. destruct H as [m H]. discriminate.
Qed.

Lemma check_layer_raise (w h : Z) (extend : bool) (nx ny w_arr h_arr : Z)
    (mdir : string) (encs : list (Z * Z)) (arr_enc : option (list (Z * Z)))
    (arr_test : option (Z -> Z -> bool)) (e : exn) :
  total_enc_list nx ny encs arr_enc arr_test = Raise e ->
  check_layer w h extend nx ny w_arr h_arr mdir encs arr_enc arr_test = Raise e.
Proof. intros H. unfold check_layer. rewrite H. reflexivity. Qed.

Lemma total_enc_list_incl (nx ny : Z) (encs : list (Z * Z))
    (arr_enc : option (list (Z * Z))) (arr_test : option (Z -> Z -> bool))
    (tot : list (Z * Z)) :
  total_enc_list nx ny encs arr_enc arr_test = Ok tot ->
  (forall enc, In enc encs -> In enc tot) /\
  (forall enc, In enc tot ->
     In enc encs \/ exists extra, arr_enc = Some extra /\ In enc extra).
Proof.
  unfold total_enc_list. intros H.
  destruct arr_test as [test|]; [destruct (test ny nx)|];
    [destruct arr_enc as [extra|]; [|discriminate]| |];
    inversion H; subst; split; intros enc Hin; auto.
  - apply in_or_app. now left.
  - apply in_app_or in Hin. destruct Hin; eauto.
Qed.

(* ------------------------------------------------------------------ *)
(** * Scenario A (C7) *)

Lemma metal_width_same (dir : string) (a : Z) : metal_width dir a a = a.
Proof. unfold metal_width. destruct (String.eqb dir "x"); reflexivity. Qed.

Lemma generous_check_layer (info : via_drc_info) (extend : bool) (mdir : string) :
  generous 1 info ->
  exists mdim,
    check_layer 10 10 extend 3 3 8 8 mdir
      (drc_enc info) (drc_arr_enc info) (drc_arr_test info) = Ok (Some mdim).
Proof.
  intros [Hex Harr].
  assert (Htot : exists tot,
             total_enc_list 3 3 (drc_enc info) (drc_arr_enc info) (drc_arr_test info)
             = Ok tot).
  { unfold total_enc_list. destruct Harr as [->|[extra ->]]; [eauto|].
    destruct (drc_arr_test info) as [test|]; [destruct (test 3 3)|]; eauto. }
  destruct Htot as [tot Htot].
  destruct (check_layer_spec 10 10 extend 3 3 8 8 mdir _ _ _ _ Htot) as [r [Hr Hiff]].
  destruct (proj2 Hiff) as [mdim ->]; [|eauto].
  unfold layer_fits, layer_axes.
  apply Exists_exists in Hex. destruct Hex as [enc [Hin [H0 H1]]].
  apply (total_enc_list_incl _ _ _ _ _ _ Htot) in Hin.
  destruct (String.eqb mdir "y"); apply Exists_exists; exists enc;
    (split; [exact Hin|]); unfold enc_passes, Py.item;
    change (1 - 0) with 1; change (1 - 1) with 0;
    change (0 =? 0) with true; change (1 =? 0) with false; cbv iota;
    apply andb_true_iff; (split; [apply Z.leb_le; lia|]);
    apply orb_true_iff; right; apply Z.leb_le; lia.
Qed.

(** C7: one candidate via type with a 2 x 2 cut, spacing (1, 1) in every
    regime and an enclosure of at most 1 available on both layers, in a
    10 x 10 box: the spacing floor is (1, 1), the largest column count is
    [(10 + 1) // (2 + 1) = 3], and [get_best_via_array] returns the
    3 x 3 array of that type, at spacing (1, 1) and of extent 8 x 8. *)
Theorem C7_scenario_A
    (tech : TechInfo) (vname bmtype tmtype bot_dir top_dir : string)
    (extend : bool) (vtype : string) (weight : Z) (bot top : via_drc_info)
    (Htypes : get_via_types tech bmtype tmtype = [(vtype, weight)])
    (Hbot : get_via_drc_info tech vname vtype bmtype 10 true = Ok bot)
    (Htop : get_via_drc_info tech vname vtype tmtype 10 false = Ok top)
    (Hdim : drc_dim bot = (2, 2))
    (Hsp : drc_sp bot = (1, 1))
    (Hsp2 : regime_is (1, 1) (drc_sp2_list bot))
    (Hsp3 : regime_is (1, 1) (drc_sp3_list bot))
    (Hencb : generous 1 bot)
    (Henct : generous 1 top) :
  sp_min (drc_sp bot) (default_sp2 (drc_sp bot) (drc_sp2_list bot))
    (default_sp3 (drc_sp bot) (drc_sp2_list bot) (drc_sp3_list bot)) = (1, 1) /\
  Py.floordiv (10 + 1) (2 + 1) = Ok 3 /\
  exists r,
    get_best_via_array tech vname bmtype tmtype bot_dir top_dir 10 10 extend
    = Ok (Some r) /\
    arr_nxy r = (3, 3) /\ fst (arr_nxy r) * snd (arr_nxy r) = 9 /\
    arr_vtype r = vtype /\ arr_vdim r = (2, 2) /\
    arr_via_space r = (1, 1) /\ arr_via_arr_dim r = (8, 8).
Proof.
  assert (Hmin : sp_min (drc_sp bot) (default_sp2 (drc_sp bot) (drc_sp2_list bot))
            (default_sp3 (drc_sp bot) (drc_sp2_list bot) (drc_sp3_list bot)) = (1, 1)).
  { rewrite Hsp. destruct Hsp2 as [-> | ->], Hsp3 as [-> | ->]; reflexivity. }
  assert (Hcombo : sp_combo (drc_sp bot) (default_sp2 (drc_sp bot) (drc_sp2_list bot))
            (default_sp3 (drc_sp bot) (drc_sp2_list bot) (drc_sp3_list bot)) 3 3
            = [(1, 1)]).
  { rewrite Hsp. destruct Hsp2 as [-> | ->], Hsp3 as [-> | ->]; reflexivity. }
  split; [exact Hmin|]. split; [reflexivity|].
  destruct (generous_check_layer bot extend bot_dir Hencb) as [mb Hmb].
  destruct (generous_check_layer top extend top_dir Henct) as [mt Hmt].
  unfold get_best_via_array. rewrite via_search_unfold, Htypes.
  rewrite !metal_width_same. simpl.
  unfold lookup_drc. rewrite Hbot, Htop. simpl.
  unfold find_opt. rewrite Hmin, Hdim. simpl fst. simpl snd.
  change (Py.floordiv (10 + 1) (2 + 1)) with (Ok (A := Z) 3). simpl bind.
  replace (nxy_list 3 3)
    with [(9, 3, 3); (6, 3, 2); (6, 2, 3); (4, 2, 2); (3, 3, 1); (3, 1, 3);
          (2, 2, 1); (2, 1, 2); (1, 1, 1)] by (vm_compute; reflexivity).
  cbn [first_success]. rewrite Hcombo. cbn [first_success].
  unfold try_spacing. simpl fst. simpl snd.
  change (3 * (1 + 2) - 1) with 8. rewrite Hmb. simpl. rewrite Hmt. simpl.
  eexists. split; [reflexivity|]. simpl. repeat split.
Qed.

Lemma C7_scenario_A_witness :
  exists r,
    get_best_via_array Examples.tech_square "via1" "m1" "m2" "x" "y" 10 10 false
    = Ok (Some r) /\
    arr_nxy r = (3, 3) /\ fst (arr_nxy r) * snd (arr_nxy r) = 9 /\
    arr_vtype r = "square"%string /\ arr_vdim r = (2, 2) /\
    arr_via_space r = (1, 1) /\ arr_via_arr_dim r = (8, 8).
Proof.
  assert (Hgen : generous 1 Examples.square_rule).
  { split; [|now left]. apply Exists_cons_hd. simpl. lia. }
  exact (proj2 (proj2
    (C7_scenario_A Examples.tech_square "via1" "m1" "m2" "x" "y" false
       "square" 1 Examples.square_rule Examples.square_rule
       eq_refl eq_refl eq_refl eq_refl eq_refl
       (or_intror eq_refl) (or_intror eq_refl) Hgen Hgen))).
Defined.

(* ------------------------------------------------------------------ *)
(** * The loops of [design_resistor] *)

Lemma while_loop_invariant {S : Type} (P : S -> Prop) (cond : S -> bool)
    (body : S -> run S) :
  (forall s s', P s -> cond s = true -> body s = Some (Ok s') -> P s') ->
  forall fuel s s',
    P s -> while_loop cond body fuel s = Some (Ok s') -> P s' /\ cond s' = false.
Proof.
  intros Hstep. induction fuel as [|fuel IH]; intros s s' Hs H; simpl in H.
  - destruct (cond s) eqn:Ec; [discriminate|]. inversion H; subst. auto.
  - destruct (cond s) eqn:Ec.
    + destruct (body s) as [[s1|e]|] eqn:Eb; simpl in H; try discriminate.
      eapply IH; [|exact H]. eapply Hstep; eauto.
    + inversion H; subst. auto.
Qed.

Lemma while_loop_never_ends {S : Type} (P : S -> Prop) (cond : S -> bool)
    (body : S -> run S) :
  (forall s, P s -> cond s = true) ->
  (forall s s', P s -> body s = Some (Ok s') -> P s') ->
  forall fuel s s', P s -> while_loop cond body fuel s <> Some (Ok s').
Proof.
  intros Hcond Hstep. induction fuel as [|fuel IH]; intros s s' Hs H; simpl in H;
    rewrite (Hcond s Hs) in H; [discriminate|].
  destruct (body s) as [[s1|e]|] eqn:Eb; simpl in H; try discriminate.
  eapply IH; [|exact H]. eauto.
Qed.

Lemma npar_step_try (tech : TechInfo) (res_type : string)
    (res_targ idc iac_rms iac_peak rsq wmax : float)
    (wmin_unit wmax_unit lmin_unit : Z) (min_nsq : float)
    (npar_iter : BinaryIterator.t (Z * Z * Z)) :
  npar_step tech res_type res_targ idc iac_rms iac_peak rsq wmax
    wmin_unit wmax_unit lmin_unit min_nsq npar_iter
  = run_bind
      (npar_try tech res_type res_targ idc iac_rms iac_peak rsq wmax
         wmin_unit wmax_unit lmin_unit min_nsq (BinaryIterator.get_next npar_iter))
      (fun verdict =>
         match verdict with
         | None => Some (Ok (BinaryIterator.up npar_iter))
         | Some (w, l) =>
             Some (Ok (BinaryIterator.down
                         (BinaryIterator.save_info
                            (BinaryIterator.get_next npar_iter, w, l) npar_iter)))
         end).
Proof.
  unfold npar_step, npar_try.
  destruct (par_targets _ _ _ _ _) as [[[[rt a] b] c]|e]; simpl; [|reflexivity].
  destruct (em_violated _ _ _ _); reflexivity.
Qed.

(** Each pass of the outer loop keeps [saved_or_unbounded]. *)
Lemma npar_step_saved (tech : TechInfo) (res_type : string)
    (res_targ idc iac_rms iac_peak rsq wmax : float)
    (wmin_unit wmax_unit lmin_unit : Z) (min_nsq : float)
    (it it' : BinaryIterator.t (Z * Z * Z)) :
  saved_or_unbounded it ->
  npar_step tech res_type res_targ idc iac_rms iac_peak rsq wmax
    wmin_unit wmax_unit lmin_unit min_nsq it = Some (Ok it') ->
  saved_or_unbounded it'.
Proof.
  intros Hinv H. rewrite npar_step_try in H.
  destruct (npar_try _ _ _ _ _ _ _ _ _ _ _ _ _) as [[[[w l]|]|e]|];
    simpl in H; try discriminate; inversion H; subst.
  - right. simpl. discriminate.
  - destruct Hinv as [Hinv|Hinv]; [left|right]; simpl; assumption.
Qed.

(** When the outer loop ends, a solution has been saved: the unpacking of
    [get_last_save_info()] never meets [None]. *)
Lemma npar_search_saved (tech : TechInfo) (res_type : string) (fuel : nat)
    (res_targ idc iac_rms iac_peak : float) (num_even : bool)
    (wmin_unit wmax_unit lmin_unit : Z) (info : option (Z * Z * Z)) :
  npar_search tech res_type fuel res_targ idc iac_rms iac_peak num_even
    wmin_unit wmax_unit lmin_unit = Some (Ok info) ->
  info <> None.
Proof.
  unfold npar_search. intros H.
  destruct (while_loop _ _ fuel _) as [[it|e]|] eqn:Ew; simpl in H;
    try discriminate.
  inversion H; subst.
  eapply (while_loop_invariant saved_or_unbounded) in Ew.
  - destruct Ew as [[Hnone|Hsaved] Hcond]; [|exact Hsaved].
    unfold BinaryIterator.has_next in Hcond. rewrite Hnone in Hcond. discriminate.
  - intros s s' Hs _ Hb. eapply npar_step_saved; eauto.
  - left. destruct num_even; reflexivity.
Qed.

(** With no feasible parallel count the outer loop never ends. *)
Lemma npar_search_no_verdict (tech : TechInfo) (res_type : string) (fuel : nat)
    (res_targ idc iac_rms iac_peak : float) (num_even : bool)
    (wmin_unit wmax_unit lmin_unit : Z) (info : option (Z * Z * Z)) :
  (forall npar w l,
     npar_try tech res_type res_targ idc iac_rms iac_peak
       (get_res_rsquare tech res_type) (snd (get_res_width_bounds tech res_type))
       wmin_unit wmax_unit lmin_unit (get_res_min_nsquare tech res_type) npar
     <> Some (Ok (Some (w, l)))) ->
  npar_search tech res_type fuel res_targ idc iac_rms iac_peak num_even
    wmin_unit wmax_unit lmin_unit <> Some (Ok info).
Proof.
  intros Hno H. unfold npar_search in H.
  destruct (while_loop _ _ fuel _) as [[it|e]|] eqn:Ew; simpl in H;
    try discriminate.
  revert Ew.
  apply (while_loop_never_ends (fun it => BinaryIterator.high it = None)).
  - intros s Hs. unfold BinaryIterator.has_next. rewrite Hs. reflexivity.
  - intros s s' Hs Hb. rewrite npar_step_try in Hb.
    destruct (npar_try _ _ _ _ _ _ _ _ _ _ _ _ _) as [[[[w l]|]|e]|] eqn:Et;
      simpl in Hb; try discriminate.
    + exfalso. eapply Hno. exact Et.
    + inversion Hb; subst. simpl. exact Hs.
  - destruct num_even; reflexivity.
Qed.

Lemma w_step_cases (tech : TechInfo) (res_type : string)
    (res_targ_par rsq : float) (lmin_unit : Z) (min_nsq : float)
    (idc_par iac_rms_par iac_peak_par : float) (it it' : BinaryIterator.t (Z * Z)) :
  w_step tech res_type res_targ_par rsq lmin_unit min_nsq
    idc_par iac_rms_par iac_peak_par it = Ok it' ->
  it' = BinaryIterator.up it \/ it' = BinaryIterator.down it \/
  exists info, it' = BinaryIterator.down (BinaryIterator.save_info info it).
Proof.
  unfold w_step. intros H.
  repeat match type of H with
  | bind ?m _ = _ => destruct m; simpl in H; [|discriminate]
  end.
  destruct (_ <? _).
  - inversion H. auto.
  - repeat match type of H with
    | bind ?m _ = _ => destruct m; simpl in H; [|discriminate]
    end.
    destruct (em_violated _ _ _ _); inversion H; eauto.
Qed.

Lemma bounded_progress (it it' : BinaryIterator.t (Z * Z)) :
  bounded it -> BinaryIterator.has_next it = true ->
  (it' = BinaryIterator.up it \/ it' = BinaryIterator.down it \/
   exists info, it' = BinaryIterator.down (BinaryIterator.save_info info it)) ->
  bounded it' /\ (w_fuel it' < w_fuel it)%nat.
Proof.
  intros [hi [Hhi Hcur]] Hnext Hcases.
  unfold BinaryIterator.has_next in Hnext. rewrite Hhi in Hnext.
  apply Z.ltb_lt in Hnext.
  assert (Hmid : BinaryIterator.low it <= BinaryIterator.current it < hi).
  { rewrite Hcur. split.
    - apply Z.div_le_lower_bound; lia.
    - apply Z.div_lt_upper_bound; lia. }
  unfold bounded, w_fuel.
  destruct Hcases as [-> | [-> | [info ->]]]; simpl; rewrite ?Hhi.
  - split; [exists hi; auto|]. lia.
  - split; [eexists; eauto|]. lia.
  - split; [eexists; eauto|]. lia.
Qed.

(** The inner loop ends within the fuel [w_search] gives it. *)
Lemma w_loop_total (tech : TechInfo) (res_type : string)
    (res_targ_par rsq : float) (lmin_unit : Z) (min_nsq : float)
    (idc_par iac_rms_par iac_peak_par : float) :
  forall fuel it,
    bounded it -> (w_fuel it <= fuel)%nat ->
    while_loop BinaryIterator.has_next
      (fun it => Some (w_step tech res_type res_targ_par rsq lmin_unit min_nsq
                         idc_par iac_rms_par iac_peak_par it)) fuel it <> None.
Proof.
  induction fuel as [|fuel IH]; intros it Hb Hfuel; simpl.
  - destruct (BinaryIterator.has_next it) eqn:Hn; [|discriminate].
    destruct Hb as [hi [Hhi Hcur]].
    unfold BinaryIterator.has_next in Hn. unfold w_fuel in Hfuel.
    rewrite Hhi in Hn, Hfuel. apply Z.ltb_lt in Hn. lia.
  - destruct (BinaryIterator.has_next it) eqn:Hn; [|discriminate].
    destruct (w_step _ _ _ _ _ _ _ _ _ it) as [it'|e] eqn:Es; simpl; [|discriminate].
    apply w_step_cases in Es.
    destruct (bounded_progress it it' Hb Hn Es) as [Hb' Hlt].
    apply IH; [exact Hb'|lia].
Qed.

Lemma w_search_total (tech : TechInfo) (res_type : string)
    (res_targ_par rsq : float) (wmin_unit wmax_unit lmin_unit : Z) (min_nsq : float)
    (idc_par iac_rms_par iac_peak_par : float) :
  w_search tech res_type res_targ_par rsq wmin_unit wmax_unit lmin_unit min_nsq
    idc_par iac_rms_par iac_peak_par <> None.
Proof.
  unfold w_search.
  match goal with
  | |- run_bind (while_loop ?c ?b ?f ?s) _ <> None =>
      pose proof (w_loop_total tech res_type res_targ_par rsq lmin_unit min_nsq
                    idc_par iac_rms_par iac_peak_par f s) as Htot;
      destruct (while_loop c b f s) as [[it|e]|]
  end; simpl; try discriminate.
  exfalso. apply Htot; [|lia|reflexivity].
  unfold bounded, BinaryIterator.init. simpl. eauto.
Qed.

Lemma get_via_info_none (tech : TechInfo) (bbox : BBoxView)
    (bot_layer top_layer bot_dir : string) (bot_len top_len : float)
    (extend : bool) (top_dir : option string) :
  get_best_via_array tech (get_via_name tech (get_layer_id tech bot_layer))
    (get_layer_type tech bot_layer) (get_layer_type tech top_layer)
    bot_dir (resolved_top_dir bot_dir top_dir) (bbox_w bbox) (bbox_h bbox) extend
  = Ok None ->
  get_via_info tech bbox bot_layer top_layer bot_dir bot_len top_len extend top_dir
  = Ok None.
Proof.
  intros H. unfold get_via_info. fold (resolved_top_dir bot_dir top_dir).
  rewrite H. reflexivity.
Qed.

Lemma for_each_cons {S A : Type} (body : S -> A -> result S) (a : A) (l : list A)
    (s : S) :
  for_each body (a :: l) s = bind (body s a) (for_each body l).
Proof. reflexivity. Qed.

Lemma for_each_all_fail (tech : TechInfo) (vname bmtype tmtype bot_dir top_dir : string)
    (w h : Z) (extend : bool) (types : list (string * Z)) :
  (forall vtype weight, In (vtype, weight) types ->
     via_type_fails tech vname bmtype tmtype bot_dir top_dir w h extend vtype) ->
  forall best,
    for_each (via_type_step tech vname bmtype tmtype bot_dir top_dir w h extend
                (metal_width bot_dir w h) (metal_width top_dir w h)) types best
    = Ok best.
Proof.
  induction types as [|[vtype weight] tl IH]; intros Hall best.
  - reflexivity.
  - rewrite for_each_cons.
    assert (Hstep : via_type_step tech vname bmtype tmtype bot_dir top_dir w h extend
                      (metal_width bot_dir w h) (metal_width top_dir w h)
                      best (vtype, weight) = Ok best).
    { unfold via_type_step.
      destruct (Hall vtype weight (or_introl eq_refl)) as [Hl|(bi & ti & Hl & Hf)];
        rewrite Hl; simpl; [reflexivity|]. rewrite Hf. reflexivity. }
    rewrite Hstep. simpl. apply IH. intros vt wt Hin. apply (Hall vt wt). now right.
Qed.

(* ------------------------------------------------------------------ *)
(** * No-solution results (C2) *)

(** C2, as stated, fails for [design_resistor]: with width bounds that
    leave no even width (1.001 to 1.001 layout units at resolution 0.001)
    no parallel count is feasible, and the call ends in [OverflowError]
    once the doubled parallel count no longer converts to a float; no
    not-found value is returned. *)
Lemma C2_design_resistor_raises :
  unit_bounds Examples.tech_odd_width "res" = Ok (1002, 1000, 1000, 5000) /\
  design_resistor Examples.tech_odd_width "res" 1025 1000 0 0 0 true
  = Some (Raise OverflowError).
Proof. split; vm_compute; reflexivity. Qed.

(** C2, amended: when every candidate via type has no rule or no legal
    array, [get_best_via_array] returns [None], and so does
    [get_via_info]. [design_resistor] has no not-found result: when no
    parallel count admits a feasible width it never returns, whatever the
    number of passes allowed to the outer loop, and whenever the outer
    loop does end a solution has been saved. *)
Theorem C2_not_found_results
    (tech : TechInfo) (vname bmtype tmtype bot_dir top_dir : string) (w h : Z)
    (extend : bool) (res_type : string) (res_targ idc iac_rms iac_peak : float)
    (num_even : bool)
    (Hvia : forall vtype weight,
        In (vtype, weight) (get_via_types tech bmtype tmtype) ->
        via_type_fails tech vname bmtype tmtype bot_dir top_dir w h extend vtype)
    (Hres : forall npar wd ln,
        count_verdict tech res_type res_targ idc iac_rms iac_peak npar
        <> Some (Ok (Some (wd, ln)))) :
  get_best_via_array tech vname bmtype tmtype bot_dir top_dir w h extend = Ok None /\
  (forall bbox bot_layer top_layer bot_len top_len top_dir_arg,
     vname = get_via_name tech (get_layer_id tech bot_layer) ->
     bmtype = get_layer_type tech bot_layer ->
     tmtype = get_layer_type tech top_layer ->
     top_dir = resolved_top_dir bot_dir top_dir_arg ->
     w = bbox_w bbox -> h = bbox_h bbox ->
     get_via_info tech bbox bot_layer top_layer bot_dir bot_len top_len extend
       top_dir_arg = Ok None) /\
  (forall fuel sol,
     design_resistor tech res_type fuel res_targ idc iac_rms iac_peak num_even
     <> Some (Ok sol)) /\
  (forall fuel wmin_unit wmax_unit lmin_unit info,
     npar_search tech res_type fuel res_targ idc iac_rms iac_peak num_even
       wmin_unit wmax_unit lmin_unit = Some (Ok info) ->
     info <> None).
Proof.
  assert (Hnone : get_best_via_array tech vname bmtype tmtype bot_dir top_dir
                    w h extend = Ok None).
  { unfold get_best_via_array. rewrite via_search_unfold.
    rewrite (for_each_all_fail _ _ _ _ _ _ _ _ _ _ Hvia). reflexivity. }
  split; [exact Hnone|]. split; [|split].
  - intros bbox bot_layer top_layer bot_len top_len top_dir_arg
      Hv Hb Ht Hd Hw Hh. subst. apply get_via_info_none. exact Hnone.
  - intros fuel sol H. unfold design_resistor in H.
    unfold count_verdict in Hres.
    destruct (unit_bounds tech res_type) as [[[[wmin_u wmax_u] lmin_u] lmax_u]|e];
      simpl in H, Hres; [|discriminate].
    destruct (npar_search _ _ _ _ _ _ _ _ _ _ _) as [[info|e]|] eqn:En;
      simpl in H; try discriminate.
    revert En. apply npar_search_no_verdict. exact Hres.
  - intros fuel wmin_unit wmax_unit lmin_unit info. apply npar_search_saved.
Qed.

Lemma C2_not_found_results_witness :
  get_best_via_array Examples.tech_odd_width "via1" "m1" "m2" "x" "y" 1 1 true
  = Ok None /\
  forall fuel sol,
    design_resistor Examples.tech_odd_width "res" fuel 1000 0 0 0 true
    <> Some (Ok sol).
Proof.
  assert (Hvia : forall vtype weight,
             In (vtype, weight)
                (get_via_types Examples.tech_odd_width "m1" "m2") ->
             via_type_fails Examples.tech_odd_width "via1" "m1" "m2" "x" "y" 1 1 true
               vtype).
  { intros vtype weight [Heq|[]]. inversion Heq; subst.
    right. exists Examples.square_rule, Examples.square_rule.
    split; vm_compute; reflexivity. }
  assert (Hres : forall npar wd ln,
             count_verdict Examples.tech_odd_width "res" 1000 0 0 0 npar
             <> Some (Ok (Some (wd, ln)))).
  { intros npar wd ln. unfold count_verdict.
    replace (unit_bounds Examples.tech_odd_width "res")
      with (Ok (A := Z * Z * Z * Z) (1002, 1000, 1000, 5000))
      by (vm_compute; reflexivity).
    unfold run_bind at 1. unfold npar_try.
    destruct (par_targets _ _ _ _ _) as [[[[rt a] b] c]|e]; cbn [run_bind];
      [|discriminate].
    destruct (em_violated _ _ _ _); [discriminate|].
    vm_compute. discriminate. }
  destruct (C2_not_found_results Examples.tech_odd_width
              "via1" "m1" "m2" "x" "y" 1 1 true "res" 1000 0 0 0 true Hvia Hres)
    as (Hnone & _ & Hnever & _).
  split; [exact Hnone|exact Hnever].
Defined.

(* ------------------------------------------------------------------ *)
(** * The series correction (C1) *)

(** C1, at a failing input. Widths 1 to 10 and lengths 1 to 5 layout
    units at resolution 0.001, 100 Ohm per square, target 1000 Ohm: the
    search settles on two parallel devices of 1000 by 20000 resolution
    units, beyond the length bound of 5000, so four are put in series.
    The returned per-device length is 0.005 m, where
    [round(20000 / 4)] resolution units are about 5e-06 m: the returned
    length exceeds the described one 999 times over, and the returned
    length times [num_ser] exceeds the length before the correction
    999 times over. *)
Theorem C1_series_length_units :
  unit_bounds Examples.tech_short "res" = Ok (1000, 10000, 1000, 5000) /\
  npar_search Examples.tech_short "res" 10 1000 0 0 0 true 1000 10000 1000
  = Some (Ok (Some (2, 1000, 20000))) /\
  exists wopt lopt described before,
    design_resistor Examples.tech_short "res" 10 1000 0 0 0 true
    = Some (Ok (2, 4, wopt, lopt)) /\
    lopt = 0.005%float /\
    series_unit_length Examples.tech_short 20000 4 = Ok described /\
    total_length Examples.tech_short 20000 = Ok before /\
    (4.9e-6 <? described)%float = true /\ (described <? 5.1e-6)%float = true /\
    (999 * described <? lopt)%float = true /\
    (999 * before <? lopt * 4)%float = true.
Proof.
  split; [vm_compute; reflexivity|]. split; [vm_compute; reflexivity|].
  do 4 eexists.
  split; [vm_compute; reflexivity|]. split; [vm_compute; reflexivity|].
  split; [vm_compute; reflexivity|]. split; [vm_compute; reflexivity|].
  repeat split; vm_compute; reflexivity.
Qed.

(* ------------------------------------------------------------------ *)
(** * The search over arrays of one via type *)

Section FirstSuccess.

Context {A B : Type}.
Variable f : A -> result (option B).

Lemma first_success_some (l : list A) (b : B) :
  first_success f l = Ok (Some b) ->
  exists l1 a l2,
    l = l1 ++ a :: l2 /\ f a = Ok (Some b) /\ (forall x, In x l1 -> f x = Ok None).
Proof.
  induction l as [|a l IH]; simpl; intros H; [discriminate|].
  destruct (f a) as [[b'|]|e] eqn:Ea; simpl in H; try discriminate.
  - inversion H; subst. exists [], a, l. repeat split; [exact Ea|intros x []].
  - destruct (IH H) as (l1 & a' & l2 & -> & Ha' & Hpre).
    exists (a :: l1), a', l2. repeat split; [exact Ha'|].
    intros x [<-|Hx]; auto.
Qed.

Lemma first_success_none (l : list A) :
  first_success f l = Ok None -> forall a, In a l -> f a = Ok None.
Proof.
  induction l as [|a l IH]; simpl; intros H x Hx; [contradiction|].
  destruct (f a) as [[b'|]|e] eqn:Ea; simpl in H; try discriminate.
  destruct Hx as [<-|Hx]; auto.
Qed.

Lemma first_success_ok (l : list A) :
  (forall a, In a l -> exists r, f a = Ok r) ->
  exists r, first_success f l = Ok r.
Proof.
  induction l as [|a l IH]; simpl; intros H; [eauto|].
  destruct (H a (or_introl eq_refl)) as [[b|] ->]; simpl; eauto.
Qed.

End FirstSuccess.

Section OneSpacing.

Variables w h : Z.
Variable extend : bool.
Variables bot_dir top_dir : string.
Variables bi ti : via_drc_info.
Variables nx ny : Z.

Let attempt :=
  try_spacing w h extend bot_dir top_dir (drc_dim bi)
    (drc_enc bi) (drc_arr_enc bi) (drc_arr_test bi)
    (drc_enc ti) (drc_arr_enc ti) (drc_arr_test ti) nx ny.

(** A success of [try_spacing]: what it records and why. *)
Lemma try_spacing_some (sp : Z * Z) (o : via_opt) :
  attempt sp = Ok (Some o) ->
  opt_nxy o = (nx, ny) /\ opt_sp o = sp /\
  opt_adim o = (extent nx (fst (drc_dim bi)) (fst sp),
                extent ny (snd (drc_dim bi)) (snd sp)) /\
  exists totb tott,
    enc_lists nx ny bi ti totb tott /\
    layer_fits w h extend (extent nx (fst (drc_dim bi)) (fst sp))
      (extent ny (snd (drc_dim bi)) (snd sp)) bot_dir totb /\
    layer_fits w h extend (extent nx (fst (drc_dim bi)) (fst sp))
      (extent ny (snd (drc_dim bi)) (snd sp)) top_dir tott.
Proof.
  unfold attempt, try_spacing, enc_lists, extent. destruct sp as [spx spy].
  simpl fst. simpl snd. intros H.
  destruct (total_enc_list nx ny (drc_enc bi) _ _) as [totb|e] eqn:Eb;
    [|rewrite (check_layer_raise _ _ _ _ _ _ _ _ _ _ _ _ Eb) in H; discriminate].
  destruct (check_layer_spec w h extend nx ny
              (nx * (spx + fst (drc_dim bi)) - spx)
              (ny * (spy + snd (drc_dim bi)) - spy) bot_dir _ _ _ _ Eb)
    as [rb [Hrb Hfb]].
  rewrite Hrb in H. cbn [bind] in H. destruct rb as [mb|]; [|discriminate].
  destruct (total_enc_list nx ny (drc_enc ti) _ _) as [tott|e] eqn:Et;
    [|rewrite (check_layer_raise _ _ _ _ _ _ _ _ _ _ _ _ Et) in H; discriminate].
  destruct (check_layer_spec w h extend nx ny
              (nx * (spx + fst (drc_dim bi)) - spx)
              (ny * (spy + snd (drc_dim bi)) - spy) top_dir _ _ _ _ Et)
    as [rt [Hrt Hft]].
  rewrite Hrt in H. cbn [bind] in H. destruct rt as [mt|]; [|discriminate].
  inversion H; subst. simpl. repeat split.
  exists totb, tott. repeat split.
  - apply Hfb. eauto.
  - apply Hft. eauto.
Qed.

(** With both enclosure lists at hand [try_spacing] raises nothing, and
    it succeeds when both layers fit. *)
Lemma try_spacing_ok (sp : Z * Z) (totb tott : list (Z * Z)) :
  enc_lists nx ny bi ti totb tott ->
  exists r,
    attempt sp = Ok r /\
    (layer_fits w h extend (extent nx (fst (drc_dim bi)) (fst sp))
       (extent ny (snd (drc_dim bi)) (snd sp)) bot_dir totb ->
     layer_fits w h extend (extent nx (fst (drc_dim bi)) (fst sp))
       (extent ny (snd (drc_dim bi)) (snd sp)) top_dir tott ->
     exists o, r = Some o).
Proof.
  unfold attempt, try_spacing, enc_lists, extent. destruct sp as [spx spy].
  simpl fst. simpl snd. intros [Eb Et].
  destruct (check_layer_spec w h extend nx ny
              (nx * (spx + fst (drc_dim bi)) - spx)
              (ny * (spy + snd (drc_dim bi)) - spy) bot_dir _ _ _ _ Eb)
    as [rb [Hrb Hfb]].
  destruct (check_layer_spec w h extend nx ny
              (nx * (spx + fst (drc_dim bi)) - spx)
              (ny * (spy + snd (drc_dim bi)) - spy) top_dir _ _ _ _ Et)
    as [rt [Hrt Hft]].
  rewrite Hrb. cbn [bind]. destruct rb as [mb|].
  - rewrite Hrt. cbn [bind]. destruct rt as [mt|].
    + eexists. split; [reflexivity|]. eauto.
    + exists None. split; [reflexivity|]. intros _ Hfit.
      apply Hft in Hfit. destruct Hfit as [m Hm]. discriminate.
  - exists None. split; [reflexivity|]. intros Hfit _.
    apply Hfb in Hfit. destruct Hfit as [m Hm]. discriminate.
Qed.

End OneSpacing.

Lemma find_opt_some (w h : Z) (extend : bool) (bot_dir top_dir : string)
    (bi ti : via_drc_info) (o : via_opt) :
  find_opt w h extend bot_dir top_dir bi ti = Ok (Some o) ->
  let sp := drc_sp bi in
  let sp2_list := default_sp2 sp (drc_sp2_list bi) in
  let sp3_list := default_sp3 sp (drc_sp2_list bi) (drc_sp3_list bi) in
  let floor := sp_min sp sp2_list sp3_list in
  exists nx_max ny_max l1 num nx ny l2 spc,
    Py.floordiv (w + fst floor) (fst (drc_dim bi) + fst floor) = Ok nx_max /\
    Py.floordiv (h + snd floor) (snd (drc_dim bi) + snd floor) = Ok ny_max /\
    nxy_list nx_max ny_max = l1 ++ (num, nx, ny) :: l2 /\
    In spc (sp_combo sp sp2_list sp3_list nx ny) /\
    try_spacing w h extend bot_dir top_dir (drc_dim bi)
      (drc_enc bi) (drc_arr_enc bi) (drc_arr_test bi)
      (drc_enc ti) (drc_arr_enc ti) (drc_arr_test ti) nx ny spc = Ok (Some o).
Proof.
  unfold find_opt. intros H. cbv zeta.
  destruct (sp_min _ _ _) as [spx_min spy_min]. simpl fst. simpl snd.
  destruct (Py.floordiv (w + spx_min) _) as [nx_max|]; simpl in H; [|discriminate].
  destruct (Py.floordiv (h + spy_min) _) as [ny_max|]; simpl in H; [|discriminate].
  apply first_success_some in H.
  destruct H as (l1 & [[num nx] ny] & l2 & Hl & Hin & _).
  apply first_success_some in Hin.
  destruct Hin as (s1 & spc & s2 & Hs & Htry & _).
  exists nx_max, ny_max, l1, num, nx, ny, l2, spc. repeat split; try assumption.
  rewrite Hs. apply in_or_app. right. now left.
Qed.

Lemma lookup_drc_some (tech : TechInfo) (vname vtype bmtype tmtype : string)
    (bb tb : Z) (bi ti : via_drc_info) :
  lookup_drc tech vname vtype bmtype tmtype bb tb = Ok (Some (bi, ti)) ->
  get_via_drc_info tech vname vtype bmtype bb true = Ok bi /\
  get_via_drc_info tech vname vtype tmtype tb false = Ok ti.
Proof.
  unfold lookup_drc. intros H.
  destruct (get_via_drc_info tech vname vtype bmtype bb true) as [b|[]];
    try discriminate.
  destruct (get_via_drc_info tech vname vtype tmtype tb false) as [t|[]];
    try discriminate.
  inversion H; subst. auto.
Qed.

Lemma layer_fits_bounds (w h : Z) (extend : bool) (w_arr h_arr : Z) (mdir : string)
    (tot : list (Z * Z)) :
  layer_fits w h extend w_arr h_arr mdir tot ->
  nonneg_pairs tot ->
  (extend = false -> w_arr <= w /\ h_arr <= h) /\
  (mdir = "y"%string -> w_arr <= w) /\
  (mdir <> "y"%string -> h_arr <= h).
Proof.
  unfold layer_fits, layer_axes, nonneg_pairs. intros Hfit Hnn.
  rewrite Forall_forall in Hnn.
  destruct (String.eqb mdir "y") eqn:Ey;
    apply Exists_exists in Hfit; destruct Hfit as [enc [Hin Hp]];
    destruct (Hnn enc Hin) as [H0 H1];
    unfold enc_passes, Py.item in Hp;
    change (1 - 0) with 1 in Hp; change (1 - 1) with 0 in Hp;
    change (0 =? 0) with true in Hp; change (1 =? 0) with false in Hp;
    cbv iota in Hp; apply andb_true_iff in Hp; destruct Hp as [Hp1 Hp2];
    apply Z.leb_le in Hp1; (split; [|split]).
  - intros ->. rewrite orb_false_l in Hp2. apply Z.leb_le in Hp2. lia.
  - intros _. lia.
  - intros Hne. apply String.eqb_eq in Ey. contradiction.
  - intros ->. rewrite orb_false_l in Hp2. apply Z.leb_le in Hp2. lia.
  - intros ->. rewrite String.eqb_refl in Ey. discriminate.
  - intros _. lia.
Qed.

Lemma total_enc_list_nonneg (nx ny : Z) (info : via_drc_info) (tot : list (Z * Z)) :
  nonneg_pairs (drc_enc info) ->
  (forall extra, drc_arr_enc info = Some extra -> nonneg_pairs extra) ->
  total_enc_list nx ny (drc_enc info) (drc_arr_enc info) (drc_arr_test info) = Ok tot ->
  nonneg_pairs tot.
Proof.
  unfold nonneg_pairs. intros Hbase Hextra Htot.
  apply Forall_forall. intros enc Hin.
  destruct (proj2 (total_enc_list_incl _ _ _ _ _ _ Htot) enc Hin)
    as [Hb|[extra [He Hx]]].
  - rewrite Forall_forall in Hbase. auto.
  - specialize (Hextra extra He). rewrite Forall_forall in Hextra. auto.
Qed.

(* ------------------------------------------------------------------ *)
(** * The array stays inside the box (C4) *)

(** C4: when every enclosure pair of the provider is non-negative, the
    array extent of a result of [get_best_via_array],
    [(nx * (via_w + spx) - spx, ny * (via_h + spy) - spy)], is within the
    box in both axes unless [extend] is set; with [extend] set an axis
    can exceed the box only when it is the wire direction of both
    layers. *)
Theorem C4_array_within_box
    (tech : TechInfo) (vname bmtype tmtype bot_dir top_dir : string) (w h : Z)
    (extend : bool) (r : via_array)
    (Henc : nonneg_enclosures tech vname)
    (Hret : get_best_via_array tech vname bmtype tmtype bot_dir top_dir w h extend
            = Ok (Some r)) :
  let w_arr := fst (arr_nxy r) * (fst (arr_vdim r) + fst (arr_via_space r))
               - fst (arr_via_space r) in
  let h_arr := snd (arr_nxy r) * (snd (arr_vdim r) + snd (arr_via_space r))
               - snd (arr_via_space r) in
  arr_via_arr_dim r = (w_arr, h_arr) /\
  (extend = false -> w_arr <= w /\ h_arr <= h) /\
  (w < w_arr -> extend = true /\ bot_dir <> "y"%string /\ top_dir <> "y"%string) /\
  (h < h_arr -> extend = true /\ bot_dir = "y"%string /\ top_dir = "y"%string).
Proof.
  unfold get_best_via_array in Hret.
  destruct (via_search _ _ _ _ _ _ _ _ _) as [[b|]|] eqn:Es; simpl in Hret;
    try discriminate.
  inversion Hret; subst r. clear Hret.
  rewrite via_search_unfold in Es. apply for_each_step_spec in Es.
  destruct Es as (_ & _ & [Hnone|(vt & wt & dim & o & Hin & Hacc & Hb)]);
    [discriminate|].
  inversion Hb; subst b. clear Hb.
  destruct Hacc as (bi & ti & Hl & Hdim & Hfind).
  apply lookup_drc_some in Hl. destruct Hl as [Hgb Hgt].
  destruct (Henc _ _ _ _ _ Hgb) as [Hnb Hxb].
  destruct (Henc _ _ _ _ _ Hgt) as [Hnt Hxt].
  apply find_opt_some in Hfind. cbv zeta in Hfind.
  destruct Hfind as (nx_max & ny_max & l1 & num & nx & ny & l2 & spc
                     & _ & _ & _ & _ & Htry).
  apply try_spacing_some in Htry.
  destruct Htry as (Hnxy & Hsp & Hadim & totb & tott & [Etb Ett] & Hfb & Hft).
  pose proof (total_enc_list_nonneg _ _ _ _ Hnb Hxb Etb) as Hnnb.
  pose proof (total_enc_list_nonneg _ _ _ _ Hnt Hxt Ett) as Hnnt.
  destruct (layer_fits_bounds _ _ _ _ _ _ _ Hfb Hnnb) as (Hb1 & Hb2 & Hb3).
  destruct (layer_fits_bounds _ _ _ _ _ _ _ Hft Hnnt) as (Ht1 & Ht2 & Ht3).
  cbv zeta. simpl. rewrite Hnxy, Hsp, Hadim, <- Hdim. simpl fst. simpl snd.
  unfold extent in *.
  replace (nx * (fst (drc_dim bi) + fst spc) - fst spc)
    with (nx * (fst spc + fst (drc_dim bi)) - fst spc) by lia.
  replace (ny * (snd (drc_dim bi) + snd spc) - snd spc)
    with (ny * (snd spc + snd (drc_dim bi)) - snd spc) by lia.
  split; [reflexivity|]. split; [exact Hb1|]. split.
  - intros Hover. destruct extend; [|specialize (Hb1 eq_refl); lia].
    split; [reflexivity|]. split; intros Hy; [apply Hb2 in Hy|apply Ht2 in Hy]; lia.
  - intros Hover. destruct extend; [|specialize (Hb1 eq_refl); lia].
    split; [reflexivity|].
    split; [destruct (string_dec bot_dir "y") as [Hy|Hy]
           |destruct (string_dec top_dir "y") as [Hy|Hy]]; try exact Hy.
    + apply Hb3 in Hy. lia.
    + apply Ht3 in Hy. lia.
Qed.

Lemma C4_array_within_box_witness :
  nonneg_enclosures Examples.tech_square "via1" /\
  arr_via_arr_dim
    {| arr_nxy := (3, 3); arr_mdim_list := [(10, 10); (10, 10)];
       arr_vtype := "square"; arr_vdim := (2, 2); arr_via_space := (1, 1);
       arr_via_arr_dim := (8, 8) |} = (3 * (2 + 1) - 1, 3 * (2 + 1) - 1) /\
  (false = false -> 3 * (2 + 1) - 1 <= 10 /\ 3 * (2 + 1) - 1 <= 10).
Proof.
  assert (Henc : nonneg_enclosures Examples.tech_square "via1").
  { intros vtype mtype mw is_bot info H. simpl in H.
    unfold Examples.only_square in H.
    destruct (String.eqb vtype "square"); [|discriminate].
    inversion H; subst. split; [|discriminate].
    constructor; [simpl; lia|constructor]. }
  split; [exact Henc|].
  pose proof (C4_array_within_box Examples.tech_square "via1" "m1" "m2" "x" "y"
                10 10 false
                {| arr_nxy := (3, 3); arr_mdim_list := [(10, 10); (10, 10)];
                   arr_vtype := "square"; arr_vdim := (2, 2);
                   arr_via_space := (1, 1); arr_via_arr_dim := (8, 8) |}
                Henc eq_refl) as H.
  cbv zeta in H. destruct H as (H1 & H2 & _). split; [exact H1|exact H2].
Defined.

(* ------------------------------------------------------------------ *)
(** * Growing the box (C8) *)

Lemma layer_fits_mono (w1 h1 w2 h2 : Z) (extend : bool) (w_arr h_arr : Z)
    (mdir : string) (tot : list (Z * Z)) :
  w1 <= w2 -> h1 <= h2 ->
  layer_fits w1 h1 extend w_arr h_arr mdir tot ->
  layer_fits w2 h2 extend w_arr h_arr mdir tot.
Proof.
  unfold layer_fits, layer_axes. intros Hw Hh.
  destruct (String.eqb mdir "y"); apply Exists_impl; intros enc;
    unfold enc_passes; rewrite !andb_true_iff, !orb_true_iff, !Z.leb_le;
    intros [H1 [H2|H2]]; (split; [lia|]); auto; right; lia.
Qed.

Lemma count_desc_split (l1 : list (Z * Z * Z)) (x : Z * Z * Z) (l2 : list (Z * Z * Z)) :
  count_desc (l1 ++ x :: l2) -> forall y, In y l2 -> num_of y <= num_of x.
Proof.
  unfold count_desc. induction l1 as [|a l1 IH]; simpl; intros Hs y Hy.
  - inversion Hs as [|? ? _ Hall]; subst. rewrite Forall_forall in Hall. auto.
  - inversion Hs; subst. auto.
Qed.

Lemma floordiv_ok (a d q : Z) : Py.floordiv a d = Ok q -> d <> 0 /\ q = a / d.
Proof.
  unfold Py.floordiv. destruct (d =? 0) eqn:E; [discriminate|].
  intros H. inversion H. apply Z.eqb_neq in E. auto.
Qed.

(** For one via type, a configuration accepted in the smaller box is
    matched in the larger box by one of at least its count. *)
Lemma find_opt_mono (w1 h1 w2 h2 : Z) (extend : bool) (bot_dir top_dir : string)
    (bi ti : via_drc_info) (o1 : via_opt) (r2 : option via_opt) :
  w1 <= w2 -> h1 <= h2 -> pitch_positive bi ->
  find_opt w1 h1 extend bot_dir top_dir bi ti = Ok (Some o1) ->
  find_opt w2 h2 extend bot_dir top_dir bi ti = Ok r2 ->
  exists o2, r2 = Some o2 /\ count_of o1 <= count_of o2.
Proof.
  intros Hw Hh Hpitch Hsmall Hlarge.
  apply find_opt_some in Hsmall. cbv zeta in Hsmall.
  destruct Hsmall as (nx_max1 & ny_max1 & l1 & num & nx & ny & l2 & spc
                      & Hdx & Hdy & Hlist & Hspc & Htry).
  unfold pitch_positive in Hpitch. cbv zeta in Hpitch.
  unfold find_opt in Hlarge.
  destruct (sp_min _ _ _) as [fx fy]. simpl fst in *. simpl snd in *.
  destruct Hpitch as [Hpx Hpy].
  apply floordiv_ok in Hdx. apply floordiv_ok in Hdy.
  destruct Hdx as [_ ->]. destruct Hdy as [_ ->].
  unfold Py.floordiv in Hlarge.
  replace (fst (drc_dim bi) + fx =? 0) with false in Hlarge
    by (symmetry; apply Z.eqb_neq; lia).
  replace (snd (drc_dim bi) + fy =? 0) with false in Hlarge
    by (symmetry; apply Z.eqb_neq; lia).
  cbn [bind] in Hlarge.
  assert (Hin1 : In (num, nx, ny)
                    (nxy_list ((w1 + fx) / (fst (drc_dim bi) + fx))
                              ((h1 + fy) / (snd (drc_dim bi) + fy)))).
  { rewrite Hlist. apply in_or_app. right. now left. }
  apply nxy_list_In in Hin1. destruct Hin1 as (Hx & Hy & Hnum).
  assert (Hin2 : In (num, nx, ny)
                    (nxy_list ((w2 + fx) / (fst (drc_dim bi) + fx))
                              ((h2 + fy) / (snd (drc_dim bi) + fy)))).
  { apply nxy_list_In. repeat split; try lia.
    - apply Z.le_trans with ((w1 + fx) / (fst (drc_dim bi) + fx)); [lia|].
      apply Z.div_le_mono; lia.
    - apply Z.le_trans with ((h1 + fy) / (snd (drc_dim bi) + fy)); [lia|].
      apply Z.div_le_mono; lia. }
  pose proof (try_spacing_some _ _ _ _ _ _ _ _ _ _ _ Htry)
    as (Hnxy1 & _ & _ & totb & tott & Hlists & Hfb & Hft).
  (* the same array succeeds in the larger box *)
  assert (Hinner : exists o,
             first_success
               (try_spacing w2 h2 extend bot_dir top_dir (drc_dim bi)
                  (drc_enc bi) (drc_arr_enc bi) (drc_arr_test bi)
                  (drc_enc ti) (drc_arr_enc ti) (drc_arr_test ti) nx ny)
               (sp_combo (drc_sp bi) (default_sp2 (drc_sp bi) (drc_sp2_list bi))
                  (default_sp3 (drc_sp bi) (drc_sp2_list bi) (drc_sp3_list bi))
                  nx ny) = Ok (Some o)).
  { match goal with
    | |- exists o, first_success ?f ?l = _ =>
        destruct (first_success_ok f l) as [[o|] Hr]
    end.
    - intros sp' _.
      destruct (try_spacing_ok w2 h2 extend bot_dir top_dir bi ti nx ny sp'
                  totb tott Hlists) as [r [Hr _]]. eauto.
    - eauto.
    - exfalso. pose proof (first_success_none _ _ Hr spc Hspc) as Hnone.
      destruct (try_spacing_ok w2 h2 extend bot_dir top_dir bi ti nx ny spc
                  totb tott Hlists) as [r [Hr' Hsome]].
      destruct Hsome as [o Ho].
      + eapply layer_fits_mono; eauto.
      + eapply layer_fits_mono; eauto.
      + rewrite Hr' in Hnone. subst r. discriminate. }
  destruct Hinner as [oi Hoi].
  destruct r2 as [o2|].
  - exists o2. split; [reflexivity|].
    apply first_success_some in Hlarge.
    destruct Hlarge as (m1 & [[numx nxx] nyx] & m2 & Hsplit & Hgx & Hpre).
    assert (Hle : num <= numx).
    { rewrite Hsplit in Hin2. apply in_app_or in Hin2.
      destruct Hin2 as [Hin2|[Heq|Hin2]].
      - specialize (Hpre _ Hin2). simpl in Hpre. rewrite Hoi in Hpre. discriminate.
      - inversion Heq; subst. lia.
      - pose proof (nxy_list_sorted ((w2 + fx) / (fst (drc_dim bi) + fx))
                      ((h2 + fy) / (snd (drc_dim bi) + fy))) as Hsorted.
        rewrite Hsplit in Hsorted.
        apply (count_desc_split _ _ _ Hsorted) in Hin2. exact Hin2. }
    assert (Hinx : In (numx, nxx, nyx)
                      (nxy_list ((w2 + fx) / (fst (drc_dim bi) + fx))
                                ((h2 + fy) / (snd (drc_dim bi) + fy)))).
    { rewrite Hsplit. apply in_or_app. right. now left. }
    apply nxy_list_In in Hinx. destruct Hinx as (_ & _ & Hnumx).
    apply first_success_some in Hgx.
    destruct Hgx as (s1 & spx & s2 & _ & Htry2 & _).
    apply try_spacing_some in Htry2. destruct Htry2 as (Hnxy2 & _).
    unfold count_of. rewrite Hnxy1, Hnxy2. simpl. lia.
  - exfalso. pose proof (first_success_none _ _ Hlarge _ Hin2) as Hnone.
    simpl in Hnone. rewrite Hoi in Hnone. discriminate.
Qed.

Section GrowBox.

Variable tech : TechInfo.
Variables vname bmtype tmtype bot_dir top_dir : string.
Variable extend : bool.
Variables w1 h1 w2 h2 : Z.

Hypothesis Hw : w1 <= w2.
Hypothesis Hh : h1 <= h2.
Hypothesis Hsame_bot : forall vtype,
  get_via_drc_info tech vname vtype bmtype (metal_width bot_dir w1 h1) true
  = get_via_drc_info tech vname vtype bmtype (metal_width bot_dir w2 h2) true.
Hypothesis Hsame_top : forall vtype,
  get_via_drc_info tech vname vtype tmtype (metal_width top_dir w1 h1) false
  = get_via_drc_info tech vname vtype tmtype (metal_width top_dir w2 h2) false.
Hypothesis Hpitch : forall vtype info,
  get_via_drc_info tech vname vtype bmtype (metal_width bot_dir w1 h1) true = Ok info ->
  pitch_positive info.

Let step1 :=
  via_type_step tech vname bmtype tmtype bot_dir top_dir w1 h1 extend
    (metal_width bot_dir w1 h1) (metal_width top_dir w1 h1).
Let step2 :=
  via_type_step tech vname bmtype tmtype bot_dir top_dir w2 h2 extend
    (metal_width bot_dir w2 h2) (metal_width top_dir w2 h2).

Lemma lookup_drc_same (vtype : string) :
  lookup_drc tech vname vtype bmtype tmtype
    (metal_width bot_dir w1 h1) (metal_width top_dir w1 h1)
  = lookup_drc tech vname vtype bmtype tmtype
      (metal_width bot_dir w2 h2) (metal_width top_dir w2 h2).
Proof. unfold lookup_drc. rewrite Hsame_bot, Hsame_top. reflexivity. Qed.

Lemma via_type_step_mono (vtype : string) (weight : Z)
    (best1 best1' best2 best2' : option via_best) :
  0 <= weight ->
  step1 best1 (vtype, weight) = Ok best1' ->
  step2 best2 (vtype, weight) = Ok best2' ->
  best_le best1 best2 -> best_le best1' best2'.
Proof.
  intros Hwt Hs1 Hs2 Hle b1' Hb1'.
  pose proof Hs2 as Hraw2.
  apply via_type_step_spec in Hs1. destruct Hs1 as (_ & _ & Hor1).
  apply via_type_step_spec in Hs2. destruct Hs2 as (Hk2 & Ha2 & _).
  destruct Hor1 as [Hsame|(dim & o1 & Hacc1 & Hnew)].
  - subst best1'. destruct (Hle b1' Hb1') as [b2 [Hb2 Hnum]].
    destruct (Hk2 b2 Hb2) as [b2' [Hb2' Hnum']].
    exists b2'. split; [exact Hb2'|lia].
  - rewrite Hnew in Hb1'. inversion Hb1'; subst b1'. clear Hb1'.
    destruct Hacc1 as (bi & ti & Hl1 & Hdim & Hf1).
    assert (Hl2 := Hl1). rewrite lookup_drc_same in Hl2.
    unfold step2, via_type_step in Hraw2. rewrite Hl2 in Hraw2. cbn [bind] in Hraw2.
    destruct (find_opt w2 h2 extend bot_dir top_dir bi ti) as [r2|e] eqn:Ef2;
      [|discriminate].
    destruct (find_opt_mono w1 h1 w2 h2 extend bot_dir top_dir bi ti o1 r2)
      as [o2 [-> Hcount]]; auto.
    { apply (Hpitch vtype). apply (lookup_drc_some _ _ _ _ _ _ _ _ _ Hl1). }
    destruct (Ha2 dim o2) as [b2' [Hb2' Hnum']].
    { exists bi, ti. auto. }
    exists b2'. split; [exact Hb2'|].
    unfold weighted_count in Hnum'. unfold count_of in Hcount. simpl.
    rewrite <- Z.mul_assoc in Hnum' |- *.
    apply Z.le_trans with (weight * (fst (opt_nxy o2) * snd (opt_nxy o2)));
      [|exact Hnum'].
    apply Z.mul_le_mono_nonneg_l; assumption.
Qed.

Lemma for_each_mono (types : list (string * Z)) :
  Forall (fun cand => 0 <= snd cand) types ->
  forall best1 best2 r1 r2,
    for_each step1 types best1 = Ok r1 ->
    for_each step2 types best2 = Ok r2 ->
    best_le best1 best2 -> best_le r1 r2.
Proof.
  induction 1 as [|[vtype weight] tl Hwt Hall IH]; intros best1 best2 r1 r2 H1 H2 Hle.
  - inversion H1; inversion H2; subst. exact Hle.
  - rewrite for_each_cons in H1, H2.
    destruct (step1 best1 (vtype, weight)) as [m1|] eqn:E1; simpl in H1;
      [|discriminate].
    destruct (step2 best2 (vtype, weight)) as [m2|] eqn:E2; simpl in H2;
      [|discriminate].
    eapply IH; eauto. eapply via_type_step_mono; eauto.
Qed.

End GrowBox.

Lemma via_search_origin (tech : TechInfo) (vname bmtype tmtype bot_dir top_dir : string)
    (w h : Z) (extend : bool) (b : via_best) :
  via_search tech vname bmtype tmtype bot_dir top_dir w h extend = Ok (Some b) ->
  exists weight,
    In (best_type b, weight) (get_via_types tech bmtype tmtype) /\
    best_num b = weight * fst (best_nxy b) * snd (best_nxy b).
Proof.
  rewrite via_search_unfold. intros H. apply for_each_step_spec in H.
  destruct H as (_ & _ & [Hnone|(vt & wt & dim & o & Hin & _ & Hb)]);
    [discriminate|].
  inversion Hb; subst. exists wt. simpl. auto.
Qed.

(** C8, as stated, fails: with the base class's via types and weights, a
    square cut of 2 x 2 and a horizontal cut of 4 x 2, both at spacing 1,
    an 8 x 2 box takes three square vias and the larger 9 x 2 box takes
    two horizontal vias, whose weight 2 gives them the larger weighted
    count. *)
Lemma C8_count_decreases :
  8 <= 9 /\ 2 <= 2 /\
  get_best_via_array Examples.tech_two_types "via1" "m1" "m2" "x" "y" 8 2 false
  = Ok (Some {| arr_nxy := (3, 1); arr_mdim_list := [(8, 2); (8, 2)];
                arr_vtype := "square"; arr_vdim := (2, 2);
                arr_via_space := (1, 1); arr_via_arr_dim := (8, 2) |}) /\
  get_best_via_array Examples.tech_two_types "via1" "m1" "m2" "x" "y" 9 2 false
  = Ok (Some {| arr_nxy := (2, 1); arr_mdim_list := [(9, 2); (9, 2)];
                arr_vtype := "hrect"; arr_vdim := (4, 2);
                arr_via_space := (1, 1); arr_via_arr_dim := (9, 2) |}) /\
  2 * 1 < 3 * 1.
Proof.
  split; [lia|]. split; [lia|].
  split; [vm_compute; reflexivity|]. split; [vm_compute; reflexivity|]. lia.
Qed.

(** C8, amended: for boxes [w1 <= w2], [h1 <= h2], the same via name,
    metal types, directions and [extend] flag, the same provider
    responses, non-negative weights and a positive via pitch: if
    [get_best_via_array] succeeds on the smaller box and returns on the
    larger box, it succeeds there, and the weighted count
    [weight * nx * ny] of its result, [weight] being the weight of the
    chosen via type, is at least that of the smaller box. *)
Theorem C8_weighted_count_monotone
    (tech : TechInfo) (vname bmtype tmtype bot_dir top_dir : string)
    (extend : bool) (w1 h1 w2 h2 : Z) (b1 : via_best) (r2 : option via_best)
    (Hw : w1 <= w2) (Hh : h1 <= h2)
    (Hsame_bot : forall vtype,
        get_via_drc_info tech vname vtype bmtype (metal_width bot_dir w1 h1) true
        = get_via_drc_info tech vname vtype bmtype (metal_width bot_dir w2 h2) true)
    (Hsame_top : forall vtype,
        get_via_drc_info tech vname vtype tmtype (metal_width top_dir w1 h1) false
        = get_via_drc_info tech vname vtype tmtype (metal_width top_dir w2 h2) false)
    (Hweights : Forall (fun cand => 0 <= snd cand) (get_via_types tech bmtype tmtype))
    (Hpitch : forall vtype info,
        get_via_drc_info tech vname vtype bmtype (metal_width bot_dir w1 h1) true
        = Ok info ->
        pitch_positive info)
    (Hsmall : via_search tech vname bmtype tmtype bot_dir top_dir w1 h1 extend
              = Ok (Some b1))
    (Hlarge : via_search tech vname bmtype tmtype bot_dir top_dir w2 h2 extend
              = Ok r2) :
  exists b2 weight1 weight2,
    r2 = Some b2 /\
    get_best_via_array tech vname bmtype tmtype bot_dir top_dir w1 h1 extend
    = Ok (Some (via_array_of b1)) /\
    get_best_via_array tech vname bmtype tmtype bot_dir top_dir w2 h2 extend
    = Ok (Some (via_array_of b2)) /\
    In (best_type b1, weight1) (get_via_types tech bmtype tmtype) /\
    In (best_type b2, weight2) (get_via_types tech bmtype tmtype) /\
    weight1 * fst (best_nxy b1) * snd (best_nxy b1)
    <= weight2 * fst (best_nxy b2) * snd (best_nxy b2).
Proof.
  pose proof Hsmall as Hs. pose proof Hlarge as Hl.
  rewrite via_search_unfold in Hs, Hl.
  assert (Hstart : best_le None None) by (intros b Hb; discriminate).
  destruct (for_each_mono tech vname bmtype tmtype bot_dir top_dir extend
              w1 h1 w2 h2 Hw Hh Hsame_bot Hsame_top Hpitch _ Hweights
              None None (Some b1) r2 Hs Hl Hstart b1 eq_refl) as [b2 [-> Hnum]].
  destruct (via_search_origin _ _ _ _ _ _ _ _ _ _ Hsmall) as [wt1 [Hin1 Hn1]].
  destruct (via_search_origin _ _ _ _ _ _ _ _ _ _ Hlarge) as [wt2 [Hin2 Hn2]].
  exists b2, wt1, wt2. unfold get_best_via_array. rewrite Hsmall, Hlarge. simpl.
  repeat split; auto. lia.
Qed.

Lemma C8_weighted_count_monotone_witness :
  exists b1 b2,
    via_search Examples.tech_two_types "via1" "m1" "m2" "x" "y" 8 2 false
    = Ok (Some b1) /\
    via_search Examples.tech_two_types "via1" "m1" "m2" "x" "y" 9 2 false
    = Ok (Some b2) /\
    best_nxy b1 = (3, 1) /\ best_nxy b2 = (2, 1) /\
    exists weight1 weight2,
      In (best_type b1, weight1) (base_via_types "" "") /\
      In (best_type b2, weight2) (base_via_types "" "") /\
      weight1 * fst (best_nxy b1) * snd (best_nxy b1)
      <= weight2 * fst (best_nxy b2) * snd (best_nxy b2).
Proof.
  pose (b1 := {| best_num := 3; best_nxy := (3, 1);
                 best_mdim_list := [(8, 2); (8, 2)]; best_type := "square"%string;
                 best_vdim := (2, 2); best_sp := (1, 1); best_adim := (8, 2) |}).
  pose (b2 := {| best_num := 4; best_nxy := (2, 1);
                 best_mdim_list := [(9, 2); (9, 2)]; best_type := "hrect"%string;
                 best_vdim := (4, 2); best_sp := (1, 1); best_adim := (9, 2) |}).
  assert (H1 : via_search Examples.tech_two_types "via1" "m1" "m2" "x" "y" 8 2 false
               = Ok (Some b1)) by (vm_compute; reflexivity).
  assert (H2 : via_search Examples.tech_two_types "via1" "m1" "m2" "x" "y" 9 2 false
               = Ok (Some b2)) by (vm_compute; reflexivity).
  assert (Hweights : Forall (fun cand : string * Z => 0 <= snd cand)
                       (get_via_types Examples.tech_two_types "m1" "m2")).
  { repeat constructor; simpl; lia. }
  assert (Hpitch : forall vtype info,
             get_via_drc_info Examples.tech_two_types "via1" vtype "m1"
               (metal_width "x" 8 2) true = Ok info ->
             pitch_positive info).
  { intros vtype info H. simpl in H. unfold Examples.square_and_hrect in H.
    destruct (String.eqb vtype "square");
      [|destruct (String.eqb vtype "hrect"); [|discriminate]];
      inversion H; subst; unfold pitch_positive; simpl; lia. }
  destruct (C8_weighted_count_monotone Examples.tech_two_types
              "via1" "m1" "m2" "x" "y" false 8 2 9 2 b1 (Some b2)
              ltac:(lia) ltac:(lia) (fun _ => eq_refl) (fun _ => eq_refl)
              Hweights Hpitch H1 H2)
    as (b2' & wt1 & wt2 & Hb2 & _ & _ & Hin1 & Hin2 & Hle).
  inversion Hb2; subst b2'.
  exists b1, b2. repeat split; try assumption. exists wt1, wt2. auto.
Defined.

(* ------------------------------------------------------------------ *)
(** * The enumeration of arrays *)

Lemma insert_desc_length (t : Z * Z * Z) (l : list (Z * Z * Z)) :
  List.length (insert_desc t l) = S (List.length l).
Proof.
  induction l as [|a l IH]; simpl; [reflexivity|].
  destruct (triple_ltb t a); simpl; [rewrite IH|]; reflexivity.
Qed.

Lemma sorted_reverse_length (l : list (Z * Z * Z)) :
  List.length (sorted_reverse l) = List.length l.
Proof.
  induction l as [|a l IH]; simpl; [reflexivity|].
  rewrite insert_desc_length, IH. reflexivity.
Qed.

Lemma range_length (lo hi : Z) : List.length (Py.range lo hi) = Z.to_nat (hi - lo).
Proof. unfold Py.range. rewrite length_map, length_seq. reflexivity. Qed.

Lemma flat_map_const_length {A B : Type} (f : A -> list B) (n : nat) (l : list A) :
  (forall a, List.length (f a) = n) ->
  List.length (flat_map f l) = (List.length l * n)%nat.
Proof.
  intros Hf. induction l as [|a l IH]; simpl; [reflexivity|].
  rewrite length_app, Hf, IH. reflexivity.
Qed.

(** X1: the list [nxy_list] holds exactly the triples [(nx * ny, nx, ny)]
    with [1 <= nx <= nx_max] and [1 <= ny <= ny_max], one per pair, and
    lists them by non-increasing count. *)
Theorem nxy_list_enumeration (nx_max ny_max : Z) :
  (forall num nx ny,
     In (num, nx, ny) (nxy_list nx_max ny_max) <->
     1 <= nx <= nx_max /\ 1 <= ny <= ny_max /\ num = nx * ny) /\
  List.length (nxy_list nx_max ny_max) = (Z.to_nat nx_max * Z.to_nat ny_max)%nat /\
  count_desc (nxy_list nx_max ny_max).
Proof.
  split; [intros; apply nxy_list_In|]. split; [|apply nxy_list_sorted].
  unfold nxy_list. rewrite sorted_reverse_length.
  rewrite (flat_map_const_length _ (Z.to_nat ny_max)).
  - rewrite range_length. f_equal. lia.
  - intros a. rewrite length_map, range_length. f_equal. lia.
Qed.

(* ------------------------------------------------------------------ *)
(** * The accepted array has the largest count *)

Lemma find_opt_eq (w h : Z) (extend : bool) (bot_dir top_dir : string)
    (bi ti : via_drc_info) :
  find_opt w h extend bot_dir top_dir bi ti =
  bind (max_counts w h bi)
    (fun c =>
       first_success
         (fun '(num, nx, ny) =>
            first_success (attempt w h extend bot_dir top_dir bi ti nx ny)
              (regime bi nx ny))
         (nxy_list (fst c) (snd c))).
Proof.
  unfold find_opt, max_counts, attempt, regime.
  destruct (sp_min _ _ _) as [fx fy]. simpl fst. simpl snd.
  destruct (Py.floordiv (w + fx) _) as [nx_max|]; [|reflexivity]. cbn [bind].
  destruct (Py.floordiv (h + fy) _) as [ny_max|]; reflexivity.
Qed.

(** Within one via type, no enumerated array that passes at some spacing
    of its regime has more vias than the accepted one. *)
Lemma find_opt_optimal (w h : Z) (extend : bool) (bot_dir top_dir : string)
    (bi ti : via_drc_info) (o o' : via_opt) (nx ny : Z) (sp : Z * Z) :
  find_opt w h extend bot_dir top_dir bi ti = Ok (Some o) ->
  enumerated w h bi nx ny ->
  In sp (regime bi nx ny) ->
  attempt w h extend bot_dir top_dir bi ti nx ny sp = Ok (Some o') ->
  nx * ny <= count_of o.
Proof.
  rewrite find_opt_eq. intros Hfind (nx_max & ny_max & Hmax & Hx & Hy) Hsp Hatt.
  rewrite Hmax in Hfind. cbn [bind fst snd] in Hfind.
  apply first_success_some in Hfind.
  destruct Hfind as (l1 & [[numx nxx] nyx] & l2 & Hsplit & Hgx & Hpre).
  assert (Hin : In (nx * ny, nx, ny) (nxy_list nx_max ny_max))
    by (apply nxy_list_In; auto).
  assert (Hinx : In (numx, nxx, nyx) (nxy_list nx_max ny_max))
    by (rewrite Hsplit; apply in_or_app; right; now left).
  apply nxy_list_In in Hinx. destruct Hinx as (_ & _ & Hnumx).
  apply first_success_some in Hgx. destruct Hgx as (s1 & spx & s2 & _ & Htry & _).
  apply try_spacing_some in Htry. destruct Htry as (Hnxy & _).
  unfold count_of. rewrite Hnxy. simpl.
  rewrite Hsplit in Hin. apply in_app_or in Hin. destruct Hin as [Hin|[Heq|Hin]].
  - specialize (Hpre _ Hin). simpl in Hpre.
    pose proof (first_success_none _ _ Hpre sp Hsp) as Hnone.
    rewrite Hatt in Hnone. discriminate.
  - inversion Heq; subst. lia.
  - pose proof (nxy_list_sorted nx_max ny_max) as Hsorted.
    rewrite Hsplit in Hsorted.
    apply (count_desc_split _ _ _ Hsorted) in Hin. unfold num_of in Hin.
    simpl in Hin. lia.
Qed.

Lemma find_opt_not_none (w h : Z) (extend : bool) (bot_dir top_dir : string)
    (bi ti : via_drc_info) (o' : via_opt) (nx ny : Z) (sp : Z * Z) :
  enumerated w h bi nx ny ->
  In sp (regime bi nx ny) ->
  attempt w h extend bot_dir top_dir bi ti nx ny sp = Ok (Some o') ->
  find_opt w h extend bot_dir top_dir bi ti <> Ok None.
Proof.
  rewrite find_opt_eq. intros (nx_max & ny_max & Hmax & Hx & Hy) Hsp Hatt Hfind.
  rewrite Hmax in Hfind. cbn [bind fst snd] in Hfind.
  assert (Hin : In (nx * ny, nx, ny) (nxy_list nx_max ny_max))
    by (apply nxy_list_In; auto).
  pose proof (first_success_none _ _ Hfind _ Hin) as Hnone. simpl in Hnone.
  pose proof (first_success_none _ _ Hnone sp Hsp) as Hnone'.
  rewrite Hatt in Hnone'. discriminate.
Qed.

Lemma for_each_step_ok {S A : Type} (body : S -> A -> result S) (l : list A) :
  forall s r a,
    for_each body l s = Ok r -> In a l -> exists s0 s1, body s0 a = Ok s1.
Proof.
  induction l as [|x l IH]; intros s r a H Hin; [contradiction|].
  rewrite for_each_cons in H.
  destruct (body s x) as [s'|e] eqn:Eb; simpl in H; [|discriminate].
  destruct Hin as [<-|Hin]; eauto.
Qed.

(** X2: the array [get_best_via_array] keeps has the largest
    [weight * nx * ny] over every enumerated array of every candidate
    via type that passes the enclosure test at some spacing of its
    regime. *)
Theorem best_array_is_optimal
    (tech : TechInfo) (vname bmtype tmtype bot_dir top_dir : string) (w h : Z)
    (extend : bool) (best : via_best)
    (vtype : string) (weight : Z) (bi ti : via_drc_info) (nx ny : Z) (sp : Z * Z)
    (o' : via_opt)
    (Hsearch : via_search tech vname bmtype tmtype bot_dir top_dir w h extend
               = Ok (Some best))
    (Hcand : In (vtype, weight) (get_via_types tech bmtype tmtype))
    (Hweight : 0 <= weight)
    (Hrules : lookup_drc tech vname vtype bmtype tmtype
                (metal_width bot_dir w h) (metal_width top_dir w h)
              = Ok (Some (bi, ti)))
    (Henum : enumerated w h bi nx ny)
    (Hsp : In sp (regime bi nx ny))
    (Hpass : attempt w h extend bot_dir top_dir bi ti nx ny sp = Ok (Some o')) :
  weight * nx * ny <= best_num best.
Proof.
  rewrite via_search_unfold in Hsearch.
  destruct (for_each_step_ok _ _ _ _ _ Hsearch Hcand) as (s0 & s1 & Hstep).
  unfold via_type_step in Hstep. rewrite Hrules in Hstep. cbn [bind] in Hstep.
  destruct (find_opt w h extend bot_dir top_dir bi ti) as [[o|]|e] eqn:Ef;
    simpl in Hstep; try discriminate.
  - apply for_each_step_spec in Hsearch. destruct Hsearch as (_ & Hacc & _).
    destruct (Hacc vtype weight (drc_dim bi) o Hcand) as [b' [Hb' Hle]].
    { exists bi, ti. auto. }
    inversion Hb'; subst b'. unfold weighted_count in Hle.
    pose proof (find_opt_optimal _ _ _ _ _ _ _ _ _ _ _ _ Ef Henum Hsp Hpass) as Hopt.
    unfold count_of in Hopt.
    apply Z.le_trans with (weight * fst (opt_nxy o) * snd (opt_nxy o)); [|exact Hle].
    rewrite <- !Z.mul_assoc. apply Z.mul_le_mono_nonneg_l; assumption.
  - exfalso. eapply find_opt_not_none; eauto.
Qed.

(* ------------------------------------------------------------------ *)
(** * Where a result comes from, and its metal *)

Section EnclosureMin.

Variable extend : bool.
Variables enc_idx enc_dim ext_dim dim_lim max_ext_dim : Z.

Let passes := enc_passes extend enc_idx enc_dim ext_dim dim_lim max_ext_dim.
Let step := enc_step extend enc_idx enc_dim ext_dim dim_lim max_ext_dim.
Let cur := cur_ext enc_idx ext_dim.

Lemma enc_fold_min (l : list (Z * Z)) :
  forall acc m,
    fold_left step l acc = Some m ->
    (acc = Some m \/ exists enc, In enc l /\ passes enc = true /\ m = cur enc) /\
    (forall enc, In enc l -> passes enc = true -> m <= cur enc) /\
    (forall a, acc = Some a -> m <= a).
Proof.
  induction l as [|enc l IH]; intros acc m H.
  - simpl in H. subst acc. split; [now left|]. split; [intros ? []|].
    intros a Ha. inversion Ha. lia.
  - change (fold_left step l (step acc enc) = Some m) in H.
    apply IH in H. destruct H as (Hfrom & Hmin & Hacc).
    unfold step, enc_step in Hfrom, Hacc. fold passes in Hfrom, Hacc.
    fold (cur_ext enc_idx ext_dim enc) in Hfrom, Hacc. fold cur in Hfrom, Hacc.
    destruct (passes enc) eqn:Ep.
    + destruct acc as [a|].
      * destruct (cur enc <? a) eqn:Elt.
        -- apply Z.ltb_lt in Elt. specialize (Hacc _ eq_refl). split; [|split].
           ++ destruct Hfrom as [Hf|(e & He & Hp & Hm)].
              ** inversion Hf. right. exists enc. simpl. auto.
              ** right. exists e. simpl. auto.
           ++ intros e [<-|He] Hp; [lia|auto].
           ++ intros a0 Ha0. inversion Ha0. lia.
        -- apply Z.ltb_ge in Elt. specialize (Hacc _ eq_refl). split; [|split].
           ++ destruct Hfrom as [Hf|(e & He & Hp & Hm)]; [now left|].
              right. exists e. simpl. auto.
           ++ intros e [<-|He] Hp; [lia|auto].
           ++ intros a0 Ha0. inversion Ha0. lia.
      * specialize (Hacc _ eq_refl). split; [|split].
        -- destruct Hfrom as [Hf|(e & He & Hp & Hm)].
           ++ inversion Hf. right. exists enc. simpl. auto.
           ++ right. exists e. simpl. auto.
        -- intros e [<-|He] Hp; [lia|auto].
        -- intros a0 Ha0. discriminate.
    + split; [|split].
      * destruct Hfrom as [Hf|(e & He & Hp & Hm)]; [now left|].
        right. exists e. simpl. auto.
      * intros e [<-|He] Hp; [congruence|auto].
      * exact Hacc.
Qed.

End EnclosureMin.

Lemma check_layer_record
    (w h : Z) (extend : bool) (nx ny w_arr h_arr : Z) (mdir : string)
    (encs : list (Z * Z)) (arr_enc : option (list (Z * Z)))
    (arr_test : option (Z -> Z -> bool)) (mdim : Z * Z)
    (Hpass : check_layer w h extend nx ny w_arr h_arr mdir encs arr_enc arr_test
             = Ok (Some mdim)) :
  exists tot enc,
    total_enc_list nx ny encs arr_enc arr_test = Ok tot /\ In enc tot /\
    let '(enc_idx, enc_dim, ext_dim, dim_lim, max_ext_dim) :=
      layer_axes mdir w h w_arr h_arr in
    enc_passes extend enc_idx enc_dim ext_dim dim_lim max_ext_dim enc = true /\
    (forall enc',
       In enc' tot ->
       enc_passes extend enc_idx enc_dim ext_dim dim_lim max_ext_dim enc' = true ->
       cur_ext enc_idx ext_dim enc <= cur_ext enc_idx ext_dim enc') /\
    mdim = (if enc_idx =? 0
            then (dim_lim, Z.max (cur_ext enc_idx ext_dim enc) max_ext_dim)
            else (Z.max (cur_ext enc_idx ext_dim enc) max_ext_dim, dim_lim)).
Proof.
  unfold check_layer in Hpass.
  destruct (total_enc_list nx ny encs arr_enc arr_test) as [tot|e] eqn:Et;
    simpl in Hpass; [|discriminate].
  destruct (layer_axes mdir w h w_arr h_arr)
    as [[[[enc_idx enc_dim] ext_dim] dim_lim] max_ext].
  destruct (fold_left _ tot None) as [m|] eqn:Ef; [|discriminate].
  apply enc_fold_min in Ef. destruct Ef as ([Hf|(enc & Hin & Hp & Hm)] & Hmin & _);
    [discriminate|].
  exists tot, enc. split; [reflexivity|]. split; [exact Hin|].
  split; [exact Hp|]. split.
  - intros enc' Hin' Hp'. rewrite <- Hm. auto.
  - inversion Hpass. rewrite Hm. reflexivity.
Qed.

Lemma check_layer_dims (w h : Z) (extend : bool) (nx ny w_arr h_arr : Z)
    (mdir : string) (encs : list (Z * Z)) (arr_enc : option (list (Z * Z)))
    (arr_test : option (Z -> Z -> bool)) (mdim : Z * Z) :
  check_layer w h extend nx ny w_arr h_arr mdir encs arr_enc arr_test
  = Ok (Some mdim) ->
  w <= fst mdim /\ h <= snd mdim /\
  (mdir = "y"%string -> fst mdim = w) /\
  (mdir <> "y"%string -> snd mdim = h) /\
  (extend = false -> mdim = (w, h)).
Proof.
  intros H. apply check_layer_record in H.
  destruct H as (tot & enc & _ & _ & H). unfold layer_axes in H.
  destruct (String.eqb mdir "y") eqn:Ey; destruct H as (Hp & _ & ->);
    unfold enc_passes in Hp; apply andb_true_iff in Hp; destruct Hp as [_ Hp];
    change (0 =? 0) with true; change (1 =? 0) with false; cbv iota;
    cbn [fst snd]; (split; [lia|]); (split; [lia|]); (split; [|split]).
  - reflexivity.
  - intros Hne. apply String.eqb_eq in Ey. contradiction.
  - intros ->. rewrite orb_false_l in Hp. apply Z.leb_le in Hp.
    unfold cur_ext in *. f_equal. lia.
  - intros ->. rewrite String.eqb_refl in Ey. discriminate.
  - reflexivity.
  - intros ->. rewrite orb_false_l in Hp. apply Z.leb_le in Hp.
    unfold cur_ext in *. f_equal. lia.
Qed.

Lemma attempt_metal (w h : Z) (extend : bool) (bot_dir top_dir : string)
    (bi ti : via_drc_info) (nx ny : Z) (sp : Z * Z) (o : via_opt) :
  attempt w h extend bot_dir top_dir bi ti nx ny sp = Ok (Some o) ->
  exists mb mt,
    opt_mdim_list o = [mb; mt] /\
    check_layer w h extend nx ny (fst (opt_adim o)) (snd (opt_adim o)) bot_dir
      (drc_enc bi) (drc_arr_enc bi) (drc_arr_test bi) = Ok (Some mb) /\
    check_layer w h extend nx ny (fst (opt_adim o)) (snd (opt_adim o)) top_dir
      (drc_enc ti) (drc_arr_enc ti) (drc_arr_test ti) = Ok (Some mt).
Proof.
  unfold attempt, try_spacing. destruct sp as [spx spy]. intros H.
  match type of H with
  | bind ?m _ = _ => destruct m as [[mb|]|] eqn:Eb; simpl in H; try discriminate
  end.
  match type of H with
  | bind ?m _ = _ => destruct m as [[mt|]|] eqn:Et; simpl in H; try discriminate
  end.
  inversion H; subst. simpl. exists mb, mt. auto.
Qed.

(** Where a result of [get_best_via_array] comes from. *)
Lemma best_array_origin
    (tech : TechInfo) (vname bmtype tmtype bot_dir top_dir : string) (w h : Z)
    (extend : bool) (r : via_array) :
  get_best_via_array tech vname bmtype tmtype bot_dir top_dir w h extend
  = Ok (Some r) ->
  exists vtype weight bi ti nx ny sp o,
    In (vtype, weight) (get_via_types tech bmtype tmtype) /\
    lookup_drc tech vname vtype bmtype tmtype
      (metal_width bot_dir w h) (metal_width top_dir w h) = Ok (Some (bi, ti)) /\
    enumerated w h bi nx ny /\
    In sp (regime bi nx ny) /\
    attempt w h extend bot_dir top_dir bi ti nx ny sp = Ok (Some o) /\
    r = via_array_of (make_best weight vtype (drc_dim bi) o).
Proof.
  unfold get_best_via_array. intros H.
  destruct (via_search _ _ _ _ _ _ _ _ _) as [[b|]|] eqn:Es; simpl in H;
    try discriminate.
  inversion H; subst r. clear H.
  rewrite via_search_unfold in Es. apply for_each_step_spec in Es.
  destruct Es as (_ & _ & [Hnone|(vt & wt & dim & o & Hin & Hacc & Hb)]);
    [discriminate|].
  inversion Hb; subst b. clear Hb.
  destruct Hacc as (bi & ti & Hl & <- & Hfind).
  apply find_opt_some in Hfind. cbv zeta in Hfind.
  destruct Hfind as (nx_max & ny_max & l1 & num & nx & ny & l2 & spc
                     & Hdx & Hdy & Hlist & Hspc & Htry).
  exists vt, wt, bi, ti, nx, ny, spc, o. repeat split; try assumption.
  exists nx_max, ny_max. unfold max_counts. rewrite Hdx. cbn [bind].
  rewrite Hdy. cbn [bind]. split; [reflexivity|].
  assert (Hin' : In (num, nx, ny) (nxy_list nx_max ny_max))
    by (rewrite Hlist; apply in_or_app; right; now left).
  apply nxy_list_In in Hin'. tauto.
Qed.

(** X3: for a layer that passes, [check_layer] records the box's own size
    across the wire; along the wire it records the smallest extent any
    passing enclosure pair asks for, raised to the box's size. *)
Theorem check_layer_metal
    (w h : Z) (extend : bool) (nx ny w_arr h_arr : Z) (mdir : string)
    (encs : list (Z * Z)) (arr_enc : option (list (Z * Z)))
    (arr_test : option (Z -> Z -> bool)) (mdim : Z * Z)
    (Hpass : check_layer w h extend nx ny w_arr h_arr mdir encs arr_enc arr_test
             = Ok (Some mdim)) :
  exists tot enc,
    total_enc_list nx ny encs arr_enc arr_test = Ok tot /\ In enc tot /\
    let '(enc_idx, enc_dim, ext_dim, dim_lim, max_ext_dim) :=
      layer_axes mdir w h w_arr h_arr in
    enc_passes extend enc_idx enc_dim ext_dim dim_lim max_ext_dim enc = true /\
    (forall enc',
       In enc' tot ->
       enc_passes extend enc_idx enc_dim ext_dim dim_lim max_ext_dim enc' = true ->
       cur_ext enc_idx ext_dim enc <= cur_ext enc_idx ext_dim enc') /\
    mdim = (if enc_idx =? 0
            then (dim_lim, Z.max (cur_ext enc_idx ext_dim enc) max_ext_dim)
            else (Z.max (cur_ext enc_idx ext_dim enc) max_ext_dim, dim_lim)).
Proof. exact (check_layer_record _ _ _ _ _ _ _ _ _ _ _ _ Hpass). Qed.

Lemma check_layer_metal_witness :
  exists tot enc,
    total_enc_list 3 3 [(2, 0); (1, 3); (1, 1)] None None = Ok tot /\ In enc tot /\
    enc_passes true 0 8 8 10 10 enc = true /\
    (forall enc',
       In enc' tot -> enc_passes true 0 8 8 10 10 enc' = true ->
       cur_ext 0 8 enc <= cur_ext 0 8 enc') /\
    (10, 10) = (10, Z.max (cur_ext 0 8 enc) 10).
Proof.
  exact (check_layer_metal 10 10 true 3 3 8 8 "y" [(2, 0); (1, 3); (1, 1)]
           None None (10, 10) eq_refl).
Defined.

(** X4: a result of [get_best_via_array] is an array the search enumerates
    for one of the candidate via types: the type has rules for both
    layers, the cut size is the one of its bottom-layer rule, the counts
    lie between 1 and the largest counts that fit, and the spacing is one
    of the regime selected for these counts. *)
Theorem best_array_wellformed
    (tech : TechInfo) (vname bmtype tmtype bot_dir top_dir : string) (w h : Z)
    (extend : bool) (r : via_array)
    (Hret : get_best_via_array tech vname bmtype tmtype bot_dir top_dir w h extend
            = Ok (Some r)) :
  exists weight bi ti,
    In (arr_vtype r, weight) (get_via_types tech bmtype tmtype) /\
    lookup_drc tech vname (arr_vtype r) bmtype tmtype
      (metal_width bot_dir w h) (metal_width top_dir w h) = Ok (Some (bi, ti)) /\
    arr_vdim r = drc_dim bi /\
    enumerated w h bi (fst (arr_nxy r)) (snd (arr_nxy r)) /\
    In (arr_via_space r) (regime bi (fst (arr_nxy r)) (snd (arr_nxy r))) /\
    arr_via_arr_dim r
    = (extent (fst (arr_nxy r)) (fst (arr_vdim r)) (fst (arr_via_space r)),
       extent (snd (arr_nxy r)) (snd (arr_vdim r)) (snd (arr_via_space r))).
Proof.
  apply best_array_origin in Hret.
  destruct Hret as (vt & wt & bi & ti & nx & ny & sp & o
                    & Hin & Hl & Henum & Hsp & Hatt & ->).
  apply try_spacing_some in Hatt. destruct Hatt as (Hnxy & Hspo & Hadim & _).
  exists wt, bi, ti. simpl. rewrite Hnxy, Hspo, Hadim. simpl. auto 10.
Qed.

Lemma best_array_wellformed_witness :
  exists weight bi ti,
    In ("hrect"%string, weight) (base_via_types "m1" "m2") /\
    lookup_drc Examples.tech_two_types "via1" "hrect" "m1" "m2" 2 9
    = Ok (Some (bi, ti)) /\
    (4, 2) = drc_dim bi /\
    enumerated 9 2 bi 2 1 /\
    In (1, 1) (regime bi 2 1) /\
    (9, 2) = (extent 2 4 1, extent 1 2 1).
Proof.
  exact (best_array_wellformed Examples.tech_two_types "via1" "m1" "m2" "x" "y"
           9 2 false
           {| arr_nxy := (2, 1); arr_mdim_list := [(9, 2); (9, 2)];
              arr_vtype := "hrect"; arr_vdim := (4, 2);
              arr_via_space := (1, 1); arr_via_arr_dim := (9, 2) |} eq_refl).
Defined.

(** X5: the two metal rectangles of a result cover the box: each is at least
    [w] by [h], each equals the box across its own wire direction, and
    without [extend] both are exactly the box. *)
Theorem best_array_metal
    (tech : TechInfo) (vname bmtype tmtype bot_dir top_dir : string) (w h : Z)
    (extend : bool) (r : via_array)
    (Hret : get_best_via_array tech vname bmtype tmtype bot_dir top_dir w h extend
            = Ok (Some r)) :
  exists mb mt,
    arr_mdim_list r = [mb; mt] /\
    w <= fst mb /\ h <= snd mb /\ w <= fst mt /\ h <= snd mt /\
    (bot_dir = "y"%string -> fst mb = w) /\
    (bot_dir <> "y"%string -> snd mb = h) /\
    (top_dir = "y"%string -> fst mt = w) /\
    (top_dir <> "y"%string -> snd mt = h) /\
    (extend = false -> mb = (w, h) /\ mt = (w, h)).
Proof.
  apply best_array_origin in Hret.
  destruct Hret as (vt & wt & bi & ti & nx & ny & sp & o
                    & _ & _ & _ & _ & Hatt & ->).
  apply attempt_metal in Hatt. destruct Hatt as (mb & mt & Hlist & Hb & Ht).
  apply check_layer_dims in Hb. apply check_layer_dims in Ht.
  exists mb, mt. simpl. intuition.
Qed.

Lemma best_array_metal_witness :
  exists mb mt,
    [(10, 10); (10, 10)] = [mb; mt] /\
    10 <= fst mb /\ 10 <= snd mb /\ 10 <= fst mt /\ 10 <= snd mt /\
    ("x"%string = "y"%string -> fst mb = 10) /\
    ("x"%string <> "y"%string -> snd mb = 10) /\
    ("y"%string = "y"%string -> fst mt = 10) /\
    ("y"%string <> "y"%string -> snd mt = 10) /\
    (true = false -> mb = (10, 10) /\ mt = (10, 10)).
Proof.
  exact (best_array_metal Examples.tech_square "via1" "m1" "m2" "x" "y" 10 10 true
           {| arr_nxy := (3, 3); arr_mdim_list := [(10, 10); (10, 10)];
              arr_vtype := "square"; arr_vdim := (2, 2);
              arr_via_space := (1, 1); arr_via_arr_dim := (8, 8) |} eq_refl).
Defined.

Lemma best_array_is_optimal_witness :
  1 * 3 * 1 <= 4.
Proof.
  assert (Henum : enumerated 9 2 Examples.square_rule 3 1).
  { exists 3, 1. split; [reflexivity|lia]. }
  exact (best_array_is_optimal Examples.tech_two_types "via1" "m1" "m2" "x" "y"
           9 2 false
           {| best_num := 4; best_nxy := (2, 1);
              best_mdim_list := [(9, 2); (9, 2)]; best_type := "hrect";
              best_vdim := (4, 2); best_sp := (1, 1); best_adim := (9, 2) |}
           "square" 1 Examples.square_rule Examples.square_rule 3 1 (1, 1)
           {| opt_nxy := (3, 1); opt_mdim_list := [(9, 2); (9, 2)];
              opt_adim := (8, 2); opt_sp := (1, 1) |}
           eq_refl (or_introl eq_refl) ltac:(lia) eq_refl Henum
           (or_introl eq_refl) eq_refl).
Defined.

(* ------------------------------------------------------------------ *)
(** * Allowing the extension *)

Lemma find_opt_origin (w h : Z) (extend : bool) (bot_dir top_dir : string)
    (bi ti : via_drc_info) (o : via_opt) :
  find_opt w h extend bot_dir top_dir bi ti = Ok (Some o) ->
  exists nx ny sp,
    enumerated w h bi nx ny /\ In sp (regime bi nx ny) /\
    attempt w h extend bot_dir top_dir bi ti nx ny sp = Ok (Some o).
Proof.
  intros Hfind. apply find_opt_some in Hfind. cbv zeta in Hfind.
  destruct Hfind as (nx_max & ny_max & l1 & num & nx & ny & l2 & spc
                     & Hdx & Hdy & Hlist & Hspc & Htry).
  exists nx, ny, spc. repeat split; try assumption.
  exists nx_max, ny_max. unfold max_counts. rewrite Hdx. cbn [bind].
  rewrite Hdy. cbn [bind]. split; [reflexivity|].
  assert (Hin' : In (num, nx, ny) (nxy_list nx_max ny_max))
    by (rewrite Hlist; apply in_or_app; right; now left).
  apply nxy_list_In in Hin'. tauto.
Qed.

Lemma layer_fits_relax (w h : Z) (extend : bool) (w_arr h_arr : Z) (mdir : string)
    (tot : list (Z * Z)) :
  layer_fits w h extend w_arr h_arr mdir tot ->
  layer_fits w h true w_arr h_arr mdir tot.
Proof.
  unfold layer_fits, layer_axes.
  destruct (String.eqb mdir "y"); apply Exists_impl; intros enc;
    unfold enc_passes; rewrite !andb_true_iff; intros [H1 _]; auto.
Qed.

Lemma find_opt_relax (w h : Z) (extend : bool) (bot_dir top_dir : string)
    (bi ti : via_drc_info) (o1 : via_opt) (r2 : option via_opt) :
  find_opt w h extend bot_dir top_dir bi ti = Ok (Some o1) ->
  find_opt w h true bot_dir top_dir bi ti = Ok r2 ->
  exists o2, r2 = Some o2 /\ count_of o1 <= count_of o2.
Proof.
  intros H1 H2. apply find_opt_origin in H1.
  destruct H1 as (nx & ny & sp & Henum & Hsp & Hatt).
  pose proof (try_spacing_some _ _ _ _ _ _ _ _ _ _ _ Hatt)
    as (Hnxy & _ & _ & totb & tott & Hlists & Hfb & Hft).
  destruct (try_spacing_ok w h true bot_dir top_dir bi ti nx ny sp totb tott Hlists)
    as [r [Hr Hsome]].
  destruct Hsome as [o' ->]; try (eapply layer_fits_relax; eassumption).
  destruct r2 as [o2|].
  - exists o2. split; [reflexivity|].
    unfold count_of at 1. rewrite Hnxy. simpl.
    eapply find_opt_optimal; eauto.
  - exfalso. eapply find_opt_not_none; eauto.
Qed.

Section Relax.

Variable tech : TechInfo.
Variables vname bmtype tmtype bot_dir top_dir : string.
Variables w h : Z.
Variable extend : bool.

Let step1 :=
  via_type_step tech vname bmtype tmtype bot_dir top_dir w h extend
    (metal_width bot_dir w h) (metal_width top_dir w h).
Let step2 :=
  via_type_step tech vname bmtype tmtype bot_dir top_dir w h true
    (metal_width bot_dir w h) (metal_width top_dir w h).

Lemma via_type_step_relax (vtype : string) (weight : Z)
    (best1 best1' best2 best2' : option via_best) :
  0 <= weight ->
  step1 best1 (vtype, weight) = Ok best1' ->
  step2 best2 (vtype, weight) = Ok best2' ->
  best_le best1 best2 -> best_le best1' best2'.
Proof.
  intros Hwt Hs1 Hs2 Hle b1' Hb1'.
  pose proof Hs2 as Hraw2.
  apply via_type_step_spec in Hs1. destruct Hs1 as (_ & _ & Hor1).
  apply via_type_step_spec in Hs2. destruct Hs2 as (Hk2 & Ha2 & _).
  destruct Hor1 as [Hsame|(dim & o1 & Hacc1 & Hnew)].
  - subst best1'. destruct (Hle b1' Hb1') as [b2 [Hb2 Hnum]].
    destruct (Hk2 b2 Hb2) as [b2' [Hb2' Hnum']].
    exists b2'. split; [exact Hb2'|lia].
  - rewrite Hnew in Hb1'. inversion Hb1'; subst b1'. clear Hb1'.
    destruct Hacc1 as (bi & ti & Hl1 & Hdim & Hf1).
    unfold step2, via_type_step in Hraw2. rewrite Hl1 in Hraw2. cbn [bind] in Hraw2.
    destruct (find_opt w h true bot_dir top_dir bi ti) as [r2|e] eqn:Ef2;
      [|discriminate].
    destruct (find_opt_relax w h extend bot_dir top_dir bi ti o1 r2 Hf1 Ef2)
      as [o2 [-> Hcount]].
    destruct (Ha2 dim o2) as [b2' [Hb2' Hnum']].
    { exists bi, ti. auto. }
    exists b2'. split; [exact Hb2'|].
    unfold weighted_count in Hnum'. unfold count_of in Hcount. simpl.
    rewrite <- Z.mul_assoc in Hnum' |- *.
    apply Z.le_trans with (weight * (fst (opt_nxy o2) * snd (opt_nxy o2)));
      [|exact Hnum'].
    apply Z.mul_le_mono_nonneg_l; assumption.
Qed.

Lemma for_each_relax (types : list (string * Z)) :
  Forall (fun cand => 0 <= snd cand) types ->
  forall best1 best2 r1 r2,
    for_each step1 types best1 = Ok r1 ->
    for_each step2 types best2 = Ok r2 ->
    best_le best1 best2 -> best_le r1 r2.
Proof.
  induction 1 as [|[vtype weight] tl Hwt Hall IH]; intros best1 best2 r1 r2 H1 H2 Hle.
  - inversion H1; inversion H2; subst. exact Hle.
  - rewrite for_each_cons in H1, H2.
    destruct (step1 best1 (vtype, weight)) as [m1|] eqn:E1; simpl in H1;
      [|discriminate].
    destruct (step2 best2 (vtype, weight)) as [m2|] eqn:E2; simpl in H2;
      [|discriminate].
    eapply IH; eauto. eapply via_type_step_relax; eauto.
Qed.

End Relax.

(** X6: allowing the extension never loses a solution: with non-negative
    weights, if [get_best_via_array] succeeds for a box and the call with
    [extend] set returns, that call succeeds too and its weighted count
    [weight * nx * ny] is at least as large. *)
Theorem extend_never_hurts
    (tech : TechInfo) (vname bmtype tmtype bot_dir top_dir : string) (w h : Z)
    (extend : bool) (b1 : via_best) (r2 : option via_best)
    (Hweights : Forall (fun cand => 0 <= snd cand) (get_via_types tech bmtype tmtype))
    (Hfirst : via_search tech vname bmtype tmtype bot_dir top_dir w h extend
              = Ok (Some b1))
    (Hrelaxed : via_search tech vname bmtype tmtype bot_dir top_dir w h true
                = Ok r2) :
  exists b2,
    r2 = Some b2 /\ best_num b1 <= best_num b2 /\
    get_best_via_array tech vname bmtype tmtype bot_dir top_dir w h true
    = Ok (Some (via_array_of b2)).
Proof.
  pose proof Hfirst as H1. pose proof Hrelaxed as H2.
  rewrite via_search_unfold in H1, H2.
  assert (Hstart : best_le None None) by (intros b Hb; discriminate).
  destruct (for_each_relax tech vname bmtype tmtype bot_dir top_dir w h extend
              _ Hweights None None (Some b1) r2 H1 H2 Hstart b1 eq_refl)
    as [b2 [-> Hnum]].
  exists b2. unfold get_best_via_array. rewrite Hrelaxed. auto.
Qed.

Lemma extend_never_hurts_witness :
  exists b2,
    Some {| best_num := 3; best_nxy := (3, 1);
            best_mdim_list := [(8, 2); (8, 2)]; best_type := "square"%string;
            best_vdim := (2, 2); best_sp := (1, 1); best_adim := (8, 2) |}
    = Some b2 /\
    3 <= best_num b2 /\
    get_best_via_array Examples.tech_two_types "via1" "m1" "m2" "x" "y" 8 2 true
    = Ok (Some (via_array_of b2)).
Proof.
  assert (Hweights : Forall (fun cand : string * Z => 0 <= snd cand)
                       (get_via_types Examples.tech_two_types "m1" "m2")).
  { repeat constructor; simpl; lia. }
  exact (extend_never_hurts Examples.tech_two_types "via1" "m1" "m2" "x" "y" 8 2
           false
           {| best_num := 3; best_nxy := (3, 1);
              best_mdim_list := [(8, 2); (8, 2)]; best_type := "square";
              best_vdim := (2, 2); best_sp := (1, 1); best_adim := (8, 2) |}
           (Some {| best_num := 3; best_nxy := (3, 1);
                    best_mdim_list := [(8, 2); (8, 2)]; best_type := "square";
                    best_vdim := (2, 2); best_sp := (1, 1); best_adim := (8, 2) |})
           Hweights eq_refl eq_refl).
Defined.

(* ------------------------------------------------------------------ *)
(** * [_via_better] as an order *)

Lemma layer_areas_length (res : float) (m : list (Z * Z)) :
  forall a, layer_areas res m = Ok a -> List.length a = List.length m.
Proof.
  induction m as [|x m IH]; simpl; intros a H.
  - inversion H. reflexivity.
  - destruct (layer_area res x); simpl in H; [|discriminate].
    destruct (layer_areas res m) as [r|]; simpl in H; [|discriminate].
    inversion H. simpl. f_equal. auto.
Qed.

Lemma via_better_iff (res : float) (m1 m2 : list (Z * Z)) (a1 a2 : list Z) :
  layer_areas res m1 = Ok a1 ->
  layer_areas res m2 = Ok a2 ->
  exists b,
    _via_better res m1 m2 = Ok b /\
    (b = true <-> no_larger a1 a2 /\ some_smaller a1 a2).
Proof.
  intros H1 H2.
  destruct (via_better_loop_spec res m1 m2 a1 a2 false H1 H2) as [b [Hb Hiff]].
  exists b. split; [exact Hb|]. rewrite Hiff. split.
  - intros [Hall [Hf|Hs]]; [discriminate|auto].
  - intros [Hall Hs]. auto.
Qed.

Lemma smaller_not_larger (a b : list Z) :
  some_smaller a b -> ~ no_larger b a.
Proof.
  unfold some_smaller, no_larger. revert b.
  induction a as [|x a IH]; intros b Hs Hl; [inversion Hs|].
  destruct b as [|y b]; [inversion Hs|]. simpl in Hs, Hl.
  inversion Hl; subst. inversion Hs; subst; simpl in *; [lia|].
  eapply IH; eassumption.
Qed.

Lemma no_larger_trans (a : list Z) :
  forall b c,
    List.length a = List.length b ->
    no_larger a b -> no_larger b c -> no_larger a c.
Proof.
  unfold no_larger. induction a as [|x a IH]; intros b c Hlen Hab Hbc;
    [constructor|].
  destruct b as [|y b]; [discriminate|]. destruct c as [|z c]; [constructor|].
  simpl in *. injection Hlen as Hlen. inversion Hab; inversion Hbc; subst.
  simpl in *. constructor; [simpl; lia|]. eapply IH; eassumption.
Qed.

Lemma some_smaller_trans (a : list Z) :
  forall b c,
    List.length a = List.length b -> List.length b = List.length c ->
    no_larger a b -> some_smaller a b -> no_larger b c -> some_smaller a c.
Proof.
  unfold no_larger, some_smaller.
  induction a as [|x a IH]; intros b c Hab Hbc Hl1 Hs Hl2; [inversion Hs|].
  destruct b as [|y b]; [discriminate|]. destruct c as [|z c]; [discriminate|].
  simpl in *. injection Hab as Hab. injection Hbc as Hbc.
  inversion Hl1; inversion Hl2; subst. simpl in *.
  inversion Hs; subst.
  - apply Exists_cons_hd. simpl in *. lia.
  - apply Exists_cons_tl. eapply (IH b c); eassumption.
Qed.

(** X7: [_via_better] is a strict order on lists of layer sizes of one
    length: it never holds both ways, and it is transitive. *)
Theorem via_better_strict_order
    (res : float) (m1 m2 m3 : list (Z * Z)) (a1 a2 a3 : list Z)
    (H1 : layer_areas res m1 = Ok a1)
    (H2 : layer_areas res m2 = Ok a2)
    (H3 : layer_areas res m3 = Ok a3)
    (Hlen12 : List.length m1 = List.length m2)
    (Hlen23 : List.length m2 = List.length m3) :
  (_via_better res m1 m2 = Ok true -> _via_better res m2 m1 = Ok false) /\
  (_via_better res m1 m2 = Ok true -> _via_better res m2 m3 = Ok true ->
   _via_better res m1 m3 = Ok true).
Proof.
  destruct (via_better_iff res m1 m2 a1 a2 H1 H2) as [b12 [E12 I12]].
  destruct (via_better_iff res m2 m1 a2 a1 H2 H1) as [b21 [E21 I21]].
  destruct (via_better_iff res m2 m3 a2 a3 H2 H3) as [b23 [E23 I23]].
  destruct (via_better_iff res m1 m3 a1 a3 H1 H3) as [b13 [E13 I13]].
  pose proof (layer_areas_length _ _ _ H1) as L1.
  pose proof (layer_areas_length _ _ _ H2) as L2.
  pose proof (layer_areas_length _ _ _ H3) as L3.
  split.
  - intros Ht. rewrite E12 in Ht. inversion Ht; subst b12.
    rewrite E21. f_equal. destruct b21; [|reflexivity].
    destruct (proj1 I12 eq_refl) as [_ Hs].
    destruct (proj1 I21 eq_refl) as [Hl _].
    exfalso. exact (smaller_not_larger _ _ Hs Hl).
  - intros Ht12 Ht23. rewrite E12 in Ht12. rewrite E23 in Ht23.
    inversion Ht12; inversion Ht23; subst b12 b23.
    rewrite E13. f_equal. apply I13.
    destruct (proj1 I12 eq_refl) as [Hl12 Hs12].
    destruct (proj1 I23 eq_refl) as [Hl23 Hs23].
    split.
    + apply (no_larger_trans a1 a2 a3); auto. congruence.
    + apply (some_smaller_trans a1 a2 a3); auto; congruence.
Qed.

Lemma via_better_strict_order_witness :
  (_via_better 0.001 [(8, 2); (8, 2)] [(8, 2); (8, 3)] = Ok true ->
   _via_better 0.001 [(8, 2); (8, 3)] [(8, 2); (8, 2)] = Ok false) /\
  (_via_better 0.001 [(8, 2); (8, 2)] [(8, 2); (8, 3)] = Ok true ->
   _via_better 0.001 [(8, 2); (8, 3)] [(9, 2); (8, 3)] = Ok true ->
   _via_better 0.001 [(8, 2); (8, 2)] [(9, 2); (8, 3)] = Ok true).
Proof.
  exact (via_better_strict_order 0.001
           [(8, 2); (8, 2)] [(8, 2); (8, 3)] [(9, 2); (8, 3)]
           [16000000; 16000000] [16000000; 24000000] [18000000; 24000000]
           eq_refl eq_refl eq_refl eq_refl eq_refl).
Defined.

(* ------------------------------------------------------------------ *)
(** * What [get_via_info] returns *)

Lemma get_via_info_some (tech : TechInfo) (bbox : BBoxView)
    (bot_layer top_layer bot_dir : string) (bot_len top_len : float)
    (extend : bool) (top_dir : option string) (info : via_info) :
  get_via_info tech bbox bot_layer top_layer bot_dir bot_len top_len extend top_dir
  = Ok (Some info) ->
  exists r,
    get_best_via_array tech (get_via_name tech (get_layer_id tech bot_layer))
      (get_layer_type tech bot_layer) (get_layer_type tech top_layer)
      bot_dir (resolved_top_dir bot_dir top_dir) (bbox_w bbox) (bbox_h bbox) extend
    = Ok (Some r) /\
    let mb := mdim_at (arr_mdim_list r) 0 in
    let mt := mdim_at (arr_mdim_list r) 1 in
    let xc := xc_unit bbox in
    let yc := yc_unit bbox in
    bot_box info
    = {| left_unit := xc - fst mb / 2; bottom_unit := yc - snd mb / 2;
         right_unit := xc - fst mb / 2 + fst mb;
         top_unit := yc - snd mb / 2 + snd mb |} /\
    top_box info
    = {| left_unit := xc - fst mt / 2; bottom_unit := yc - snd mt / 2;
         right_unit := xc - fst mt / 2 + fst mt;
         top_unit := yc - snd mt / 2 + snd mt |} /\
    params info
    = {| p_id := get_via_id bot_layer top_layer;
         p_loc := (xc, yc);
         p_orient := "R0";
         p_num_rows := snd (arr_nxy r);
         p_num_cols := fst (arr_nxy r);
         p_sp_rows := snd (arr_via_space r);
         p_sp_cols := fst (arr_via_space r);
         p_enc1 := [(fst mb - fst (arr_via_arr_dim r)) / 2;
                    (fst mb - fst (arr_via_arr_dim r)) / 2;
                    (snd mb - snd (arr_via_arr_dim r)) / 2;
                    (snd mb - snd (arr_via_arr_dim r)) / 2];
         p_enc2 := [(fst mt - fst (arr_via_arr_dim r)) / 2;
                    (fst mt - fst (arr_via_arr_dim r)) / 2;
                    (snd mt - snd (arr_via_arr_dim r)) / 2;
                    (snd mt - snd (arr_via_arr_dim r)) / 2];
         p_cut_width := fst (arr_vdim r);
         p_cut_height := snd (arr_vdim r) |}.
Proof.
  unfold get_via_info. fold (resolved_top_dir bot_dir top_dir). intros Hret.
  destruct (get_best_via_array _ _ _ _ _ _ _ _ _) as [[r|]|]; simpl in Hret;
    try discriminate.
  exists r. split; [reflexivity|].
  destruct (arr_nxy r) as [nx ny], (arr_via_space r) as [spx spy],
    (arr_via_arr_dim r) as [warr harr].
  match type of Hret with
  | bind ?m _ = _ => destruct m as [[bw tw]|]; simpl in Hret; [|discriminate]
  end.
  destruct (get_via_em_specs _ _ _ _ _ _ _ _) as [[i1 i2] i3].
  repeat match type of Hret with
  | bind ?m _ = _ => destruct m; simpl in Hret; [|discriminate]
  end.
  inversion Hret; subst. simpl. auto.
Qed.

Lemma resolved_top_dir_across (bot_dir : string) (top_dir : option string) :
  top_dir = None \/ top_dir = Some ""%string ->
  (bot_dir = "y"%string -> resolved_top_dir bot_dir top_dir <> "y"%string) /\
  (bot_dir <> "y"%string -> resolved_top_dir bot_dir top_dir = "y"%string).
Proof.
  intros Hd.
  assert (Hres : resolved_top_dir bot_dir top_dir
                 = if String.eqb bot_dir "y" then "x"%string else "y"%string)
    by (destruct Hd as [-> | ->]; reflexivity).
  rewrite Hres. destruct (String.eqb bot_dir "y") eqn:E; split.
  - intros _. discriminate.
  - intros Hne. apply String.eqb_eq in E. contradiction.
  - intros ->. rewrite String.eqb_refl in E. discriminate.
  - reflexivity.
Qed.

Lemma check_layer_covers_array (w h : Z) (extend : bool) (nx ny w_arr h_arr : Z)
    (mdir : string) (info : via_drc_info) (mdim : Z * Z) :
  nonneg_pairs (drc_enc info) ->
  (forall extra, drc_arr_enc info = Some extra -> nonneg_pairs extra) ->
  check_layer w h extend nx ny w_arr h_arr mdir
    (drc_enc info) (drc_arr_enc info) (drc_arr_test info) = Ok (Some mdim) ->
  w_arr <= fst mdim /\ h_arr <= snd mdim /\
  (mdir = "y"%string -> w_arr <= w) /\ (mdir <> "y"%string -> h_arr <= h).
Proof.
  intros Hbase Hextra H. apply check_layer_record in H.
  destruct H as (tot & enc & Htot & Hin & H).
  pose proof (total_enc_list_nonneg _ _ _ _ Hbase Hextra Htot) as Hnn.
  unfold nonneg_pairs in Hnn. rewrite Forall_forall in Hnn.
  destruct (Hnn enc Hin) as [H0 H1]. unfold layer_axes in H.
  destruct (String.eqb mdir "y") eqn:Ey; destruct H as (Hp & _ & ->);
    unfold enc_passes, Py.item in Hp; apply andb_true_iff in Hp;
    destruct Hp as [Hp _]; apply Z.leb_le in Hp;
    unfold cur_ext, Py.item;
    change (1 - 0) with 1 in *; change (1 - 1) with 0 in *;
    change (0 =? 0) with true in *; change (1 =? 0) with false in *;
    cbv iota in *; cbn [fst snd]; (split; [lia|]); (split; [lia|]); split;
    intros Hd; try lia.
  - apply String.eqb_eq in Ey. contradiction.
  - subst. rewrite String.eqb_refl in Ey. discriminate.
Qed.

(** X8: the metal boxes [get_via_info] returns are centred on the box centre
    and cover the [w] by [h] region around it; without [extend] both are
    exactly [w] by [h]. *)
Theorem via_info_boxes_cover
    (tech : TechInfo) (bbox : BBoxView) (bot_layer top_layer bot_dir : string)
    (bot_len top_len : float) (extend : bool) (top_dir : option string)
    (info : via_info)
    (Hret : get_via_info tech bbox bot_layer top_layer bot_dir bot_len top_len
              extend top_dir = Ok (Some info)) :
  let covers (box : BBox) :=
    left_unit box <= xc_unit bbox - bbox_w bbox / 2 /\
    xc_unit bbox - bbox_w bbox / 2 + bbox_w bbox <= right_unit box /\
    bottom_unit box <= yc_unit bbox - bbox_h bbox / 2 /\
    yc_unit bbox - bbox_h bbox / 2 + bbox_h bbox <= top_unit box in
  let exact (box : BBox) :=
    box = {| left_unit := xc_unit bbox - bbox_w bbox / 2;
             bottom_unit := yc_unit bbox - bbox_h bbox / 2;
             right_unit := xc_unit bbox - bbox_w bbox / 2 + bbox_w bbox;
             top_unit := yc_unit bbox - bbox_h bbox / 2 + bbox_h bbox |} in
  covers (bot_box info) /\ covers (top_box info) /\
  (extend = false -> exact (bot_box info) /\ exact (top_box info)).
Proof.
  apply get_via_info_some in Hret. destruct Hret as (r & Hr & Hinfo).
  cbv zeta in Hinfo. destruct Hinfo as (Hbot & Htop & _).
  apply best_array_origin in Hr.
  destruct Hr as (vt & wt & bi & ti & nx & ny & sp & o
                  & _ & _ & _ & _ & Hatt & ->).
  apply attempt_metal in Hatt. destruct Hatt as (mb & mt & Hlist & Hb & Ht).
  apply check_layer_dims in Hb. apply check_layer_dims in Ht.
  simpl in Hbot, Htop. rewrite Hlist in Hbot, Htop.
  unfold mdim_at in Hbot, Htop. simpl in Hbot, Htop.
  destruct Hb as (Hb1 & Hb2 & _ & _ & Hb5). destruct Ht as (Ht1 & Ht2 & _ & _ & Ht5).
  cbv zeta. rewrite Hbot, Htop. simpl.
  split; [|split].
  - repeat split; Z.div_mod_to_equations; lia.
  - repeat split; Z.div_mod_to_equations; lia.
  - intros He. rewrite (Hb5 He), (Ht5 He). simpl. auto.
Qed.

Lemma via_info_boxes_cover_witness :
  exists info,
    get_via_info Examples.tech_square
      {| bbox_w := 10; bbox_h := 10; xc_unit := 5; yc_unit := 5 |}
      "M1" "M2" "x" (-1)%float (-1)%float false None = Ok (Some info) /\
    bot_box info
    = {| left_unit := 0; bottom_unit := 0; right_unit := 10; top_unit := 10 |} /\
    top_box info
    = {| left_unit := 0; bottom_unit := 0; right_unit := 10; top_unit := 10 |}.
Proof.
  eexists. split; [vm_compute; reflexivity|].
  refine (proj2 (proj2 (via_info_boxes_cover Examples.tech_square
            {| bbox_w := 10; bbox_h := 10; xc_unit := 5; yc_unit := 5 |}
            "M1" "M2" "x" (-1)%float (-1)%float false None _ _)) eq_refl).
  vm_compute. reflexivity.
Defined.

(** X9: with non-negative enclosure pairs the via array lies inside both
    metal rectangles, so every enclosure [get_via_info] reports in
    [enc1] and [enc2] is non-negative. *)
Theorem via_info_enclosures_nonneg
    (tech : TechInfo) (bbox : BBoxView) (bot_layer top_layer bot_dir : string)
    (bot_len top_len : float) (extend : bool) (top_dir : option string)
    (info : via_info)
    (Henc : nonneg_enclosures tech (get_via_name tech (get_layer_id tech bot_layer)))
    (Hret : get_via_info tech bbox bot_layer top_layer bot_dir bot_len top_len
              extend top_dir = Ok (Some info)) :
  Forall (fun e => 0 <= e) (p_enc1 (params info)) /\
  Forall (fun e => 0 <= e) (p_enc2 (params info)).
Proof.
  apply get_via_info_some in Hret. destruct Hret as (r & Hr & Hinfo).
  cbv zeta in Hinfo. destruct Hinfo as (_ & _ & Hp).
  apply best_array_origin in Hr.
  destruct Hr as (vt & wt & bi & ti & nx & ny & sp & o
                  & _ & Hl & _ & _ & Hatt & ->).
  apply lookup_drc_some in Hl. destruct Hl as [Hgb Hgt].
  destruct (Henc _ _ _ _ _ Hgb) as [Hnb Hxb].
  destruct (Henc _ _ _ _ _ Hgt) as [Hnt Hxt].
  apply attempt_metal in Hatt. destruct Hatt as (mb & mt & Hlist & Hb & Ht).
  apply (check_layer_covers_array _ _ _ _ _ _ _ _ _ _ Hnb Hxb) in Hb.
  apply (check_layer_covers_array _ _ _ _ _ _ _ _ _ _ Hnt Hxt) in Ht.
  rewrite Hp. simpl. rewrite Hlist. unfold mdim_at. simpl.
  destruct Hb as (Hb1 & Hb2 & _). destruct Ht as (Ht1 & Ht2 & _).
  split; repeat constructor; apply Z.div_pos; lia.
Qed.

Lemma via_info_enclosures_nonneg_witness :
  exists info,
    get_via_info Examples.tech_square
      {| bbox_w := 10; bbox_h := 10; xc_unit := 5; yc_unit := 5 |}
      "M1" "M2" "x" (-1)%float (-1)%float true None = Ok (Some info) /\
    Forall (fun e => 0 <= e) (p_enc1 (params info)) /\
    Forall (fun e => 0 <= e) (p_enc2 (params info)).
Proof.
  assert (Henc : nonneg_enclosures Examples.tech_square
                   (get_via_name Examples.tech_square
                      (get_layer_id Examples.tech_square "M1"))).
  { intros vtype mtype mw is_bot info H. simpl in H.
    unfold Examples.only_square in H.
    destruct (String.eqb vtype "square"); [|discriminate].
    inversion H; subst. split; [|discriminate].
    constructor; [simpl; lia|constructor]. }
  eexists. split; [vm_compute; reflexivity|].
  eapply (via_info_enclosures_nonneg Examples.tech_square
            {| bbox_w := 10; bbox_h := 10; xc_unit := 5; yc_unit := 5 |}
            "M1" "M2" "x" (-1)%float (-1)%float true None _ Henc).
  vm_compute. reflexivity.
Defined.

(** X10: when [top_dir] is left to its default the two layers run across each
    other, and with non-negative enclosure pairs the via array reported
    by [get_via_info] then fits the box in both axes, whether or not
    [extend] is set. *)
Theorem via_info_array_fits_by_default
    (tech : TechInfo) (bbox : BBoxView) (bot_layer top_layer bot_dir : string)
    (bot_len top_len : float) (extend : bool) (top_dir : option string)
    (info : via_info)
    (Hdefault : top_dir = None \/ top_dir = Some ""%string)
    (Henc : nonneg_enclosures tech (get_via_name tech (get_layer_id tech bot_layer)))
    (Hret : get_via_info tech bbox bot_layer top_layer bot_dir bot_len top_len
              extend top_dir = Ok (Some info)) :
  let p := params info in
  1 <= p_num_cols p /\ 1 <= p_num_rows p /\
  p_num_cols p * (p_sp_cols p + p_cut_width p) - p_sp_cols p <= bbox_w bbox /\
  p_num_rows p * (p_sp_rows p + p_cut_height p) - p_sp_rows p <= bbox_h bbox.
Proof.
  apply get_via_info_some in Hret. destruct Hret as (r & Hr & Hinfo).
  cbv zeta in Hinfo. destruct Hinfo as (_ & _ & Hp).
  apply best_array_origin in Hr.
  destruct Hr as (vt & wt & bi & ti & nx & ny & sp & o
                  & _ & Hl & Henum & _ & Hatt & ->).
  apply lookup_drc_some in Hl. destruct Hl as [Hgb Hgt].
  destruct (Henc _ _ _ _ _ Hgb) as [Hnb Hxb].
  destruct (Henc _ _ _ _ _ Hgt) as [Hnt Hxt].
  pose proof (try_spacing_some _ _ _ _ _ _ _ _ _ _ _ Hatt)
    as (Hnxy & Hsp & Hadim & _).
  apply attempt_metal in Hatt. destruct Hatt as (mb & mt & Hlist & Hb & Ht).
  apply (check_layer_covers_array _ _ _ _ _ _ _ _ _ _ Hnb Hxb) in Hb.
  apply (check_layer_covers_array _ _ _ _ _ _ _ _ _ _ Hnt Hxt) in Ht.
  destruct Hb as (_ & _ & Hby & Hbx). destruct Ht as (_ & _ & Hty & Htx).
  destruct (resolved_top_dir_across bot_dir top_dir Hdefault) as [Hacross1 Hacross2].
  destruct Henum as (nx_max & ny_max & _ & Hx & Hy).
  cbv zeta. rewrite Hp. simpl. rewrite Hnxy, Hsp. simpl.
  rewrite Hadim in Hby, Hbx, Hty, Htx. unfold extent in *. simpl in *.
  split; [lia|]. split; [lia|].
  destruct (string_dec bot_dir "y") as [Hd|Hd].
  - specialize (Hby Hd). specialize (Htx (Hacross1 Hd)). lia.
  - specialize (Hbx Hd). specialize (Hty (Hacross2 Hd)). lia.
Qed.

Lemma via_info_array_fits_by_default_witness :
  exists info,
    get_via_info Examples.tech_square
      {| bbox_w := 10; bbox_h := 10; xc_unit := 5; yc_unit := 5 |}
      "M1" "M2" "x" (-1)%float (-1)%float true None = Ok (Some info) /\
    p_num_cols (params info)
    * (p_sp_cols (params info) + p_cut_width (params info))
    - p_sp_cols (params info) <= 10.
Proof.
  assert (Henc : nonneg_enclosures Examples.tech_square
                   (get_via_name Examples.tech_square
                      (get_layer_id Examples.tech_square "M1"))).
  { intros vtype mtype mw is_bot info H. simpl in H.
    unfold Examples.only_square in H.
    destruct (String.eqb vtype "square"); [|discriminate].
    inversion H; subst. split; [|discriminate].
    constructor; [simpl; lia|constructor]. }
  eexists. split; [vm_compute; reflexivity|].
  refine (proj1 (proj2 (proj2 (via_info_array_fits_by_default Examples.tech_square
            {| bbox_w := 10; bbox_h := 10; xc_unit := 5; yc_unit := 5 |}
            "M1" "M2" "x" (-1)%float (-1)%float true None _
            (or_introl eq_refl) Henc _)))).
  vm_compute. reflexivity.
Defined.

(* ------------------------------------------------------------------ *)
(** * Current specs of zero, limits without bound *)

Lemma em_unbounded (idc_par iac_rms_par iac_peak_par : float) :
  em_violated (infinity, infinity, infinity) idc_par iac_rms_par iac_peak_par = false.
Proof.
  unfold em_violated, em_exceeded. rewrite !ltb_infinity_l, !andb_false_r.
  reflexivity.
Qed.

Lemma zero_quotient (y : float) :
  (exists s, Prim2SF (0 / y)%float = S754_zero s) \/ Prim2SF (0 / y)%float = S754_nan.
Proof.
  rewrite div_spec. unfold SF64div. change (Prim2SF 0) with (S754_zero false).
  unfold SFdiv. destruct (Prim2SF y) as [s|s| |s m e]; eauto.
Qed.

Lemma em_exceeded_zero_spec (limit spec_par : float) :
  (exists s, Prim2SF spec_par = S754_zero s) \/ Prim2SF spec_par = S754_nan ->
  em_exceeded limit spec_par = false.
Proof.
  intros H. unfold em_exceeded. rewrite !ltb_spec.
  change (Prim2SF 0) with (S754_zero false). unfold SFltb, SFcompare.
  destruct H as [[s ->]| ->]; destruct (Prim2SF limit) as [sl|sl| |sl ml el];
    try reflexivity; destruct sl; reflexivity.
Qed.

(** X11: with the current specs at zero (the defaults of [design_resistor])
    the per-count specs are zero for every parallel count, and no EM
    limit, whatever the provider returns, rejects a candidate. *)
Theorem zero_specs_never_reject
    (res_targ : float) (npar : Z)
    (res_targ_par idc_par iac_rms_par iac_peak_par : float)
    (specs : float * float * float)
    (Htargets : par_targets res_targ 0 0 0 npar
                = Ok (res_targ_par, idc_par, iac_rms_par, iac_peak_par)) :
  em_violated specs idc_par iac_rms_par iac_peak_par = false.
Proof.
  unfold par_targets, Py.float_mul_int, Py.float_div_int in Htargets.
  destruct (Py.float_of_int npar) as [y|]; simpl in Htargets; [|discriminate].
  unfold Py.truediv in Htargets. destruct (PrimFloat.is_zero y); simpl in Htargets;
    [discriminate|].
  inversion Htargets; subst. destruct specs as [[a b] c].
  unfold em_violated.
  rewrite !(em_exceeded_zero_spec _ _ (zero_quotient y)). reflexivity.
Qed.

Lemma zero_specs_never_reject_witness :
  em_violated (1e-9, 1e-9, 1e-9)%float 0 0 0 = false.
Proof.
  exact (zero_specs_never_reject 1000 2 2000 0 0 0 (1e-9, 1e-9, 1e-9)%float eq_refl).
Defined.

(* ------------------------------------------------------------------ *)
(** * What [design_resistor] saves *)

Section SavedWidth.

Variable tech : TechInfo.
Variable res_type : string.
Variables res_targ_par rsq : float.
Variables wmin_unit wmax_unit lmin_unit : Z.
Variable min_nsq : float.
Variables idc_par iac_rms_par iac_peak_par : float.

Let ok := width_ok tech res_type res_targ_par rsq lmin_unit min_nsq
            idc_par iac_rms_par iac_peak_par.
Let step := w_step tech res_type res_targ_par rsq lmin_unit min_nsq
              idc_par iac_rms_par iac_peak_par.

Lemma w_step_full (it it' : BinaryIterator.t (Z * Z)) :
  step it = Ok it' ->
  it' = BinaryIterator.up it \/ it' = BinaryIterator.down it \/
  exists l, ok (BinaryIterator.get_next it) l /\
            it' = BinaryIterator.down
                    (BinaryIterator.save_info (BinaryIterator.get_next it, l) it).
Proof.
  unfold step, w_step, ok, width_ok. intros H.
  destruct (Py.truediv res_targ_par rsq) as [q|] eqn:Eq; simpl in H; [|discriminate].
  destruct (Py.float_mul_int q _) as [x|] eqn:Ex; simpl in H; [|discriminate].
  destruct (Py.ceil x) as [l|] eqn:El; simpl in H; [|discriminate].
  destruct (Py.float_mul_int min_nsq _) as [y|] eqn:Ey; simpl in H; [|discriminate].
  destruct (Py.ceil y) as [lfloor|] eqn:Ef; simpl in H; [|discriminate].
  destruct (l <? Z.max lmin_unit lfloor) eqn:Elen.
  - inversion H. auto.
  - destruct (Py.int_mul_float (BinaryIterator.get_next it) _) as [wf|] eqn:Ew;
      simpl in H; [|discriminate].
    destruct (Py.int_mul_float l _) as [lf|] eqn:Elf; simpl in H; [|discriminate].
    destruct (em_violated _ _ _ _) eqn:Eem; inversion H; [auto|].
    right. right. exists l. split; [|reflexivity].
    exists q, x, y, lfloor, wf, lf. apply Z.ltb_ge in Elen. auto 10.
Qed.

Lemma w_inv_step (nmax : Z) (it it' : BinaryIterator.t (Z * Z)) :
  w_inv ok wmin_unit nmax it -> BinaryIterator.has_next it = true ->
  step it = Ok it' ->
  w_inv ok wmin_unit nmax it'.
Proof.
  intros (Hoff & Hst & Hlow & (hi & Hhi & Hle & Hcur) & Hsaved) Hnext Hstep.
  unfold BinaryIterator.has_next in Hnext. rewrite Hhi in Hnext.
  apply Z.ltb_lt in Hnext.
  assert (Hmid : BinaryIterator.low it <= BinaryIterator.current it < hi).
  { rewrite Hcur. split.
    - apply Z.div_le_lower_bound; lia.
    - apply Z.div_lt_upper_bound; lia. }
  apply w_step_full in Hstep.
  destruct Hstep as [-> | [-> | (l & Hok & ->)]]; unfold w_inv; simpl;
    rewrite ?Hhi.
  - split; [assumption|]. split; [assumption|]. split; [lia|].
    split; [exists hi; auto|]. exact Hsaved.
  - split; [assumption|]. split; [assumption|]. split; [lia|].
    split; [|exact Hsaved].
    eexists. split; [reflexivity|]. split; [lia|reflexivity].
  - split; [assumption|]. split; [assumption|]. split; [lia|]. split.
    + eexists. split; [reflexivity|]. split; [lia|reflexivity].
    + intros w0 l0 Hs. injection Hs as Hw0 Hl0. rewrite <- Hw0, <- Hl0.
      split; [exact Hok|].
      exists (BinaryIterator.current it).
      unfold BinaryIterator.get_next. rewrite Hoff, Hst. split; [lia|].
      rewrite Z.mul_comm, Z.add_comm. reflexivity.
Qed.

Lemma w_search_saved (w l : Z) :
  w_search tech res_type res_targ_par rsq wmin_unit wmax_unit lmin_unit min_nsq
    idc_par iac_rms_par iac_peak_par = Some (Ok (Some (w, l))) ->
  ok w l /\ probed_width wmin_unit wmax_unit w.
Proof.
  unfold w_search. intros H.
  match type of H with
  | run_bind (while_loop ?c ?b ?f ?s) _ = _ =>
      destruct (while_loop c b f s) as [[it|e]|] eqn:Ew; simpl in H;
        try discriminate
  end.
  inversion H as [Hsave]. clear H.
  pose (nmax := let n := (wmax_unit + 1 - wmin_unit) / 2 in
                if wmin_unit + 2 * n <? wmax_unit + 1 then n + 1 else n).
  eapply (while_loop_invariant (w_inv ok wmin_unit nmax)) in Ew.
  - destruct Ew as [(_ & _ & _ & _ & Hsaved) _].
    destruct (Hsaved w l Hsave) as [Hok (k & Hk & ->)].
    split; [exact Hok|]. split; [exists k; split; [lia|reflexivity]|].
    subst nmax. cbv zeta in Hk.
    destruct (wmin_unit + 2 * ((wmax_unit + 1 - wmin_unit) / 2) <? wmax_unit + 1)
      eqn:E; [apply Z.ltb_lt in E|apply Z.ltb_ge in E];
      Z.div_mod_to_equations; lia.
  - intros s s' Hs Hc Hb. inversion Hb as [Hb']. eapply w_inv_step; eauto.
  - unfold w_inv. split; [reflexivity|]. split; [reflexivity|].
    split; [apply Z.le_refl|]. split.
    + exists nmax. split; [reflexivity|]. split; [apply Z.le_refl|reflexivity].
    + intros w0 l0 Hs. discriminate.
Qed.

End SavedWidth.

Section SavedCount.

Variable tech : TechInfo.
Variable res_type : string.
Variables res_targ idc iac_rms iac_peak rsq wmax : float.
Variables wmin_unit wmax_unit lmin_unit : Z.
Variable min_nsq : float.

Let okc (n w l : Z) : Prop :=
  count_ok tech res_type res_targ idc iac_rms iac_peak rsq wmax lmin_unit min_nsq
    n w l /\
  probed_width wmin_unit wmax_unit w.
Let step :=
  npar_step tech res_type res_targ idc iac_rms iac_peak rsq wmax
    wmin_unit wmax_unit lmin_unit min_nsq.

Lemma npar_try_saved (npar w l : Z) :
  npar_try tech res_type res_targ idc iac_rms iac_peak rsq wmax
    wmin_unit wmax_unit lmin_unit min_nsq npar = Some (Ok (Some (w, l))) ->
  okc npar w l.
Proof.
  unfold npar_try, okc, count_ok. intros H.
  destruct (par_targets res_targ idc iac_rms iac_peak npar)
    as [[[[rt a] b] c]|e]; simpl in H; [|discriminate].
  destruct (em_violated _ a b c) eqn:Eem; [discriminate|].
  apply w_search_saved in H. destruct H as [Hok Hw].
  split; [|exact Hw]. exists rt, a, b, c. auto.
Qed.

Lemma n_inv_step (off st : Z) (it it' : BinaryIterator.t (Z * Z * Z)) :
  n_inv okc off st it -> step it = Some (Ok it') -> n_inv okc off st it'.
Proof.
  intros (Hoff & Hst & Hcur & Hlow & Hhi & Hsaved) H.
  unfold step in H. rewrite npar_step_try in H.
  destruct (npar_try _ _ _ _ _ _ _ _ _ _ _ _ _) as [[[[w l]|]|e]|] eqn:Et;
    simpl in H; try discriminate; injection H as <-; unfold n_inv;
    cbn [BinaryIterator.up BinaryIterator.down BinaryIterator.save_info
         BinaryIterator.offset BinaryIterator.step BinaryIterator.current
         BinaryIterator.low BinaryIterator.high BinaryIterator.save_info_].
  - split; [assumption|]. split; [assumption|].
    split; [apply Z.div_pos; lia|]. split; [assumption|]. split.
    + intros hi Hh. injection Hh as <-. assumption.
    + intros n w0 l0 Hs. injection Hs as Hn Hw0 Hl0.
      rewrite <- Hn, <- Hw0, <- Hl0. split; [apply npar_try_saved; exact Et|].
      exists (BinaryIterator.current it). split; [assumption|].
      unfold BinaryIterator.get_next. rewrite Hoff, Hst. reflexivity.
  - split; [assumption|]. split; [assumption|]. split; [|split; [lia|]].
    + destruct (BinaryIterator.high it) as [hi|].
      * specialize (Hhi hi eq_refl). apply Z.div_pos; lia.
      * destruct (0 <? BinaryIterator.current it); lia.
    + split; assumption.
Qed.

Lemma npar_search_sound (fuel : nat) (num_even : bool) (npar w l : Z) :
  rsq = get_res_rsquare tech res_type ->
  wmax = snd (get_res_width_bounds tech res_type) ->
  min_nsq = get_res_min_nsquare tech res_type ->
  npar_search tech res_type fuel res_targ idc iac_rms iac_peak num_even
    wmin_unit wmax_unit lmin_unit = Some (Ok (Some (npar, w, l))) ->
  okc npar w l /\ probed_count num_even npar.
Proof.
  intros Hrsq Hwmax Hmin. unfold npar_search. rewrite <- Hrsq, <- Hwmax, <- Hmin.
  intros H.
  match type of H with
  | run_bind (while_loop ?c ?b ?f ?s) _ = _ =>
      destruct (while_loop c b f s) as [[it|e]|] eqn:Ew; simpl in H;
        try discriminate
  end.
  injection H as Hsave.
  pose (off := if num_even then 2 else 1).
  eapply (while_loop_invariant (n_inv okc off off)) in Ew.
  - destruct Ew as [(_ & _ & _ & _ & _ & Hsaved) _].
    destruct (Hsaved npar w l Hsave) as [Hok (k & Hk & Hn)].
    split; [exact Hok|]. unfold probed_count. subst off.
    destruct num_even.
    + split; [|lia]. rewrite Hn. replace (k * 2 + 2) with (2 * (k + 1)) by lia.
      rewrite Z.even_mul. reflexivity.
    + lia.
  - intros s s' Hs _ Hb. eapply n_inv_step; eauto.
  - unfold n_inv. subst off. destruct num_even; simpl;
      (split; [reflexivity|]); (split; [reflexivity|]); (split; [lia|]);
      (split; [lia|]); split; intros; discriminate.
Qed.

End SavedCount.

Lemma unit_bounds_even (tech : TechInfo) (res_type : string)
    (wmin_unit wmax_unit lmin_unit lmax_unit : Z) :
  unit_bounds tech res_type = Ok (wmin_unit, wmax_unit, lmin_unit, lmax_unit) ->
  Z.even wmin_unit = true /\ Z.even wmax_unit = true.
Proof.
  unfold unit_bounds. intros H.
  destruct (get_res_width_bounds tech res_type) as [wmin wmax].
  destruct (get_res_length_bounds tech res_type) as [lmin lmax].
  repeat match type of H with
  | bind ?m _ = _ => destruct m; cbn [bind] in H; [|discriminate]
  end.
  injection H as <- <- _ _.
  split; [destruct (- a / 2)|destruct (a0 / 2)]; reflexivity.
Qed.

Lemma fix_length_some (tech : TechInfo) (lmax_unit : Z) (info : option (Z * Z * Z))
    (num_par num_ser : Z) (wopt lopt : float) :
  fix_length tech lmax_unit info = Ok (num_par, num_ser, wopt, lopt) ->
  exists w l wf,
    info = Some (num_par, w, l) /\
    Py.int_mul_float w (resolution tech) = Ok wf /\
    wopt = (wf * layout_unit tech)%float /\
    (l <= lmax_unit -> num_ser = 1) /\
    (lmax_unit < l -> lmax_unit <> 0 /\ num_ser = - ((- l) / lmax_unit)).
Proof.
  unfold fix_length. intros H. destruct info as [[[np w] l]|]; [|discriminate].
  destruct (Py.int_mul_float w (resolution tech)) as [wf|] eqn:Ew; cbn [bind] in H;
    [|discriminate].
  exists w, l, wf.
  match type of H with
  | bind ?m _ = _ => destruct m as [[ns lo]|] eqn:Ein; cbn [bind] in H;
                     [|discriminate]
  end.
  injection H as <- <- <- _.
  destruct (lmax_unit <? l) eqn:El.
  - apply Z.ltb_lt in El.
    destruct (Py.floordiv (- l) lmax_unit) as [q|] eqn:Eq; cbn [bind] in Ein;
      [|discriminate].
    apply floordiv_ok in Eq. destruct Eq as [Hnz ->].
    repeat match type of Ein with
    | bind ?m _ = _ => destruct m; cbn [bind] in Ein; [|discriminate]
    end.
    injection Ein as <- _.
    split; [reflexivity|]. split; [exact Ew|]. split; [reflexivity|].
    split; [intros; exfalso; lia|]. intros _. split; [exact Hnz|reflexivity].
  - apply Z.ltb_ge in El.
    repeat match type of Ein with
    | bind ?m _ = _ => destruct m; cbn [bind] in Ein; [|discriminate]
    end.
    injection Ein as <- _.
    split; [reflexivity|]. split; [exact Ew|]. split; [reflexivity|].
    split; [reflexivity|]. intros; exfalso; lia.
Qed.

Lemma design_resistor_some (tech : TechInfo) (res_type : string) (fuel : nat)
    (res_targ idc iac_rms iac_peak : float) (num_even : bool)
    (num_par num_ser : Z) (wopt lopt : float) :
  design_resistor tech res_type fuel res_targ idc iac_rms iac_peak num_even
  = Some (Ok (num_par, num_ser, wopt, lopt)) ->
  exists wmin_unit wmax_unit lmin_unit lmax_unit info,
    unit_bounds tech res_type = Ok (wmin_unit, wmax_unit, lmin_unit, lmax_unit) /\
    npar_search tech res_type fuel res_targ idc iac_rms iac_peak num_even
      wmin_unit wmax_unit lmin_unit = Some (Ok info) /\
    fix_length tech lmax_unit info = Ok (num_par, num_ser, wopt, lopt).
Proof.
  unfold design_resistor. intros H.
  destruct (unit_bounds tech res_type) as [[[[a b] c] d]|e]; simpl in H;
    [|discriminate].
  destruct (npar_search _ _ _ _ _ _ _ _ _ _ _) as [[info|e]|] eqn:En; simpl in H;
    try discriminate.
  injection H as H. exists a, b, c, d, info. auto.
Qed.

(** X12: what [design_resistor] returns was checked: the parallel count
    passed the pre-check at the maximum width, and the width and length
    behind the returned size passed every test of the inner loop. The
    width is even and within the width bounds, the length is the one
    computed for the width and reaches the minimum length. *)
Theorem design_resistor_sound
    (tech : TechInfo) (res_type : string) (fuel : nat)
    (res_targ idc iac_rms iac_peak : float) (num_even : bool)
    (num_par num_ser : Z) (wopt lopt : float)
    (Hret : design_resistor tech res_type fuel res_targ idc iac_rms iac_peak num_even
            = Some (Ok (num_par, num_ser, wopt, lopt))) :
  exists wmin_unit wmax_unit lmin_unit lmax_unit w l wf,
    unit_bounds tech res_type = Ok (wmin_unit, wmax_unit, lmin_unit, lmax_unit) /\
    count_ok tech res_type res_targ idc iac_rms iac_peak
      (get_res_rsquare tech res_type) (snd (get_res_width_bounds tech res_type))
      lmin_unit (get_res_min_nsquare tech res_type) num_par w l /\
    wmin_unit <= w <= wmax_unit /\ Z.even w = true /\ lmin_unit <= l /\
    Py.int_mul_float w (resolution tech) = Ok wf /\
    wopt = (wf * layout_unit tech)%float.
Proof.
  apply design_resistor_some in Hret.
  destruct Hret as (wmin_u & wmax_u & lmin_u & lmax_u & info & Hb & Hs & Hf).
  apply fix_length_some in Hf.
  destruct Hf as (w & l & wf & -> & Hwf & Hwopt & _).
  pose proof (npar_search_sound tech res_type res_targ idc iac_rms iac_peak
                _ _ wmin_u wmax_u lmin_u _ fuel num_even _ _ _
                eq_refl eq_refl eq_refl Hs) as Hs'.
  destruct Hs' as [[Hok [(k & Hk & Hw) Hle]] _].
  destruct (unit_bounds_even _ _ _ _ _ _ Hb) as [Hev _].
  exists wmin_u, wmax_u, lmin_u, lmax_u, w, l, wf.
  split; [exact Hb|]. split; [exact Hok|]. split; [lia|]. split.
  - rewrite Hw, Z.even_add, Z.even_mul, Hev. reflexivity.
  - split; [|auto].
    destruct Hok as (rt & a & b & c & _ & _ & Hwok).
    destruct Hwok as (q & x & y & lf0 & wf0 & lf & _ & _ & _ & _ & _ & Hlen & _).
    lia.
Qed.

Lemma design_resistor_sound_witness :
  design_resistor Examples.tech_short "res" 10 1000 0 0 0 true
  = Some (Ok (2, 4, (1000 * 0.001 * 1e-6)%float, 0.005%float)) /\
  exists wmin_unit wmax_unit lmin_unit lmax_unit w l wf,
    unit_bounds Examples.tech_short "res"
    = Ok (wmin_unit, wmax_unit, lmin_unit, lmax_unit) /\
    count_ok Examples.tech_short "res" 1000 0 0 0
      (get_res_rsquare Examples.tech_short "res")
      (snd (get_res_width_bounds Examples.tech_short "res"))
      lmin_unit (get_res_min_nsquare Examples.tech_short "res") 2 w l /\
    wmin_unit <= w <= wmax_unit /\ Z.even w = true /\ lmin_unit <= l /\
    Py.int_mul_float w (resolution Examples.tech_short) = Ok wf /\
    (1000 * 0.001 * 1e-6)%float = (wf * layout_unit Examples.tech_short)%float.
Proof.
  assert (H : design_resistor Examples.tech_short "res" 10 1000 0 0 0 true
              = Some (Ok (2, 4, (1000 * 0.001 * 1e-6)%float, 0.005%float)))
    by (vm_compute; reflexivity).
  split; [exact H|].
  exact (design_resistor_sound Examples.tech_short "res" 10 1000 0 0 0 true
           2 4 _ _ H).
Defined.

(** X13: the counts [design_resistor] returns: the parallel count is even and
    at least 2 when an even count is asked for, at least 1 otherwise; the
    series count is 1 when the length is within the length bound and
    otherwise, for a positive bound, the least count whose multiple of the
    bound reaches the length. *)
Theorem design_resistor_counts
    (tech : TechInfo) (res_type : string) (fuel : nat)
    (res_targ idc iac_rms iac_peak : float) (num_even : bool)
    (num_par num_ser : Z) (wopt lopt : float)
    (Hret : design_resistor tech res_type fuel res_targ idc iac_rms iac_peak num_even
            = Some (Ok (num_par, num_ser, wopt, lopt))) :
  exists wmin_unit wmax_unit lmin_unit lmax_unit w l,
    unit_bounds tech res_type = Ok (wmin_unit, wmax_unit, lmin_unit, lmax_unit) /\
    npar_search tech res_type fuel res_targ idc iac_rms iac_peak num_even
      wmin_unit wmax_unit lmin_unit = Some (Ok (Some (num_par, w, l))) /\
    probed_count num_even num_par /\
    (l <= lmax_unit -> num_ser = 1) /\
    (0 < lmax_unit < l ->
     2 <= num_ser /\ (num_ser - 1) * lmax_unit < l <= num_ser * lmax_unit).
Proof.
  apply design_resistor_some in Hret.
  destruct Hret as (wmin_u & wmax_u & lmin_u & lmax_u & info & Hb & Hs & Hf).
  apply fix_length_some in Hf.
  destruct Hf as (w & l & wf & -> & _ & _ & Hone & Hser).
  pose proof (npar_search_sound tech res_type res_targ idc iac_rms iac_peak
                _ _ wmin_u wmax_u lmin_u _ fuel num_even _ _ _
                eq_refl eq_refl eq_refl Hs) as Hs'.
  destruct Hs' as [_ Hcount].
  exists wmin_u, wmax_u, lmin_u, lmax_u, w, l.
  split; [exact Hb|]. split; [exact Hs|]. split; [exact Hcount|].
  split; [exact Hone|].
  intros [Hpos Hlt]. destruct (Hser Hlt) as [_ ->].
  assert (Hbounds : (- (- l / lmax_u) - 1) * lmax_u < l
                    <= - (- l / lmax_u) * lmax_u)
    by (Z.div_mod_to_equations; nia).
  split; [nia|exact Hbounds].
Qed.

Lemma design_resistor_counts_witness :
  design_resistor Examples.tech_short "res" 10 1000 0 0 0 true
  = Some (Ok (2, 4, (1000 * 0.001 * 1e-6)%float, 0.005%float)) /\
  exists wmin_unit wmax_unit lmin_unit lmax_unit w l,
    unit_bounds Examples.tech_short "res"
    = Ok (wmin_unit, wmax_unit, lmin_unit, lmax_unit) /\
    npar_search Examples.tech_short "res" 10 1000 0 0 0 true
      wmin_unit wmax_unit lmin_unit = Some (Ok (Some (2, w, l))) /\
    probed_count true 2 /\
    (l <= lmax_unit -> 4 = 1) /\
    (0 < lmax_unit < l ->
     2 <= 4 /\ (4 - 1) * lmax_unit < l <= 4 * lmax_unit).
Proof.
  assert (H : design_resistor Examples.tech_short "res" 10 1000 0 0 0 true
              = Some (Ok (2, 4, (1000 * 0.001 * 1e-6)%float, 0.005%float)))
    by (vm_compute; reflexivity).
  split; [exact H|].
  exact (design_resistor_counts Examples.tech_short "res" 10 1000 0 0 0 true
           2 4 _ _ H).
Defined.

(* ------------------------------------------------------------------ *)
(** * [DummyTechInfo] *)

(** X14: on [DummyTechInfo] every via query fails: the via rule has
    dimension [(0, 0)] and spacing [(0, 0)], so the count bound divides
    by zero. [get_best_via_array] and [get_via_info] raise
    [ZeroDivisionError] for every box, direction and [extend]. *)
Theorem dummy_via_queries_raise
    (vname bmtype tmtype bot_layer top_layer bot_dir top_dir : string)
    (opt_top_dir : option string) (bbox : BBoxView) (w h : Z)
    (bot_len top_len : float) (extend : bool) :
  get_best_via_array DummyTechInfo vname bmtype tmtype bot_dir top_dir w h extend
  = Raise ZeroDivisionError /\
  get_via_info DummyTechInfo bbox bot_layer top_layer bot_dir bot_len top_len
    extend opt_top_dir
  = Raise ZeroDivisionError.
Proof.
  assert (Hbest : forall vn bm tm bd td w0 h0,
            get_best_via_array DummyTechInfo vn bm tm bd td w0 h0 extend
            = Raise ZeroDivisionError).
  { intros vn bm tm bd td w0 h0. unfold get_best_via_array, via_search.
    destruct (String.eqb bd "x"), (String.eqb td "x"); reflexivity. }
  split; [apply Hbest|].
  unfold get_via_info. rewrite Hbest. reflexivity.
Qed.

Lemma dummy_npar_step (res_type : string) (res_targ idc iac_rms iac_peak : float)
    (npar_iter : BinaryIterator.t (Z * Z * Z)) (npar : Z) :
  BinaryIterator.get_next npar_iter = npar -> npar = 1 \/ npar = 2 ->
  npar_step DummyTechInfo res_type res_targ idc iac_rms iac_peak 0 0 0 0 0 1 npar_iter
  = Some (Raise ZeroDivisionError).
Proof.
  intros Hn Hnpar. unfold npar_step. rewrite Hn.
  assert (Hpar : exists a b c d,
            par_targets res_targ idc iac_rms iac_peak npar = Ok (a, b, c, d))
    by (destruct Hnpar as [-> | ->]; do 4 eexists; reflexivity).
  destruct Hpar as (a & b & c & d & ->). cbn [run_bind].
  change (get_res_em_specs DummyTechInfo res_type 0 (-1)%float)
    with (infinity, infinity, infinity).
  rewrite em_unbounded. reflexivity.
Qed.

(** X15: on [DummyTechInfo] every resistor design fails: the sheet resistance
    is [0.0], so the first length computation divides by zero.
    [design_resistor] raises [ZeroDivisionError] for every target,
    current and parity. *)
Theorem dummy_design_resistor_raises
    (res_type : string) (fuel : nat)
    (res_targ idc iac_rms iac_peak : float) (num_even : bool) :
  design_resistor DummyTechInfo res_type (S fuel) res_targ idc iac_rms iac_peak
    num_even
  = Some (Raise ZeroDivisionError).
Proof.
  unfold design_resistor.
  change (unit_bounds DummyTechInfo res_type) with (Ok (0, 0, 0, 0) : result _).
  cbn [run_bind]. unfold npar_search.
  change (get_res_rsquare DummyTechInfo res_type) with 0%float.
  change (snd (get_res_width_bounds DummyTechInfo res_type)) with 0%float.
  change (get_res_min_nsquare DummyTechInfo res_type) with 1%float.
  destruct num_even; cbn [while_loop];
    change (BinaryIterator.has_next (BinaryIterator.init _ None _)) with true;
    cbv iota.
  - rewrite (dummy_npar_step res_type res_targ idc iac_rms iac_peak _ 2);
      [reflexivity|reflexivity|now right].
  - rewrite (dummy_npar_step res_type res_targ idc iac_rms iac_peak _ 1);
      [reflexivity|reflexivity|now left].
Qed.

(* ------------------------------------------------------------------ *)
(** * A box with no room for a cut *)

Lemma nxy_list_empty (nx_max ny_max : Z) :
  nx_max < 1 \/ ny_max < 1 -> nxy_list nx_max ny_max = [].
Proof.
  intros H. destruct (nxy_list nx_max ny_max) as [|[[num nx] ny] tl] eqn:E;
    [reflexivity|].
  assert (Hin : In (num, nx, ny) (nxy_list nx_max ny_max))
    by (rewrite E; now left).
  apply nxy_list_In in Hin. lia.
Qed.

Lemma find_opt_no_room (w h : Z) (extend : bool) (bot_dir top_dir : string)
    (bot_drc_info top_drc_info : via_drc_info) :
  no_room w h bot_drc_info ->
  find_opt w h extend bot_dir top_dir bot_drc_info top_drc_info = Ok None.
Proof.
  unfold no_room, find_opt.
  destruct (sp_min _ _ _) as [fx fy]. cbn [fst snd].
  destruct (drc_dim bot_drc_info) as [dx dy]. cbn [fst snd].
  intros H. unfold Py.floordiv.
  assert (Hx : dx + fx <> 0) by lia. assert (Hy : dy + fy <> 0) by lia.
  apply Z.eqb_neq in Hx. apply Z.eqb_neq in Hy. rewrite Hx, Hy. cbn [bind].
  rewrite nxy_list_empty; [reflexivity|].
  destruct H as [(Hp & Hw & _)|(Hp & Hh & _)]; [left|right];
    apply Z.div_lt_upper_bound; lia.
Qed.

(** X16: a box with no room for one cut of any candidate via type gives
    no via. When every candidate has no rule, or a cut wider than the
    box (or taller) at a positive pitch, [get_best_via_array] returns
    [None] and raises nothing, whatever the enclosure rules and [extend]
    are. *)
Theorem no_room_gives_none
    (tech : TechInfo) (vname bmtype tmtype bot_dir top_dir : string)
    (w h : Z) (extend : bool)
    (Hall : forall vtype weight,
       In (vtype, weight) (get_via_types tech bmtype tmtype) ->
       lookup_drc tech vname vtype bmtype tmtype
         (metal_width bot_dir w h) (metal_width top_dir w h) = Ok None \/
       exists bot_drc_info top_drc_info,
         lookup_drc tech vname vtype bmtype tmtype
           (metal_width bot_dir w h) (metal_width top_dir w h)
         = Ok (Some (bot_drc_info, top_drc_info)) /\
         no_room w h bot_drc_info) :
  get_best_via_array tech vname bmtype tmtype bot_dir top_dir w h extend = Ok None.
Proof.
  unfold get_best_via_array. rewrite via_search_unfold.
  rewrite for_each_all_fail; [reflexivity|].
  intros vtype weight Hin.
  destruct (Hall vtype weight Hin) as [Hn|(b & t & Hl & Hroom)]; [now left|].
  right. exists b, t. split; [exact Hl|]. apply find_opt_no_room. exact Hroom.
Qed.

Lemma no_room_gives_none_witness :
  get_best_via_array Examples.tech_square "via1" "m1" "m2" "x" "y" 1 10 true
  = Ok None.
Proof.
  apply no_room_gives_none. intros vtype weight [Heq|[]].
  injection Heq as <- _. right.
  exists Examples.square_rule, Examples.square_rule.
  split; [reflexivity|]. left. cbn. lia.
Defined.
